(** * heart-sound-machine: the experiment driver [tasks/experiment.py]

    A shallow embedding of the driver script: the audio loader, the two
    label mappers, the two manifest builders, the two experiment runners
    and the grid loop of [__main__], followed by the properties of its
    specification, stated and proved against the embedded code.

    Python exceptions are values of [exn]; code that can raise returns a
    [result]; code that mutates shared objects (the configuration dict,
    the [Metric] instances, the files on disk, the result lists) threads
    an explicit state, and the state reached when an exception escapes is
    kept, so that what was written before the failure can be read off. *)

From Stdlib Require Import ZArith List String Ascii QArith Lia Bool.
From Stdlib Require Import Floats.PrimFloat Numbers.Cyclic.Int63.Uint63.
From stdpp Require Import base option list sorting gmap strings.

Set Warnings "-inexact-float".

Local Open Scope string_scope.
Local Open Scope list_scope.
Local Open Scope Z_scope.

(** ** Exceptions, results and state *)

Inductive exn : Type :=
| AttributeError (msg : string)
| KeyError (key : string)
| IndexError
| TypeError (msg : string)
| ValueError (msg : string)
| AssertionError
| EmptyDataError
| RecursionError
| CollaboratorError (msg : string).

Inductive result (A : Type) : Type :=
| Ok (a : A)
| Raise (e : exn).
Arguments Ok {A} a.
Arguments Raise {A} e.

#[global] Instance result_ret : MRet result := fun _ a => Ok a.
#[global] Instance result_bind : MBind result := fun _ _ f m =>
  match m with
  | Ok a => f a
  | Raise e => Raise e
  end.

(** A computation over a mutable state [S]: the state is returned also
    when an exception escapes. *)
Definition St (S A : Type) : Type := S -> result A * S.

#[global] Instance St_ret {S} : MRet (St S) := fun _ a s => (Ok a, s).
#[global] Instance St_bind {S} : MBind (St S) := fun _ _ f m s =>
  match m s with
  | (Ok a, s') => f a s'
  | (Raise e, s') => (Raise e, s')
  end.

Definition raise {S A} (e : exn) : St S A := fun s => (Raise e, s).
Definition lift {S A} (r : result A) : St S A := fun s => (r, s).
Definition get_state {S} : St S S := fun s => (Ok s, s).
Definition gets {S A} (f : S -> A) : St S A := fun s => (Ok (f s), s).
Definition modify {S} (f : S -> S) : St S unit := fun s => (Ok tt, f s).

(** [for x in xs: acc = body(acc, x)], the loop-carried variables in [acc]. *)
Fixpoint for_fold {S A B} (xs : list A) (body : B -> A -> St S B) (acc : B) : St S B :=
  match xs with
  | [] => mret acc
  | x :: xs' => acc' ← body acc x; for_fold xs' body acc'
  end.

Definition for_each {S A} (xs : list A) (body : A -> St S unit) : St S unit :=
  for_fold xs (fun _ x => body x) tt.

(** ** Python sequences, dicts and strings *)

(** [seq[i]] for a non-negative literal index. *)
Definition py_index {A} (l : list A) (i : nat) : result A :=
  match l !! i with
  | Some x => Ok x
  | None => Raise IndexError
  end.

(** [d[k]] on a dict with string keys. *)
Definition py_getitem {V} (d : gmap string V) (k : string) : result V :=
  match d !! k with
  | Some v => Ok v
  | None => Raise (KeyError k)
  end.

(** [len(x)] as a Python integer. *)
Definition len {A} (l : list A) : Z := Z.of_nat (length l).

(** [seq[:k]]: a negative bound counts from the end. *)
Definition slice_to {A} (k : Z) (l : list A) : list A :=
  if k <? 0 then take (Z.to_nat (len l + k)) l else take (Z.to_nat k) l.

(** [s[:k]] on a string. *)
Definition str_slice_to (k : Z) (s : string) : string :=
  if k <? 0 then substring 0 (Z.to_nat (Z.of_nat (String.length s) + k)) s
  else substring 0 (Z.to_nat k) s.

(** [needle in s]. *)
Fixpoint str_contains (needle s : string) : bool :=
  String.prefix needle s ||
  match s with
  | EmptyString => false
  | String _ s' => str_contains needle s'
  end.

(** [s.startswith(p)] and [s.endswith(p)]. *)
Definition str_startswith (p s : string) : bool := String.prefix p s.

Definition str_endswith (p s : string) : bool :=
  (String.length p <=? String.length s)%nat &&
  String.eqb (substring (String.length s - String.length p) (String.length p) s) p.

(** [s.split(sep)] for a non-empty separator: the string is cut at each
    occurrence found scanning from the left; [skip] counts the characters
    of a separator still to be passed over, [cur] holds the current piece
    reversed. *)
Fixpoint str_split_aux (sep s : string) (skip : nat) (cur : string) : list string :=
  match s with
  | EmptyString => [String.rev cur]
  | String c s' =>
      match skip with
      | S k => str_split_aux sep s' k cur
      | O =>
          if String.prefix sep s
          then String.rev cur :: str_split_aux sep s' (String.length sep - 1) EmptyString
          else str_split_aux sep s' O (String c cur)
      end
  end.

Definition str_split (sep s : string) : list string := str_split_aux sep s O EmptyString.

(** [seq[-1]]. *)
Definition py_last {A} (l : list A) : result A :=
  match last l with
  | Some x => Ok x
  | None => Raise IndexError
  end.

(** [s.replace(c, '')] for a one-character [c]. *)
Fixpoint str_remove (c : ascii) (s : string) : string :=
  match s with
  | EmptyString => EmptyString
  | String a s' => if Ascii.eqb a c then str_remove c s' else String a (str_remove c s')
  end.

Definition newline : ascii := "010"%char.

(** The order [list.sort()] uses on [str]: lexicographic by code point. *)
Definition str_le (a b : string) : Prop := Is_true (String.leb a b).

#[global] Instance str_le_dec : RelDecision str_le := fun a b => Is_true_dec (String.leb a b).

Definition sort_strings (l : list string) : list string := merge_sort str_le l.

(** ** Audio loader ([set_load_func], lines 41-52) *)

Section AudioLoader.
(** The sample type of the decoded waveform and its zero. *)
Context {sample : Type} (zero : sample).
(** [librosa.core.load(path, sr=sr)[0]]: the decoder (mono by default, so
    the waveform is one-dimensional); a decode failure is an exception. *)
Variable load : string -> Z -> result (list sample).

(** [np.pad(a, n)] on a one-dimensional array: the default mode is
    ['constant'] with [constant_values=0]; a negative width is refused. *)
Definition np_pad (a : list sample) (n : Z) : result (list sample) :=
  if n <? 0 then Raise (ValueError "index can't contain negative values")
  else Ok (replicate (Z.to_nat n) zero ++ a ++ replicate (Z.to_nat n) zero).

(** [a.reshape((1, -1))] on a one-dimensional array. *)
Definition reshape_row (a : list sample) : list (list sample) := [a].

(** [load_func], the closure [set_load_func(sr, one_audio_sec)] returns;
    [path] is a manifest row, whose first field is the file. *)
Definition load_func (sr one_audio_sec : Z) (path : list string)
  : result (list (list sample)) :=
  let const_length := sr * one_audio_sec in
  p ← py_index path 0;
  wave ← load p sr;
  wave ← (if len wave >? const_length then
            Ok (slice_to const_length wave)
          else if len wave <? const_length then
            let n_pad := (const_length - len wave) / 2 + 1 in
            padded ← np_pad (slice_to const_length wave) n_pad;
            Ok (slice_to const_length padded)
          else Ok wave);
  Ok (reshape_row wave).

(** The specification's words "symmetric padding semantics" read as
    numpy's [mode='symmetric']: the array is extended on both sides by its
    own mirror image, the edge sample included, with period [2 * len(a)].
    An empty array cannot be extended that way. *)
Definition np_pad_symmetric (a : list sample) (n : Z) : result (list sample) :=
  if n <? 0 then Raise (ValueError "index can't contain negative values")
  else match a with
       | [] => if n =? 0 then Ok []
               else Raise (ValueError "can't extend empty axis 0 using modes other than 'constant' or 'empty'")
       | x :: _ =>
           let period := a ++ rev a in
           let at_ (i : Z) := nth (Z.to_nat ((i - n) `mod` len period)) period x in
           Ok (map at_ (map Z.of_nat (seq 0 (length a + 2 * Z.to_nat n))))
       end.

(** The loader as the specification words it: [load_func] with the mirror
    padding in place of [np_pad]. *)
Definition load_func_symmetric (sr one_audio_sec : Z) (path : list string)
  : result (list (list sample)) :=
  let const_length := sr * one_audio_sec in
  p ← py_index path 0;
  wave ← load p sr;
  wave ← (if len wave >? const_length then
            Ok (slice_to const_length wave)
          else if len wave <? const_length then
            let n_pad := (const_length - len wave) / 2 + 1 in
            padded ← np_pad_symmetric (slice_to const_length wave) n_pad;
            Ok (slice_to const_length padded)
          else Ok wave);
  Ok (reshape_row wave).
End AudioLoader.

(** ** Label mappers (lines 32-38) *)

Definition hss_label_func {A} (row : list A) : result A := py_index row 1.

Definition converter : gmap string Z := {[ "Normal" := 0; "Abnormal" := 1 ]}.

Definition cinc_label_func (row : list string) : result Z :=
  label ← py_index row 1;
  py_getitem converter label.

(** ** Numbers

    The metric values are Python floats. The driver only adds them up and
    divides by a count, so the code is embedded over an interface with
    these operations, instantiated below with IEEE binary64 (what the
    program computes with) and with the rationals (exact arithmetic). *)

Class Arith (A : Type) : Type := {
  a_zero : A;
  a_add : A -> A -> A;
  a_div : A -> A -> A;
  a_of_nat : nat -> A
}.

#[global] Instance float_arith : Arith float := {|
  a_zero := 0%float;
  a_add := PrimFloat.add;
  a_div := PrimFloat.div;
  a_of_nat n := PrimFloat.of_uint63 (Uint63.of_Z (Z.of_nat n))
|}.

#[global] Instance Q_arith : Arith Q := {|
  a_zero := 0%Q;
  a_add := Qplus;
  a_div := Qdiv;
  a_of_nat n := inject_Z (Z.of_nat n)
|}.

Section Mean.
Context {num : Type} `{Arith num}.

(** [np.add.reduce]: the accumulator starts at the first element and the
    rest is added from the left (the order numpy uses below eight
    elements; longer arrays are summed in blocks, which differs only in
    rounding); the sum of nothing is zero. *)
Definition np_sum (a : list num) : num :=
  match a with
  | [] => a_zero
  | x :: rest => fold_left a_add rest x
  end.

(** [a.mean()] of a one-dimensional array: the sum over the count. Over
    binary64 the mean of nothing is [0/0 = nan], as in numpy. *)
Definition np_mean (a : list num) : num := a_div (np_sum a) (a_of_nat (length a)).
End Mean.

(** The arithmetic mean as the specification means it, over the rationals. *)
Definition arithmetic_mean (a : list Q) : Q :=
  (fold_right Qplus 0%Q a / inject_Z (len a))%Q.

(** ** Files and data frames

    The disk is the log of the files written, oldest first. A data frame
    keeps its column labels and its rows; a missing value ([NaN]) is
    [None]. Only the pandas operations the driver calls are modelled. *)

Abbreviation cell := (option string) (only parsing).

Inductive file : Type :=
| FCsv (rows : list (list cell))
| FText (text : string).

Definition disk : Type := list (string * file).

Definition write_file (path : string) (f : file) : St disk unit :=
  modify (fun d => d ++ [(path, f)]).

(** The paths written so far. *)
Definition written (d : disk) : list string := map fst d.

Inductive col : Type :=
| CName (s : string)
| CPos (i : Z).

#[global] Instance col_eq_dec : EqDecision col.
Proof. solve_decision. Defined.

Record DataFrame : Type := {
  df_columns : list col;
  df_rows : list (list cell)
}.

(** [len(df)] and [df.shape[0]]. *)
Definition df_len (df : DataFrame) : Z := len (df_rows df).

(** [pd.read_csv(path, sep=...)] on the file's lines, each split into its
    fields: the first line is the header; a file with no line at all is
    refused. *)
Definition read_csv (lines : list (list string)) : result DataFrame :=
  match lines with
  | [] => Raise EmptyDataError
  | header :: rows =>
      Ok {| df_columns := map CName header; df_rows := map (map Some) rows |}
  end.

(** [pd.read_csv(path, header=None)]: every line is a row, the columns are
    numbered; a file with no line at all is refused. *)
Definition read_csv_no_header (lines : list (list string)) : result DataFrame :=
  match lines with
  | [] => Raise EmptyDataError
  | first :: _ =>
      Ok {| df_columns := map (fun i => CPos (Z.of_nat i)) (seq 0 (length first));
            df_rows := map (map Some) lines |}
  end.

(** [df.iloc[:k, :]] and [df.iloc[k:, :]] for [k = len(...)]. *)
Definition iloc_to (k : Z) (df : DataFrame) : DataFrame :=
  {| df_columns := df_columns df; df_rows := slice_to k (df_rows df) |}.

Definition iloc_from (k : Z) (df : DataFrame) : DataFrame :=
  {| df_columns := df_columns df; df_rows := drop (Z.to_nat k) (df_rows df) |}.

Fixpoint col_index (key : col) (cols : list col) : option nat :=
  match cols with
  | [] => None
  | c :: cols' => if decide (c = key) then Some O else S <$> col_index key cols'
  end.

(** [DataFrame._ensure_valid_index]: a frame with no row takes its index
    from a non-empty list assigned to it; its other columns are filled
    with [NaN]. *)
Definition ensure_valid_index (df : DataFrame) (values : list string) : DataFrame :=
  match df_rows df, values with
  | [], _ :: _ =>
      {| df_columns := df_columns df;
         df_rows := replicate (length values) (replicate (length (df_columns df)) None) |}
  | _, _ => df
  end.

(** [df[key] = values] for a list: after [ensure_valid_index] the lengths
    must agree; an existing column is replaced, a new one comes last. *)
Definition df_setitem (df : DataFrame) (key : col) (values : list string) : result DataFrame :=
  let df := ensure_valid_index df values in
  if decide (length values = length (df_rows df)) then
    match col_index key (df_columns df) with
    | Some j =>
        Ok {| df_columns := df_columns df;
              df_rows := zip_with (fun row v => <[j := Some v]> row) (df_rows df) values |}
    | None =>
        Ok {| df_columns := df_columns df ++ [key];
              df_rows := zip_with (fun row v => row ++ [Some v]) (df_rows df) values |}
    end
  else Raise (ValueError "Length of values does not match length of index").

(** [df.columns = names]. *)
Definition df_set_columns (df : DataFrame) (names : list string) : result DataFrame :=
  if decide (length names = length (df_columns df)) then
    Ok {| df_columns := map CName names; df_rows := df_rows df |}
  else Raise (ValueError "Length mismatch").

(** [df.to_csv(path, index=False, header=None)]. *)
Definition to_csv (path : string) (df : DataFrame) : St disk unit :=
  write_file path (FCsv (df_rows df)).

(** [pd.DataFrame([a, b]).T]: the shorter of the two lists is filled up
    with missing values, then each position becomes a row. *)
Definition df_of_two_lists_T (a b : list string) : DataFrame :=
  {| df_columns := [CPos 0; CPos 1];
     df_rows := map (fun i => [a !! i; b !! i]) (seq 0 (length a `max` length b)) |}.

(** ** Manifest builder, family A ([create_hss_manifest], lines 55-92)

    [db] is the constant ['1'], so only the first branch is live. The
    inputs are what the function reads: the names found in
    [DATA_DIR/wav] (in [iterdir] order) and the lines of the two label
    files. *)

Definition hss_phase_files (data_dir : string) (wav_dir : list string) (phase : string)
  : list string :=
  sort_strings
    (map (fun name => data_dir +:+ "/wav/" +:+ name)
         (filter (fun name => Is_true (str_contains phase name)) wav_dir)).

Definition create_hss_manifest (data_dir : string) (wav_dir : list string)
    (labels_train_dev labels_test : list (list string)) : St disk unit :=
  let dic : gmap string (list string) :=
    foldl (fun dic phase => <[phase := hss_phase_files data_dir wav_dir phase]> dic)
          ∅ ["train"; "devel"; "test"] in
  train_dev_label ← lift (read_csv labels_train_dev);
  test ← lift (read_csv_no_header labels_test);
  files ← lift (py_getitem dic "train");
  let train := iloc_to (len files) train_dev_label in
  train ← lift (df_setitem train (CName "file_name") files);
  to_csv (data_dir +:+ "/train_manifest.csv") train;;
  files ← lift (py_getitem dic "train");
  let val := iloc_from (len files) train_dev_label in
  files ← lift (py_getitem dic "devel");
  (if decide (df_len val = len files) then mret tt else raise AssertionError);;
  val ← lift (df_setitem val (CName "file_name") files);
  to_csv (data_dir +:+ "/val_manifest.csv") val;;
  files ← lift (py_getitem dic "test");
  test ← lift (df_setitem test (CPos 0) files);
  test ← lift (df_set_columns test ["file_name"; "label"]);
  to_csv (data_dir +:+ "/test_manifest.csv") test.

(** ** Manifest builder, family B ([create_cinc_manifest], lines 95-114)

    A [Path] is the list of its parts; paths are ordered part by part.
    The inputs are the entries of [DATA_DIR/cinc] with what each holds, and
    the text of the header files. *)

Definition Path : Type := list string.

Definition path_name (p : Path) : string := default "" (last p).

Fixpoint parts_leb (a b : Path) : bool :=
  match a, b with
  | [], _ => true
  | _ :: _, [] => false
  | x :: a', y :: b' =>
      match String.compare x y with
      | Lt => true
      | Gt => false
      | Eq => parts_leb a' b'
      end
  end.

Definition path_le (a b : Path) : Prop := Is_true (parts_leb a b).

#[global] Instance path_le_dec : RelDecision path_le := fun a b => Is_true_dec (parts_leb a b).

Definition sort_paths (l : list Path) : list Path := merge_sort path_le l.

Fixpoint path_str (p : Path) : string :=
  match p with
  | [] => ""
  | x :: p' => "/" +:+ x +:+ path_str p'
  end.

(** The files of the training folders whose name ends with [ext]. *)
Definition cinc_paths (training_folders : list (Path * list string)) (ext : string)
  : list Path :=
  foldl (fun paths folder =>
           paths ++ map (fun name => folder.1 ++ [name])
                        (filter (fun name => Is_true (str_endswith ext name)) folder.2))
        [] training_folders.

(** [training_folders], and the two sorted lists of lines 98-105. *)
Definition cinc_training_folders (data_dir : Path) (cinc_dir : list (string * list string))
  : list (Path * list string) :=
  map (fun entry => (data_dir ++ ["cinc"; entry.1], entry.2))
      (filter (fun entry => Is_true (str_startswith "training-" entry.1)) cinc_dir).

Definition cinc_head_paths (data_dir : Path) (cinc_dir : list (string * list string))
  : list Path :=
  sort_paths (cinc_paths (cinc_training_folders data_dir cinc_dir) ".hea").

Definition cinc_wav_paths (data_dir : Path) (cinc_dir : list (string * list string))
  : list Path :=
  sort_paths (cinc_paths (cinc_training_folders data_dir cinc_dir) ".wav").

(** [name[:-4]], the name without its extension. *)
Definition stem (p : Path) : string := str_slice_to (-4) (path_name p).

(** [text.split('# ')[-1].replace('\n', '')], the label a header ends
    with. *)
Definition header_label (text : string) : result string :=
  piece ← py_last (str_split "# " text);
  Ok (str_remove newline piece).

Definition create_cinc_manifest (data_dir : Path) (cinc_dir : list (string * list string))
    (read_text : Path -> result string) : St disk unit :=
  let head_paths := cinc_head_paths data_dir cinc_dir in
  let wav_paths := cinc_wav_paths data_dir cinc_dir in
  labels ← for_fold (zip head_paths wav_paths)
    (fun labels pair =>
       let '(head, wav) := pair in
       if decide (stem head = stem wav) then
         text ← lift (read_text head);
         label ← lift (header_label text);
         mret (labels ++ [label])
       else raise AssertionError)
    [];
  let manifest := df_of_two_lists_T (map path_str wav_paths) labels in
  to_csv (path_str (data_dir ++ ["cinc_manifest.csv"])) manifest.

(** ** The configuration and the object store *)

(** The values [train_conf] holds. *)
Inductive value : Type :=
| VStr (s : string)
| VInt (z : Z)
| VFloat (f : float)
| VBool (b : bool)
| VInts (l : list Z).

Inductive direction : Type := minimize | maximize.

Section Driver.
Context {num : Type} `{Arith num}.

(** Modelled from the spec: the class [Metric] of [ml.src.metrics], which
    is not among the sources: "named scalar tracked across phases, with a
    direction (minimize/maximize) and whether it should trigger model
    checkpointing". [average_meter] is its mutable part, the value kept for
    each phase. *)
Record Metric : Type := {
  name : string;
  m_direction : direction;
  save_model : bool;
  average_meter : gmap string num
}.

(** Python objects live in a store and are named by their address; a list
    holds the addresses of its items, so two names of one list, or two
    lists with one item, see each other's mutations. *)
Abbreviation loc := nat (only parsing).

Inductive obj : Type :=
| OMetric (m : Metric)
| OList (items : list loc).

Abbreviation heap := (list obj) (only parsing).

Definition alloc (o : obj) : St heap loc :=
  fun h => (Ok (length h), h ++ [o]).

Definition read (l : loc) : St heap obj :=
  fun h => match h !! l with
           | Some o => (Ok o, h)
           | None => (Raise (ValueError "no object at this address"), h)
           end.

Definition store (l : loc) (o : obj) : St heap unit := modify (fun h => <[l := o]> h).

(** [Metric(name, direction=..., save_model=...)]. *)
Definition new_Metric (n : string) (d : direction) (save : bool) : St heap loc :=
  alloc (OMetric {| name := n; m_direction := d; save_model := save; average_meter := ∅ |}).

(** A list display [[e1, ..., en]]: the items are evaluated left to
    right, then the list is made. *)
Definition new_list (items : list (St heap loc)) : St heap loc :=
  ls ← for_fold items (fun ls item => l ← item; mret (ls ++ [l])) [];
  alloc (OList ls).

(** [copy.deepcopy(x, memo)]: an object met before is answered from
    [memo]; a list is registered, then filled with the copies of its
    items; an instance is rebuilt with its state (here all of immutable
    values). [fuel] is the interpreter's recursion limit. *)
Fixpoint deepcopy_memo (fuel : nat) (x : loc) (memo : list (loc * loc))
  : St heap (loc * list (loc * loc)) :=
  match fuel with
  | O => raise RecursionError
  | S fuel' =>
      match list_find (fun entry => entry.1 = x) memo with
      | Some (_, (_, y)) => mret (y, memo)
      | None =>
          o ← read x;
          match o with
          | OMetric m =>
              y ← alloc (OMetric m);
              mret (y, (x, y) :: memo)
          | OList items =>
              y ← alloc (OList []);
              r ← for_fold items
                    (fun acc a =>
                       let '(ys, memo) := acc in
                       r ← deepcopy_memo fuel' a memo;
                       let '(b, memo') := r in
                       store y (OList (ys ++ [b]));;
                       mret (ys ++ [b], memo'))
                    ([], (x, y) :: memo);
              mret (y, r.2)
          end
      end
  end.

Definition recursion_limit : nat := 1000.

Definition deepcopy (x : loc) : St heap loc :=
  r ← deepcopy_memo recursion_limit x [];
  mret r.1.

(** The items of the list at [l], and the metrics a phase's list holds. *)
Definition list_items (h : heap) (l : loc) : list loc :=
  match h !! l with
  | Some (OList items) => items
  | _ => []
  end.

Definition metrics_of (h : heap) (l : loc) : list (option obj) :=
  map (fun a => h !! a) (list_items h l).

(** What a phase's entry reaches: its list and the items of the list. *)
Definition reach (h : heap) (l : loc) : list loc := l :: list_items h l.

(** [copy] is a deep copy of [orig]: another list, none of whose items is
    an item of [orig], holding position by position the same contents. *)
Definition deep_copy_of (h : heap) (copy orig : loc) : Prop :=
  copy <> orig /\
  (forall a, a ∈ list_items h copy -> a ∉ list_items h orig) /\
  metrics_of h copy = metrics_of h orig.

(** The state [__main__] runs in: the disk, the object store, the one
    configuration dict every call shares, the two result containers and
    what was printed. *)
Inductive printed : Type :=
| PStr (s : string)
| PList (l : list num)
| PDict (d : gmap string (list num)).

Record world : Type := {
  w_disk : disk;
  w_heap : heap;
  train_conf : gmap string value;
  results : gmap string (list num);
  val_results : list num;
  stdout : list printed
}.

Definition on_disk {A} (c : St disk A) : St world A := fun w =>
  let '(r, d) := c (w_disk w) in
  (r, {| w_disk := d; w_heap := w_heap w; train_conf := train_conf w;
         results := results w; val_results := val_results w; stdout := stdout w |}).

Definition on_heap {A} (c : St heap A) : St world A := fun w =>
  let '(r, h) := c (w_heap w) in
  (r, {| w_disk := w_disk w; w_heap := h; train_conf := train_conf w;
         results := results w; val_results := val_results w; stdout := stdout w |}).

(** [train_conf[k]] and [train_conf[k] = v]. *)
Definition conf_get (k : string) : St world value := fun w =>
  (py_getitem (train_conf w) k, w).

Definition conf_set (k : string) (v : value) : St world unit :=
  modify (fun w =>
    {| w_disk := w_disk w; w_heap := w_heap w; train_conf := <[k := v]> (train_conf w);
       results := results w; val_results := val_results w; stdout := stdout w |}).

Definition set_results (r : gmap string (list num)) : St world unit :=
  modify (fun w =>
    {| w_disk := w_disk w; w_heap := w_heap w; train_conf := train_conf w;
       results := r; val_results := val_results w; stdout := stdout w |}).

Definition set_val_results (v : list num) : St world unit :=
  modify (fun w =>
    {| w_disk := w_disk w; w_heap := w_heap w; train_conf := train_conf w;
       results := results w; val_results := v; stdout := stdout w |}).

Definition print (p : printed) : St world unit :=
  modify (fun w =>
    {| w_disk := w_disk w; w_heap := w_heap w; train_conf := train_conf w;
       results := results w; val_results := val_results w; stdout := stdout w ++ [p] |}).

Definition is_str (v : value) (s : string) : bool :=
  match v with
  | VStr s' => String.eqb s' s
  | _ => false
  end.

(** ** The collaborators

    What the driver calls and the sources do not hold: each is a function
    of what it is given, and may raise. The objects built only to be
    handed on ([Preprocessor], [ManualDataSet], the dataloaders, the
    closure of [set_load_func]) have no effect the driver sees, so a
    failure of one of them counts as a failure of the manager that
    receives them. The [mkdir(exist_ok=True)] calls are left out: the
    disk is only the log of the files written. *)

(** [TrainManager(train_conf, ...).train_test()], its last two results:
    the per-fold validation and test metrics, a column of values for each
    metric name. *)
Variable train_manager :
  gmap string value -> gmap string loc -> heap ->
  result (gmap string (list num) * gmap string (list num)).
(** [BaseModelManager(...)], [train()] and [test(return_metrics=True)]:
    the metrics after the test pass. *)
Variable base_model_manager : gmap string value -> loc -> heap -> result (list Metric).
(** [json.dumps(train_conf, indent=4)], [str(x)] in an f-string, and
    [metrics2df(..., phase='test')] as the rows [to_csv] writes. *)
Variable json_dumps : gmap string value -> string.
Variable py_str : value -> string.
Variable metrics2df_cv : gmap string (list num) -> list (list cell).
Variable metrics2df : list Metric -> list (list cell).
(** [Path(__file__).resolve().parent.parent / 'output']. *)
Variable output_dir : string.

(** The two files both runners leave: the parameters and the test metrics
    (lines 149-156 and 196-203). *)
Definition persist (rows : list (list cell)) : St world unit :=
  log_id ← conf_get "log_id";
  conf ← gets train_conf;
  on_disk (write_file (output_dir +:+ "/params/" +:+ py_str log_id +:+ ".txt")
                      (FText (String newline "Parameters:" +:+ String newline (json_dumps conf))));;
  log_id ← conf_get "log_id";
  on_disk (write_file (output_dir +:+ "/metrics/" +:+ py_str log_id +:+ "_test.csv")
                      (FCsv rows)).

(** ** Single-split runner ([hss_experiment], lines 117-158) *)

Definition DATALOADERS : list string := ["normal"; "ml"].

Definition hss_experiment : St world num :=
  let phases := ["train"; "val"; "test"] in
  task_type ← conf_get "task_type";
  conf_set "class_names" (VInts (if is_str task_type "regress" then [0] else [0; 1; 2]));;
  conf_set "prev_classes" (VInts [0; 1]);;
  for_each phases (fun phase =>
    _ ← conf_get (phase +:+ "_path");
    kind ← conf_get "dataloader_type";
    if existsb (is_str kind) DATALOADERS then mret tt else raise (KeyError (py_str kind)));;
  metrics ← on_heap (new_list [
    new_Metric "loss" minimize true;
    new_Metric "uar" maximize false
  ]);
  conf ← gets train_conf;
  h ← gets w_heap;
  metrics ← lift (base_model_manager conf metrics h);
  uar ← lift (py_index (filter (fun m => name m = "uar") metrics) 0);
  persist (metrics2df metrics);;
  lift (py_getitem (average_meter uar) "test").

(** ** Cross-validation runner ([cv_experiment], lines 161-205) *)

(** Lines 177-189: the three metric lists and the dict that names them.
    The result is [train_val_metrics], [test_metrics] and [metrics]. *)
Definition cv_metrics : St heap (loc * loc * gmap string loc) :=
  train_val_metrics ← new_list [
    new_Metric "loss" minimize true;
    new_Metric "uar" maximize false
  ];
  test_metrics ← new_list [
    new_Metric "loss" minimize true;
    new_Metric "uar" maximize false;
    new_Metric "recall_1" maximize false;
    new_Metric "specificity" maximize false;
    new_Metric "f1" maximize false
  ];
  copy ← deepcopy train_val_metrics;
  let metrics : gmap string loc :=
    <["test" := test_metrics]> (<["val" := train_val_metrics]> (<["train" := copy]> ∅)) in
  mret (train_val_metrics, test_metrics, metrics).

(** The twelve objects [cv_metrics] adds to a store that held [n]: the
    template with its two metrics, the test list with its five, the copy
    of the template with the two copies. *)
Definition fresh_Metric (n : string) (d : direction) (save : bool) : obj :=
  OMetric {| name := n; m_direction := d; save_model := save; average_meter := ∅ |}.

Definition cv_objects (n : nat) : list obj :=
  [ fresh_Metric "loss" minimize true; fresh_Metric "uar" maximize false;
    OList [n; n + 1];
    fresh_Metric "loss" minimize true; fresh_Metric "uar" maximize false;
    fresh_Metric "recall_1" maximize false; fresh_Metric "specificity" maximize false;
    fresh_Metric "f1" maximize false;
    OList [n + 3; n + 4; n + 5; n + 6; n + 7];
    OList [n + 10; n + 11];
    fresh_Metric "loss" minimize true; fresh_Metric "uar" maximize false ]%nat.

Definition cv_experiment : St world (num * gmap string (list num)) :=
  task_type ← conf_get "task_type";
  conf_set "class_names" (VInts (if is_str task_type "regress" then [0] else [0; 1]));;
  conf_set "prev_classes" (VInts [0; 1]);;
  built ← on_heap cv_metrics;
  let metrics := built.2 in
  conf ← gets train_conf;
  h ← gets w_heap;
  r ← lift (train_manager conf metrics h);
  let '(val_cv_metrics, test_cv_metrics) := r in
  persist (metrics2df_cv test_cv_metrics);;
  uar ← lift (py_getitem val_cv_metrics "uar");
  mret (np_mean uar, test_cv_metrics).

(** ** Grid loop ([__main__], lines 214 and 235-273) *)

Definition test_metric_names : list string := ["uar"; "recall_1"; "specificity"; "f1"].

Definition models : list string := ["vgg16"; "vgg19"; "resnet"; "mobilenet"; "resnext"].

Definition learning_rates : list float := [0.0001%float; 0.00001%float].

(** [{metric_name: [] for metric_name in test_metric_names}]. *)
Definition empty_lists : gmap string (list num) :=
  foldl (fun d metric_name => <[metric_name := []]> d) ∅ test_metric_names.

(** What the name [uar_res] may be bound to. *)
Inductive pyobj : Type :=
| PyDict (d : gmap string (list num))
| PyList (l : list num).

(** [o.append]: the attribute lookup, which a dict fails; the bound method
    it yields on a list. *)
Definition getattr_append (o : pyobj) : result (num -> pyobj) :=
  match o with
  | PyList l => Ok (fun x => PyList (l ++ [x]))
  | PyDict _ => Raise (AttributeError "'dict' object has no attribute 'append'")
  end.

(** [o[k]] for a string [k]. *)
Definition subscript (o : pyobj) (k : string) : result (list num) :=
  match o with
  | PyDict d => py_getitem d k
  | PyList _ => Raise (TypeError "list indices must be integers or slices, not str")
  end.

(** [o[k].append(x)], [x] given by a computation run after [o[k]] is
    looked up. *)
Definition subscript_append (o : pyobj) (k : string) (x : St world num) : St world pyobj :=
  l ← lift (subscript o k);
  v ← x;
  match o with
  | PyDict d => mret (PyDict (<[k := l ++ [v]]> d))
  | PyList _ => mret o
  end.

(** The body of the learning-rate loop, lines 251-269. In line 258 the
    callee [uar_res.append] is evaluated before its argument, the call of
    [hss_experiment]. *)
Definition grid_cell (lr : float) : St world unit :=
  conf_set "lr" (VFloat lr);;
  let uar_res := PyDict empty_lists in
  let val_uar_res : list num := [] in
  data_source ← conf_get "data_source";
  cell ← (if is_str data_source "HSS" then
            uar_res ← for_fold (seq 0 5) (fun uar_res seed =>
              conf_set "seed" (VInt (Z.of_nat seed));;
              append ← lift (getattr_append uar_res);
              uar ← hss_experiment;
              mret (append uar)) uar_res;
            mret (uar_res, val_uar_res)
          else
            data_source ← conf_get "data_source";
            if is_str data_source "CinC" then
              r ← cv_experiment;
              let '(val_uar, test_metrics) := r in
              let val_uar_res := val_uar_res ++ [val_uar] in
              uar_res ← for_fold test_metric_names (fun uar_res metric_name =>
                subscript_append uar_res metric_name
                  (column ← lift (py_getitem test_metrics metric_name);
                   mret (np_mean column))) uar_res;
              mret (uar_res, val_uar_res)
            else mret (uar_res, val_uar_res));
  let '(uar_res, val_uar_res) := cell in
  w ← get_state;
  set_val_results (val_results w ++ [np_mean val_uar_res]);;
  for_each test_metric_names (fun metric_name =>
    w ← get_state;
    collected ← lift (py_getitem (results w) metric_name);
    column ← lift (subscript uar_res metric_name);
    set_results (<[metric_name := collected ++ [np_mean column]]> (results w))).

Definition grid : St world unit :=
  set_results empty_lists;;
  set_val_results [];;
  for_each models (fun model =>
    conf_set "model_type" (VStr model);;
    print (PStr model);;
    for_each learning_rates grid_cell);;
  log_id ← conf_get "log_id";
  let expt_path := output_dir +:+ "/" +:+ py_str log_id +:+ ".csv" in
  w ← get_state;
  print (PList (val_results w));;
  w ← get_state;
  print (PDict (results w)).
End Driver.

Arguments Metric : clear implicits.
Arguments obj : clear implicits.
Abbreviation loc := nat (only parsing).
Abbreviation heap num := (list (obj num)) (only parsing).
Arguments printed : clear implicits.
Arguments world : clear implicits.
Arguments pyobj : clear implicits.

(** ** Stand-ins for the collaborators

    For the closed examples: a training manager that answers every call
    with the same per-fold metrics, a model manager that is never to be
    called, and the state before the grid loop with only the
    configuration entries the loop reads. *)

Definition stub_train_manager {num} (val_cv_metrics test_cv_metrics : gmap string (list num))
  : gmap string value -> gmap string loc -> heap num ->
    result (gmap string (list num) * gmap string (list num)) :=
  fun _ _ _ => Ok (val_cv_metrics, test_cv_metrics).

Definition no_model_manager {num}
  : gmap string value -> loc -> heap num -> result (list (Metric num)) :=
  fun _ _ _ => Raise (CollaboratorError "not called").

Definition stub_py_str (v : value) : string :=
  match v with
  | VStr s => s
  | _ => "?"
  end.

Definition stub_world {num} (data_source : string) : world num :=
  {| w_disk := []; w_heap := [];
     train_conf := <["log_id" := VStr "run"]>
                     (<["task_type" := VStr "classify"]>
                        (<["data_source" := VStr data_source]> ∅));
     results := empty_lists; val_results := []; stdout := [] |}.

(** A training manager that answers with one fold whose every value
    tells the cell it was called for: ten times the position of the model
    plus the position of the learning rate. *)
Definition position {A} (eqb : A -> A -> bool) (x : A) (l : list A) : Z :=
  match list_find (fun y => Is_true (eqb y x)) l with
  | Some (i, _) => Z.of_nat i
  | None => -1
  end.

Definition echo_train_manager
  : gmap string value -> gmap string loc -> heap Q ->
    result (gmap string (list Q) * gmap string (list Q)) :=
  fun conf _ _ =>
    model ← py_getitem conf "model_type";
    lr ← py_getitem conf "lr";
    let i := match model with VStr s => position String.eqb s models | _ => -1 end in
    let j := match lr with VFloat f => position PrimFloat.eqb f learning_rates | _ => -1 end in
    let fold := [inject_Z (10 * i + j)] in
    Ok (<["uar" := fold]> ∅,
        foldl (fun d metric_name => <[metric_name := fold]> d) ∅ test_metric_names).

(** ** The script ([__main__], lines 208-233 and the grid loop)

    [train_conf] is what [parse_args] returned: the state the script
    starts in. [exit()] ends the script before the lines after it: the
    script's value tells which of its two ends was reached. *)

Inductive ending : Type :=
| ran_to_end
| called_exit.

(** [v != ''] and the truth value of [v] in an [if]. *)
Definition not_empty_str (v : value) : bool := negb (is_str v "").

Definition truthy (v : value) : bool :=
  match v with
  | VStr s => negb (String.eqb s "")
  | VInt z => negb (z =? 0)
  | VFloat f => negb (PrimFloat.eqb f 0)
  | VBool b => b
  | VInts l => match l with
               | [] => false
               | _ :: _ => true
               end
  end.

Section Script.
Context {num : Type} `{Arith num}.
Variable train_manager :
  gmap string value -> gmap string loc -> heap num ->
  result (gmap string (list num) * gmap string (list num)).
Variable base_model_manager :
  gmap string value -> loc -> heap num -> result (list (Metric num)).
Variable json_dumps : gmap string value -> string.
Variable py_str : value -> string.
Variable metrics2df_cv : gmap string (list num) -> list (list cell).
Variable metrics2df : list (Metric num) -> list (list cell).
Variable output_dir : string.
(** [gradcam_main(train_conf, dataloader, load_func)], with the objects
    built for it. *)
Variable gradcam_main : gmap string value -> result unit.
(** What the manifest builders read: [DATA_DIR], the names in
    [DATA_DIR/wav], the lines of the two label files, the entries of
    [DATA_DIR/cinc] and the text of a header. *)
Variable input_dir : Path.
Variable wav_dir : list string.
Variables labels_train_dev labels_test : list (list string).
Variable cinc_dir : list (string * list string).
Variable read_text : Path -> result string.

(** Lines 211-212: [or] looks at [val_path] only when [train_path] is
    empty. *)
Definition assert_paths : St (world num) unit :=
  train_path ← conf_get "train_path";
  given ← (if not_empty_str train_path then mret true
           else val_path ← conf_get "val_path"; mret (not_empty_str val_path));
  if given : bool then mret tt else raise AssertionError.

(** Lines 218-228, the body of [if train_conf['gradcam']]. *)
Definition gradcam_branch : St (world num) ending :=
  data_source ← conf_get "data_source";
  (if is_str data_source "CinC" then mret tt else raise AssertionError);;
  conf_set "class_names" (VInts [0; 1]);;
  _ ← conf_get "manifest_path";
  conf ← gets train_conf;
  lift (gradcam_main conf);;
  mret called_exit.

(** Lines 230-233. *)
Definition create_manifest : St (world num) unit :=
  data_source ← conf_get "data_source";
  if is_str data_source "HSS" then
    on_disk (create_hss_manifest (path_str input_dir) wav_dir labels_train_dev labels_test)
  else
    data_source ← conf_get "data_source";
    if is_str data_source "CinC" then
      on_disk (create_cinc_manifest input_dir cinc_dir read_text)
    else mret tt.

Definition main : St (world num) ending :=
  assert_paths;;
  gradcam ← conf_get "gradcam";
  if truthy gradcam then gradcam_branch
  else
    create_manifest;;
    grid train_manager base_model_manager json_dumps py_str metrics2df_cv metrics2df
         output_dir;;
    mret ran_to_end.
End Script.

(** The state of a run with the paths given and [gradcam] off. *)
Definition script_world {num} (data_source : string) : world num :=
  {| w_disk := []; w_heap := [];
     train_conf := <["train_path" := VStr "input/train_manifest.csv"]>
                     (<["val_path" := VStr "input/val_manifest.csv"]>
                        (<["test_path" := VStr "input/test_manifest.csv"]>
                           (<["dataloader_type" := VStr "normal"]>
                              (<["gradcam" := VBool false]>
                                 (train_conf (stub_world (num := num) data_source))))));
     results := empty_lists; val_results := []; stdout := [] |}.

(** ** What a run may change

    [keeps R c]: from every state, [c] ends, normally or by an
    exception, in a state that [R] relates to the one it started in. *)

Definition keeps {S A} (R : relation S) (c : St S A) : Prop :=
  forall s, R s (c s).2.

(** The two files a runner writes, whatever [log_id] holds at the time. *)
Definition runner_file (output_dir : string) (py_str : value -> string)
    (f : string * file) : Prop :=
  exists log_id : value,
    f.1 = output_dir +:+ "/params/" +:+ py_str log_id +:+ ".txt" \/
    f.1 = output_dir +:+ "/metrics/" +:+ py_str log_id +:+ "_test.csv".

(** [w'] is [w] with nothing done to the disk but files of the kind
    [allowed] added; and with nothing printed either. *)
Definition appends {num} (allowed : string * file -> Prop) (w w' : world num) : Prop :=
  exists new, w_disk w' = w_disk w ++ new /\ Forall allowed new.

Definition quiet {num} (allowed : string * file -> Prop) (w w' : world num) : Prop :=
  stdout w' = stdout w /\ appends allowed w w'.

(** * Properties *)

(** ** Sequences *)

Lemma slice_to_take {A} (k : Z) (l : list A) :
  0 <= k -> slice_to k l = take (Z.to_nat k) l.
Proof.
  intros Hk. unfold slice_to.
  destruct (Z.ltb_spec k 0) as [Hneg | _]; [lia | reflexivity].
Qed.

Lemma slice_to_all {A} (k : Z) (l : list A) :
  len l <= k -> slice_to k l = l.
Proof.
  intros Hk. unfold len in Hk. rewrite slice_to_take by lia.
  apply take_ge. lia.
Qed.

Lemma len_app {A} (l1 l2 : list A) : len (l1 ++ l2) = len l1 + len l2.
Proof. unfold len. rewrite length_app. lia. Qed.

Lemma len_replicate {A} (n : nat) (x : A) : len (replicate n x) = Z.of_nat n.
Proof. unfold len. now rewrite length_replicate. Qed.

(** The pad width of line 48 is at least one, and twice the width
    overshoots the gap by one (odd gap) or two (even gap). *)
Lemma n_pad_bounds (gap : Z) :
  0 < gap ->
  1 <= gap / 2 + 1 <= gap /\
  gap < 2 * (gap / 2 + 1) /\
  2 * (gap / 2 + 1) - gap = (if Z.odd gap then 1 else 2).
Proof.
  intros Hgap.
  pose proof (Z.div_mod gap 2 ltac:(lia)) as Hdm.
  pose proof (Z.mod_pos_bound gap 2 ltac:(lia)) as Hmod.
  rewrite Zodd_mod.
  destruct (Z.eqb_spec (gap mod 2) 1) as [Hodd | Heven]; repeat split; lia.
Qed.

(** ** Audio loader *)

Section AudioLoaderFacts.
Context {sample : Type} (zero : sample).
Variable load : string -> Z -> result (list sample).

(** With a waveform shorter than the target the [elif] branch runs, and
    [wave[:const_length]] is the whole waveform. *)
Lemma load_func_short (sr one_audio_sec : Z) (path : list string) (p : string)
    (wave : list sample) :
  path !! 0%nat = Some p ->
  load p sr = Ok wave ->
  len wave < sr * one_audio_sec ->
  load_func zero load sr one_audio_sec path =
    (padded ← np_pad zero wave ((sr * one_audio_sec - len wave) / 2 + 1);
     Ok [slice_to (sr * one_audio_sec) padded]).
Proof.
  intros Hpath Hload Hshort.
  unfold load_func, py_index. rewrite Hpath. cbn. rewrite Hload. cbn.
  destruct (Z.gtb_spec (len wave) (sr * one_audio_sec)) as [Hgt | _]; [lia |].
  destruct (Z.ltb_spec (len wave) (sr * one_audio_sec)) as [_ | Hge]; [| lia].
  rewrite (slice_to_all _ wave) by lia.
  destruct (np_pad zero wave _); reflexivity.
Qed.

(** C2 (as amended). A decoded waveform of length [L] shorter than the
    target [T = sr * one_audio_sec] comes back as one row: the waveform
    with [(T - L) // 2 + 1] zero samples put before it and as many after
    it (numpy's constant padding, the same width on both sides), cut to
    its first [T] samples, and the row has exactly [T] samples. *)
Theorem load_func_pads_zeros_then_truncates (sr one_audio_sec : Z)
    (path : list string) (p : string) (wave : list sample) :
  path !! 0%nat = Some p ->
  load p sr = Ok wave ->
  len wave < sr * one_audio_sec ->
  let T := sr * one_audio_sec in
  let n_pad := Z.to_nat ((T - len wave) / 2 + 1) in
  let padded := replicate n_pad zero ++ wave ++ replicate n_pad zero in
  load_func zero load sr one_audio_sec path = Ok [take (Z.to_nat T) padded] /\
  len (take (Z.to_nat T) padded) = T.
Proof.
  intros Hpath Hload Hshort T n_pad padded.
  assert (0 <= len wave) as Hlen by (unfold len; lia).
  destruct (n_pad_bounds (T - len wave)) as (Hn & Hover & _); [subst T; lia |].
  split.
  - rewrite (load_func_short _ _ _ p wave) by assumption.
    unfold np_pad. fold T.
    destruct (Z.ltb_spec ((T - len wave) / 2 + 1) 0) as [Hneg | _]; [lia |].
    cbn. rewrite slice_to_take by lia. reflexivity.
  - subst padded n_pad.
    unfold len in *. rewrite length_take, !length_app, !length_replicate. lia.
Qed.

(** C3. Whatever the length of the decoded waveform, the loader returns
    one row of exactly [T = sr * one_audio_sec] samples (a sample count,
    so [0 <= T]); when the waveform has at least [T] samples the row is
    its first [T] samples. *)
Theorem load_func_exact_length (sr one_audio_sec : Z) (path : list string)
    (p : string) (wave : list sample) :
  0 <= sr * one_audio_sec ->
  path !! 0%nat = Some p ->
  load p sr = Ok wave ->
  exists row : list sample,
    load_func zero load sr one_audio_sec path = Ok [row] /\
    len row = sr * one_audio_sec /\
    (sr * one_audio_sec <= len wave -> row = take (Z.to_nat (sr * one_audio_sec)) wave).
Proof.
  intros HT Hpath Hload.
  set (T := sr * one_audio_sec) in *.
  destruct (Z.lt_trichotomy (len wave) T) as [Hshort | [Heq | Hlong]].
  - (* shorter: pad, then cut *)
    assert (0 <= len wave) as Hlen by (unfold len; lia).
    destruct (n_pad_bounds (T - len wave)) as (Hn & Hover & _); [lia |].
    eexists. split; [| split].
    + rewrite (load_func_short _ _ _ p wave) by assumption.
      unfold np_pad. fold T.
      destruct (Z.ltb_spec ((T - len wave) / 2 + 1) 0) as [Hneg | _]; [lia |].
      cbn. rewrite slice_to_take by lia. reflexivity.
    + unfold len. rewrite length_take, !length_app, !length_replicate.
      unfold len in *. lia.
    + lia.
  - (* equal: neither branch runs *)
    exists wave. split; [| split].
    + unfold load_func, py_index. rewrite Hpath. cbn. rewrite Hload. cbn. fold T.
      destruct (Z.gtb_spec (len wave) T) as [Hgt | _]; [lia |].
      destruct (Z.ltb_spec (len wave) T) as [Hlt | _]; [lia |].
      reflexivity.
    + exact Heq.
    + intros _. symmetry. apply take_ge. unfold len in Heq. lia.
  - (* longer: cut from the start *)
    exists (take (Z.to_nat T) wave). split; [| split].
    + unfold load_func, py_index. rewrite Hpath. cbn. rewrite Hload. cbn. fold T.
      destruct (Z.gtb_spec (len wave) T) as [_ | Hle]; [| lia].
      rewrite slice_to_take by lia. reflexivity.
    + unfold len in *. rewrite length_take. lia.
    + reflexivity.
Qed.

(** C10. For [0 < L < T] the row is [(T - L) // 2 + 1] zeros, then the [L]
    samples of the waveform unchanged, then [T - L - ((T - L) // 2 + 1)]
    zeros; the leading run is longer than the trailing one by one when
    [T - L] is odd and by two when it is even. *)
Theorem load_func_zero_runs (sr one_audio_sec : Z) (path : list string)
    (p : string) (wave : list sample) :
  path !! 0%nat = Some p ->
  load p sr = Ok wave ->
  0 < len wave < sr * one_audio_sec ->
  let T := sr * one_audio_sec in
  let leading := (T - len wave) / 2 + 1 in
  let trailing := T - len wave - leading in
  load_func zero load sr one_audio_sec path =
    Ok [replicate (Z.to_nat leading) zero ++ wave ++ replicate (Z.to_nat trailing) zero] /\
  0 <= trailing /\
  leading - trailing = (if Z.odd (T - len wave) then 1 else 2).
Proof.
  intros Hpath Hload [Hpos Hshort] T leading trailing.
  destruct (n_pad_bounds (T - len wave)) as (Hn & Hlt & Hover); [subst T; lia |].
  fold leading in Hn, Hlt, Hover.
  split; [| split]; [| subst trailing; lia | subst trailing; lia].
  rewrite (load_func_short _ _ _ p wave) by assumption.
  unfold np_pad. fold T. fold leading.
  destruct (Z.ltb_spec leading 0) as [Hneg | _]; [lia |].
  cbn. rewrite slice_to_take by lia.
  rewrite take_app_ge by (rewrite length_replicate; lia).
  rewrite take_app_ge by (rewrite length_replicate; unfold len in *; lia).
  rewrite take_replicate, length_replicate.
  unfold len in *. subst trailing.
  clear Hover. clearbody leading. subst T.
  assert ((Z.to_nat (sr * one_audio_sec) - Z.to_nat leading - length wave) `min` Z.to_nat leading
          = Z.to_nat (sr * one_audio_sec - Z.of_nat (length wave) - leading))%nat as -> by lia.
  reflexivity.
Qed.
End AudioLoaderFacts.

(** C2, the claim as worded: with numpy's symmetric (mirror) padding the
    loader would return other samples. Waveform [[1, 2]], target 4: the
    code gives [[0, 0, 1, 2]], mirror padding [[2, 1, 1, 2]]. *)
Lemma load_func_is_not_symmetric_mode :
  load_func 0 (fun _ _ => Ok [1; 2]) 2 2 ["a.wav"] = Ok [[0; 0; 1; 2]] /\
  load_func_symmetric (fun _ _ => Ok [1; 2]) 2 2 ["a.wav"] = Ok [[2; 1; 1; 2]] /\
  load_func 0 (fun _ _ => Ok [1; 2]) 2 2 ["a.wav"]
    <> load_func_symmetric (fun _ _ => Ok [1; 2]) 2 2 ["a.wav"].
Proof. repeat split. discriminate. Qed.

Lemma load_func_pads_zeros_then_truncates_witness :
  load_func 0 (fun _ _ => Ok [7; 8; 9]) 4 2 ["a.wav"]
    = Ok [take 8 (replicate 3 0 ++ [7; 8; 9] ++ replicate 3 0)] /\
  len (take 8 (replicate 3 0 ++ [7; 8; 9] ++ replicate 3 0)) = 8.
Proof.
  apply (load_func_pads_zeros_then_truncates 0 (fun _ _ => Ok [7; 8; 9]) 4 2
           ["a.wav"] "a.wav" [7; 8; 9]); [reflexivity | reflexivity | vm_compute; reflexivity].
Defined.

Lemma load_func_exact_length_witness :
  exists row : list Z,
    load_func 0 (fun _ _ => Ok [1; 2; 3; 4; 5]) 3 1 ["a.wav"] = Ok [row] /\
    len row = 3 /\
    (3 <= len [1; 2; 3; 4; 5] -> row = take 3 [1; 2; 3; 4; 5]).
Proof.
  apply (load_func_exact_length 0 (fun _ _ => Ok [1; 2; 3; 4; 5]) 3 1
           ["a.wav"] "a.wav" [1; 2; 3; 4; 5]); [lia | reflexivity | reflexivity].
Defined.

Lemma load_func_zero_runs_witness :
  load_func 0 (fun _ _ => Ok [7; 8; 9]) 4 2 ["a.wav"]
    = Ok [replicate 3 0 ++ [7; 8; 9] ++ replicate 2 0] /\
  0 <= 2 /\
  3 - 2 = 1.
Proof.
  apply (load_func_zero_runs 0 (fun _ _ => Ok [7; 8; 9]) 4 2
           ["a.wav"] "a.wav" [7; 8; 9]); [reflexivity | reflexivity | vm_compute; split; reflexivity].
Defined.

(** ** Label mapper *)

(** C7. The family B label mapper sends ['Normal'] to 0 and ['Abnormal']
    to 1, and raises ([KeyError]) on every other label. *)
Theorem cinc_label_func_vocabulary (path label : string) (rest : list string) :
  cinc_label_func (path :: label :: rest) =
    if decide (label = "Normal") then Ok 0
    else if decide (label = "Abnormal") then Ok 1
    else Raise (KeyError label).
Proof.
  unfold cinc_label_func, py_index, py_getitem, converter. cbn.
  destruct (decide (label = "Normal")) as [-> | Hnormal].
  - rewrite lookup_insert_eq. reflexivity.
  - rewrite lookup_insert_ne by congruence.
    destruct (decide (label = "Abnormal")) as [-> | Habnormal].
    + rewrite lookup_singleton_eq. reflexivity.
    + rewrite lookup_singleton_ne by congruence. reflexivity.
Qed.

(** A row with no second field has no label to map. *)
Lemma cinc_label_func_short_row (row : list string) :
  (length row < 2)%nat -> cinc_label_func row = Raise IndexError.
Proof.
  intros Hrow. unfold cinc_label_func, py_index.
  rewrite lookup_ge_None_2 by lia. reflexivity.
Qed.

(** ** Data frames *)

Lemma df_setitem_length (df df' : DataFrame) (key : col) (values : list string) :
  df_setitem df key values = Ok df' -> length (df_rows df') = length values.
Proof.
  unfold df_setitem. generalize (ensure_valid_index df values). intros df1.
  destruct (decide _) as [Hlen | Hlen]; [| discriminate].
  destruct (col_index key _); intros [= <-]; cbn [df_rows];
    rewrite length_zip_with; lia.
Qed.

(** A frame that has rows refuses a list of another length. *)
Lemma df_setitem_mismatch (df : DataFrame) (key : col) (values : list string) :
  df_rows df <> [] ->
  length values <> length (df_rows df) ->
  df_setitem df key values
    = Raise (ValueError "Length of values does not match length of index").
Proof.
  intros Hrows Hlen. unfold df_setitem, ensure_valid_index.
  destruct (df_rows df) as [| row rows] eqn:Hdf; [congruence |].
  rewrite Hdf. destruct (decide _) as [Heq | _]; [congruence | reflexivity].
Qed.

(** A frame with no row accepts a list of any length, and takes its
    length. *)
Lemma df_setitem_no_rows (df : DataFrame) (key : col) (values : list string) :
  df_rows df = [] ->
  exists df', df_setitem df key values = Ok df' /\ length (df_rows df') = length values.
Proof.
  intros Hrows.
  destruct (df_setitem df key values) as [df' | e] eqn:Hset.
  - exists df'. split; [reflexivity | exact (df_setitem_length _ _ _ _ Hset)].
  - exfalso. revert Hset. unfold df_setitem, ensure_valid_index. rewrite Hrows.
    destruct values as [| v values]; cbn.
    + rewrite Hrows. cbn. destruct (col_index key _); discriminate.
    + rewrite length_replicate.
      destruct (decide _) as [_ | Hne]; [| congruence].
      destruct (col_index key _); discriminate.
Qed.

Lemma read_csv_no_header_rows (lines : list (list string)) (df : DataFrame) :
  read_csv_no_header lines = Ok df -> df_rows df <> [] /\ length (df_rows df) = length lines.
Proof.
  destruct lines as [| first rest]; [discriminate |].
  intros [= <-]. cbn. rewrite length_map. split; [discriminate | reflexivity].
Qed.

Lemma iloc_to_rows {A} (files : list A) (df : DataFrame) :
  df_rows (iloc_to (len files) df) = take (length files) (df_rows df).
Proof.
  unfold iloc_to, len. cbn. rewrite slice_to_take by lia. now rewrite Nat2Z.id.
Qed.

Lemma iloc_from_rows {A} (files : list A) (df : DataFrame) :
  df_rows (iloc_from (len files) df) = drop (length files) (df_rows df).
Proof. unfold iloc_from, len. cbn. now rewrite Nat2Z.id. Qed.

(** ** Manifest builder, family A *)

Section HssManifestFacts.
Variables (data_dir : string) (wav_dir : list string).
Variables (labels_train_dev labels_test : list (list string)).

Local Abbreviation files := (hss_phase_files data_dir wav_dir).
Local Abbreviation train_path := (data_dir +:+ "/train_manifest.csv").
Local Abbreviation val_path := (data_dir +:+ "/val_manifest.csv").
Local Abbreviation test_path := (data_dir +:+ "/test_manifest.csv").

(** The function, with its dict lookups done: what is left are the reads,
    the three assignments, the assertion and the three writes. *)
Lemma create_hss_manifest_eval (d : disk) :
  create_hss_manifest data_dir wav_dir labels_train_dev labels_test d =
    (train_dev_label ← lift (read_csv labels_train_dev);
     test ← lift (read_csv_no_header labels_test);
     train ← lift (df_setitem (iloc_to (len (files "train")) train_dev_label)
                              (CName "file_name") (files "train"));
     to_csv train_path train;;
     let val := iloc_from (len (files "train")) train_dev_label in
     (if decide (df_len val = len (files "devel")) then mret tt else raise AssertionError);;
     val ← lift (df_setitem val (CName "file_name") (files "devel"));
     to_csv val_path val;;
     test ← lift (df_setitem test (CPos 0) (files "test"));
     test ← lift (df_set_columns test ["file_name"; "label"]);
     to_csv test_path test) d.
Proof.
  unfold create_hss_manifest, py_getitem. cbn [foldl].
  rewrite (lookup_insert_ne _ "test" "train") by done.
  rewrite (lookup_insert_ne _ "devel" "train") by done.
  rewrite (lookup_insert_ne _ "test" "devel") by done.
  rewrite !lookup_insert_eq.
  reflexivity.
Qed.

(** Train phase: when the label table has rows and those assigned to
    train are not as many as the train files, the build fails with
    nothing written. *)
Lemma create_hss_manifest_train_mismatch (d : disk) (train_dev_label : DataFrame) :
  read_csv labels_train_dev = Ok train_dev_label ->
  df_rows train_dev_label <> [] ->
  df_len (iloc_to (len (files "train")) train_dev_label) <> len (files "train") ->
  exists e, create_hss_manifest data_dir wav_dir labels_train_dev labels_test d = (Raise e, d).
Proof.
  intros Hread Hrows Hlen. rewrite create_hss_manifest_eval.
  unfold mbind, St_bind, lift. rewrite Hread.
  destruct (read_csv_no_header labels_test) as [test | e]; [| by exists e].
  rewrite df_setitem_mismatch; [eauto | |].
  - unfold df_len in Hlen. rewrite iloc_to_rows in *. unfold len in Hlen.
    rewrite length_take in Hlen.
    rewrite take_ge by lia. exact Hrows.
  - unfold df_len, len in *. lia.
Qed.

(** Devel phase: when the rows left for devel are not as many as the
    devel files, the build fails before [val_manifest.csv] is written. *)
Lemma create_hss_manifest_val_mismatch (d : disk) (train_dev_label : DataFrame) :
  read_csv labels_train_dev = Ok train_dev_label ->
  df_len (iloc_from (len (files "train")) train_dev_label) <> len (files "devel") ->
  exists e d',
    create_hss_manifest data_dir wav_dir labels_train_dev labels_test d = (Raise e, d') /\
    (d' = d \/ exists rows, d' = d ++ [(train_path, FCsv rows)]).
Proof.
  intros Hread Hlen. rewrite create_hss_manifest_eval.
  unfold mbind, St_bind, lift. rewrite Hread.
  destruct (read_csv_no_header labels_test) as [test | e]; [| by eauto].
  destruct (df_setitem _ _ (files "train")) as [train | e]; [| by eauto].
  cbn. destruct (decide _) as [Heq | _]; [congruence |].
  cbn. eauto 6.
Qed.

(** Test phase: when the rows of the test label file are not as many as
    the test files, the build fails before [test_manifest.csv] is
    written. *)
Lemma create_hss_manifest_test_mismatch (d : disk) (test : DataFrame) :
  read_csv_no_header labels_test = Ok test ->
  df_len test <> len (files "test") ->
  exists e d',
    create_hss_manifest data_dir wav_dir labels_train_dev labels_test d = (Raise e, d') /\
    (d' = d \/ (exists rows, d' = d ++ [(train_path, FCsv rows)]) \/
     (exists rows rows', d' = (d ++ [(train_path, FCsv rows)]) ++ [(val_path, FCsv rows')])).
Proof.
  intros Hread Hlen. rewrite create_hss_manifest_eval.
  destruct (read_csv_no_header_rows _ _ Hread) as [Hrows _].
  unfold mbind, St_bind, lift. rewrite Hread.
  destruct (read_csv labels_train_dev) as [train_dev_label | e]; [| by eauto].
  destruct (df_setitem _ _ (files "train")) as [train | e]; [| by eauto].
  cbn. destruct (decide _) as [_ | _]; cbn; [| by eauto 7].
  destruct (df_setitem _ _ (files "devel")) as [val | e]; [| by eauto 7].
  cbn. rewrite df_setitem_mismatch; [eauto 9 | exact Hrows |].
  unfold df_len, len in *. lia.
Qed.
End HssManifestFacts.

(** C6, where the code departs from it. When the train+devel label table
    holds its header line only, no label row is assigned to train, and
    yet, with any number of train files found, [train_manifest.csv] is
    written with one row for each file: pandas lets a frame with no row
    take the length of the list assigned to it, and the train phase has
    no assertion of its own as the devel phase has. *)
Theorem create_hss_manifest_header_only_labels (data_dir : string)
    (wav_dir : list string) (header : list string)
    (labels_test : list (list string)) (test : DataFrame) (d : disk) :
  read_csv_no_header labels_test = Ok test ->
  hss_phase_files data_dir wav_dir "train" <> [] ->
  exists (train_dev_label : DataFrame) (r : result unit)
         (rows : list (list cell)) (rest : disk),
    read_csv [header] = Ok train_dev_label /\
    df_len (iloc_to (len (hss_phase_files data_dir wav_dir "train")) train_dev_label) = 0 /\
    len (hss_phase_files data_dir wav_dir "train") <> 0 /\
    length rows = length (hss_phase_files data_dir wav_dir "train") /\
    create_hss_manifest data_dir wav_dir [header] labels_test d
      = (r, d ++ (data_dir +:+ "/train_manifest.csv", FCsv rows) :: rest).
Proof.
  intros Hread Hfiles.
  set (files := hss_phase_files data_dir wav_dir) in *.
  set (train_dev_label := {| df_columns := map CName header; df_rows := [] |}).
  destruct (df_setitem_no_rows (iloc_to (len (files "train")) train_dev_label)
              (CName "file_name") (files "train")) as (train & Hset & Hlen).
  { rewrite iloc_to_rows. apply take_nil. }
  assert (exists r rest,
            create_hss_manifest data_dir wav_dir [header] labels_test d
              = (r, d ++ (data_dir +:+ "/train_manifest.csv", FCsv (df_rows train)) :: rest))
    as (r & rest & Hrun).
  { rewrite create_hss_manifest_eval. fold files.
    unfold mbind, St_bind, lift, to_csv, write_file, modify. rewrite Hread.
    cbn [read_csv map]. subst train_dev_label. rewrite Hset. cbn.
    destruct (decide _) as [_ | _]; cbn; [| by eexists _, []].
    destruct (df_setitem _ _ (files "devel")) as [val | e]; cbn; [| by eexists _, []].
    destruct (df_setitem test _ _) as [test' | e]; cbn.
    - destruct (df_set_columns test' _) as [test'' | e]; cbn;
        eexists _, _; cbv beta; rewrite <- !app_assoc; reflexivity.
    - eexists _, _; rewrite <- !app_assoc; reflexivity. }
  exists train_dev_label, r, (df_rows train), rest.
  split; [reflexivity |]. split; [| split; [| split]].
  - unfold df_len. rewrite iloc_to_rows. subst train_dev_label. cbn [df_rows].
    rewrite take_nil. reflexivity.
  - unfold len. destruct (files "train"); [congruence | cbn; lia].
  - exact Hlen.
  - exact Hrun.
Qed.

Lemma create_hss_manifest_header_only_labels_witness :
  exists (train_dev_label : DataFrame) (r : result unit)
         (rows : list (list cell)) (rest : disk),
    read_csv [["file_name"; "label"]] = Ok train_dev_label /\
    df_len (iloc_to (len (hss_phase_files "/input" ["a_train.wav"; "a_test.wav"] "train"))
                    train_dev_label) = 0 /\
    len (hss_phase_files "/input" ["a_train.wav"; "a_test.wav"] "train") <> 0 /\
    length rows = length (hss_phase_files "/input" ["a_train.wav"; "a_test.wav"] "train") /\
    create_hss_manifest "/input" ["a_train.wav"; "a_test.wav"] [["file_name"; "label"]]
        [["a_test.wav"; "1"]] []
      = (r, [] ++ ("/input" +:+ "/train_manifest.csv", FCsv rows) :: rest).
Proof.
  apply (create_hss_manifest_header_only_labels "/input" ["a_train.wav"; "a_test.wav"]
           ["file_name"; "label"] [["a_test.wav"; "1"]]
           {| df_columns := [CPos 0; CPos 1];
              df_rows := [[Some "a_test.wav"; Some "1"]] |} []);
    [reflexivity | vm_compute; discriminate].
Defined.

(** The same input run: the build succeeds, and the train manifest holds
    the one file with no label. *)
Example create_hss_manifest_header_only_run :
  create_hss_manifest "/input" ["a_train.wav"; "a_test.wav"] [["file_name"; "label"]]
      [["a_test.wav"; "1"]] []
  = (Ok tt,
     [("/input/train_manifest.csv", FCsv [[Some "/input/wav/a_train.wav"; None]]);
      ("/input/val_manifest.csv", FCsv []);
      ("/input/test_manifest.csv", FCsv [[Some "/input/wav/a_test.wav"; Some "1"]])]).
Proof. vm_compute. reflexivity. Qed.

(** ** Manifest builder, family B *)

Lemma str_split_aux_nonempty (sep s : string) (skip : nat) (cur : string) :
  str_split_aux sep s skip cur <> [].
Proof.
  revert skip cur. induction s as [| c s IH]; intros skip cur; cbn [str_split_aux].
  - discriminate.
  - destruct skip as [| k]; [| apply IH].
    destruct (String.prefix sep (String c s)); [discriminate | apply IH].
Qed.

(** Every text has a last piece, so reading the label cannot fail. *)
Lemma header_label_ok (text : string) : exists label, header_label text = Ok label.
Proof.
  unfold header_label, py_last, str_split.
  destruct (last (str_split_aux "# " text 0 "")) as [piece |] eqn:Hlast.
  - eexists. reflexivity.
  - apply last_None in Hlast. now apply str_split_aux_nonempty in Hlast.
Qed.

Section CincManifestFacts.
Variables (data_dir : Path) (cinc_dir : list (string * list string)).
Variable read_text : Path -> result string.
(** Every header file can be opened and read. *)
Hypothesis readable : forall p, exists text, read_text p = Ok text.

(** The body of the loop of lines 108-111. *)
Let pair_step (labels : list string) (pair : Path * Path) : St disk (list string) :=
  let '(head, wav) := pair in
  if decide (stem head = stem wav) then
    text ← lift (read_text head);
    label ← lift (header_label text);
    mret (labels ++ [label])
  else raise AssertionError.

Let same_stem (pair : Path * Path) : Prop := stem pair.1 = stem pair.2.

(** The loop adds one label for each pair while the names agree, and
    stops with [AssertionError] at the first pair whose names differ. *)
Lemma cinc_pairs_loop (pairs : list (Path * Path)) (labels : list string) (d : disk) :
  (Forall same_stem pairs ->
     exists new, length new = length pairs /\
       for_fold pairs pair_step labels d = (Ok (labels ++ new), d)) /\
  (~ Forall same_stem pairs ->
     for_fold pairs pair_step labels d = (Raise AssertionError, d)).
Proof.
  revert labels. induction pairs as [| [head wav] pairs IH]; intros labels.
  - split.
    + intros _. exists []. rewrite app_nil_r. split; reflexivity.
    + intros Hnot. destruct Hnot. constructor.
  - cbn [for_fold]. unfold mbind, St_bind. cbn [pair_step].
    destruct (decide (stem head = stem wav)) as [Heq | Hne].
    + destruct (readable head) as [text Htext].
      destruct (header_label_ok text) as [label Hlabel].
      unfold lift. rewrite Htext. unfold mbind, St_bind. rewrite Hlabel.
      unfold mret, St_ret.
      destruct (IH (labels ++ [label])) as [IHok IHbad].
      split.
      * intros Hall. inversion Hall as [| ? ? _ Hrest]; subst.
        destruct (IHok Hrest) as (new & Hlen & Hrun).
        exists (label :: new). split; [cbn; lia |].
        fold pair_step. rewrite Hrun. now rewrite <- app_assoc.
      * intros Hnot. fold pair_step. apply IHbad.
        intros Hrest. apply Hnot. constructor; assumption.
    + split.
      * intros Hall. inversion Hall as [| ? ? Hhead _]; subst.
        unfold same_stem in Hhead. cbn in Hhead. contradiction.
      * intros _. reflexivity.
Qed.
End CincManifestFacts.

(** C9 (as amended). The builder never compares the number of header files
    with the number of waveform files. With every header readable, it
    fails, with [AssertionError] and nothing written, exactly when one of
    the pairs formed position by position from the two sorted lists, up to
    the shorter of them, has differing base names. Otherwise it writes a
    manifest with one row for every waveform file: the headers beyond the
    last waveform are left out, while the waveforms beyond the last header
    are kept, each with a missing label. *)
Theorem create_cinc_manifest_pairing (data_dir : Path)
    (cinc_dir : list (string * list string)) (read_text : Path -> result string)
    (d : disk) :
  (forall p, exists text, read_text p = Ok text) ->
  let heads := cinc_head_paths data_dir cinc_dir in
  let wavs := cinc_wav_paths data_dir cinc_dir in
  let run := create_cinc_manifest data_dir cinc_dir read_text d in
  (Forall (fun pair => stem pair.1 = stem pair.2) (zip heads wavs) ->
     exists labels : list string,
       length labels = (length heads `min` length wavs)%nat /\
       run = (Ok tt,
              d ++ [(path_str (data_dir ++ ["cinc_manifest.csv"]),
                     FCsv (map (fun i => [path_str <$> wavs !! i; labels !! i])
                               (seq 0 (length wavs))))])) /\
  (~ Forall (fun pair => stem pair.1 = stem pair.2) (zip heads wavs) ->
     run = (Raise AssertionError, d)).
Proof.
  intros Hreadable heads wavs run.
  destruct (cinc_pairs_loop read_text Hreadable (zip heads wavs) [] d) as [Hok Hbad].
  subst run. unfold create_cinc_manifest. fold heads wavs.
  split.
  - intros Hall. destruct (Hok Hall) as (labels & Hlen & Hrun).
    unfold mbind at 1. unfold St_bind at 1.
    rewrite length_zip_with in Hlen.
    exists labels. split; [exact Hlen |].
    rewrite Hrun. cbn [app].
    unfold to_csv, write_file, modify, df_of_two_lists_T. cbn [df_rows].
    rewrite length_map.
    replace (length wavs `max` length labels)%nat with (length wavs) by lia.
    do 5 f_equal. apply map_ext. intros i.
    now rewrite list_lookup_fmap.
  - intros Hnot. unfold mbind at 1. unfold St_bind at 1.
    rewrite (Hbad Hnot). reflexivity.
Qed.

Lemma create_cinc_manifest_pairing_witness :
  let data_dir := ["input"] in
  let cinc_dir := [("training-a", ["a0001.hea"; "a0001.wav"]);
                   ("training-b", ["b0001.wav"; "b0001.hea"])] in
  let read_text := fun _ : Path => Ok ("b0001 1 2000" +:+ String newline "# Abnormal") in
  let heads := cinc_head_paths data_dir cinc_dir in
  let wavs := cinc_wav_paths data_dir cinc_dir in
  let run := create_cinc_manifest data_dir cinc_dir read_text [] in
  (Forall (fun pair => stem pair.1 = stem pair.2) (zip heads wavs) ->
     exists labels : list string,
       length labels = (length heads `min` length wavs)%nat /\
       run = (Ok tt,
              [] ++ [(path_str (data_dir ++ ["cinc_manifest.csv"]),
                      FCsv (map (fun i => [path_str <$> wavs !! i; labels !! i])
                                (seq 0 (length wavs))))])) /\
  (~ Forall (fun pair => stem pair.1 = stem pair.2) (zip heads wavs) ->
     run = (Raise AssertionError, [])).
Proof.
  apply (create_cinc_manifest_pairing ["input"]
           [("training-a", ["a0001.hea"; "a0001.wav"]);
            ("training-b", ["b0001.wav"; "b0001.hea"])]
           (fun _ : Path => Ok ("b0001 1 2000" +:+ String newline "# Abnormal")) []).
  intros p. eexists. reflexivity.
Defined.

(** C9, the claim as worded: one header, two waveform files. The second
    waveform has no header to pair with and is not dropped: it is written
    to the manifest with no label, so the manifest has more rows than
    pairs were formed. *)
Lemma create_cinc_manifest_keeps_unmatched_wav :
  let cinc_dir := [("training-a", ["a0001.hea"; "a0001.wav"; "a0002.wav"])] in
  let read_text := fun _ : Path => Ok ("a0001 1 2000" +:+ String newline "# Normal") in
  create_cinc_manifest ["input"] cinc_dir read_text []
    = (Ok tt,
       [("/input/cinc_manifest.csv",
         FCsv [[Some "/input/cinc/training-a/a0001.wav"; Some "Normal"];
               [Some "/input/cinc/training-a/a0002.wav"; None]])]) /\
  length (zip (cinc_head_paths ["input"] cinc_dir) (cinc_wav_paths ["input"] cinc_dir)) = 1%nat.
Proof. vm_compute. split; reflexivity. Qed.

(** One waveform, two headers: here the unmatched header is left out. *)
Example create_cinc_manifest_drops_unmatched_header :
  create_cinc_manifest ["input"]
      [("training-a", ["a0001.hea"; "a0001.wav"; "a0002.hea"])]
      (fun _ => Ok ("a0001 1 2000" +:+ String newline "# Normal")) []
    = (Ok tt,
       [("/input/cinc_manifest.csv",
         FCsv [[Some "/input/cinc/training-a/a0001.wav"; Some "Normal"]])]).
Proof. vm_compute. reflexivity. Qed.

(** ** The object store *)

Lemma lookup_app_plus {A} (h l : list A) (k : nat) :
  (h ++ l) !! (length h + k)%nat = l !! k.
Proof. rewrite lookup_app_r by lia. f_equal. lia. Qed.

Lemma lookup_app_length {A} (h l : list A) : (h ++ l) !! length h = l !! 0%nat.
Proof. rewrite lookup_app_r by lia. f_equal. lia. Qed.

Lemma insert_app_length {A} (h l : list A) (x y : A) :
  <[length h := y]> (h ++ x :: l) = h ++ y :: l.
Proof.
  rewrite insert_app_r_alt by lia.
  replace (length h - length h)%nat with 0%nat by lia. reflexivity.
Qed.

Section HeapFacts.
Context {num : Type} `{Arith num}.

Lemma read_lookup (h : heap num) (l : loc) (o : obj num) :
  h !! l = Some o -> read l h = (Ok o, h).
Proof. intros Hl. unfold read. now rewrite Hl. Qed.

(** Copying an instance that [memo] does not hold yet. *)
Lemma deepcopy_memo_metric (fuel : nat) (h : heap num) (a : loc) (m : Metric num)
    (memo : list (loc * loc)) :
  h !! a = Some (OMetric m) ->
  list_find (fun entry => entry.1 = a) memo = None ->
  deepcopy_memo (S fuel) a memo h = (Ok (length h, (a, length h) :: memo), h ++ [OMetric m]).
Proof.
  intros Ha Hmemo. cbn [deepcopy_memo]. rewrite Hmemo.
  unfold mbind, St_bind. rewrite (read_lookup _ _ _ Ha). reflexivity.
Qed.

(** The loop that fills the copy of a list, run on items that are
    instances not copied yet: each gets a fresh copy right after the ones
    made so far, and the new list, at [length h], names them in order. *)
Lemma deepcopy_items_loop (fuel : nat) (h : heap num) (todo : list loc) :
  forall (ms_todo ms_done : list (Metric num)) (ys : list loc) (memo : list (loc * loc)),
  Forall2 (fun a m => h !! a = Some (OMetric m)) todo ms_todo ->
  NoDup todo ->
  (forall a, a ∈ todo -> list_find (fun entry => entry.1 = a) memo = None) ->
  length ys = length ms_done ->
  exists memo',
    for_fold todo
      (fun acc a =>
         let '(ys, memo) := acc in
         r ← deepcopy_memo (S fuel) a memo;
         let '(b, memo') := r in
         store (length h) (OList (ys ++ [b]));;
         mret (ys ++ [b], memo'))
      (ys, memo) (h ++ OList ys :: map OMetric ms_done)
    = (Ok (ys ++ seq (length h + 1 + length ys) (length todo), memo'),
       h ++ OList (ys ++ seq (length h + 1 + length ys) (length todo))
         :: map OMetric (ms_done ++ ms_todo)).
Proof.
  set (body := fun (acc : list loc * list (loc * loc)) (a : loc) =>
         let '(ys, memo) := acc in
         r ← deepcopy_memo (S fuel) a memo;
         let '(b, memo') := r in
         store (length h) (OList (ys ++ [b]));;
         mret (M := St (heap num)) (ys ++ [b], memo')).
  induction todo as [| a todo IH]; intros ms_todo ms_done ys memo Hobjs Hnodup Hmemo Hlen.
  - inversion Hobjs; subst. exists memo. cbn. now rewrite !app_nil_r.
  - inversion Hobjs as [| ? m ? ms_rest Ha Hrest]; subst.
    inversion Hnodup as [| ? ? Hnotin Hnodup']; subst.
    set (b := length (h ++ OList ys :: map OMetric ms_done)).
    assert (b = (length h + 1 + length ys)%nat) as Hb.
    { subst b. rewrite length_app. cbn [length]. rewrite length_map. lia. }
    assert (body (ys, memo) a (h ++ OList ys :: map OMetric ms_done)
            = (Ok (ys ++ [b], (a, b) :: memo),
               h ++ OList (ys ++ [b]) :: map OMetric (ms_done ++ [m]))) as Hstep.
    { unfold body, mbind, St_bind.
      rewrite (deepcopy_memo_metric fuel _ a m memo).
      - unfold store, modify, mret, St_ret. fold b.
        rewrite <- app_assoc. cbn [app]. rewrite insert_app_length.
        rewrite map_app. reflexivity.
      - rewrite lookup_app_l; [exact Ha | eapply lookup_lt_Some, Ha].
      - apply Hmemo. left. }
    destruct (IH ms_rest (ms_done ++ [m]) (ys ++ [b]) ((a, b) :: memo))
      as [memo' Hrun]; [exact Hrest | exact Hnodup' | | |].
    + intros a' Ha'. cbn [list_find].
      destruct (decide ((a, b).1 = a')) as [Heq | _].
      * cbn in Heq. subst a'. contradiction.
      * rewrite (Hmemo a') by (right; exact Ha'). reflexivity.
    + rewrite !length_app. cbn. lia.
    + exists memo'.
      cbn [for_fold]. unfold mbind at 1. unfold St_bind at 1.
      rewrite Hstep, Hrun. rewrite length_app. cbn [length seq].
      rewrite <- !app_assoc. cbn [app].
      replace (length h + 1 + (length ys + 1))%nat with (S (length h + 1 + length ys)) by lia.
      rewrite <- Hb. reflexivity.
Qed.

(** Copying a list that [memo] does not hold yet: the new list is made
    and registered, then filled. *)
Lemma deepcopy_memo_list (fuel : nat) (h : heap num) (x : loc) (items : list loc)
    (memo : list (loc * loc)) :
  h !! x = Some (OList items) ->
  list_find (fun entry => entry.1 = x) memo = None ->
  deepcopy_memo (S fuel) x memo h =
    (r ← for_fold items
           (fun acc a =>
              let '(ys, memo) := acc in
              r ← deepcopy_memo fuel a memo;
              let '(b, memo') := r in
              store (length h) (OList (ys ++ [b]));;
              mret (ys ++ [b], memo'))
           ([], (x, length h) :: memo);
     mret (length h, r.2)) (h ++ [OList []]).
Proof.
  intros Hx Hmemo. cbn [deepcopy_memo]. rewrite Hmemo.
  unfold mbind at 1. unfold St_bind at 1. rewrite (read_lookup _ _ _ Hx).
  unfold mbind at 1. unfold St_bind at 1. reflexivity.
Qed.

(** [deepcopy] of a list of distinct instances: the copy is a new list at
    the end of the store, followed by the copies of its items. *)
Lemma deepcopy_metric_list (h : heap num) (x : loc) (items : list loc)
    (ms : list (Metric num)) :
  h !! x = Some (OList items) ->
  Forall2 (fun a m => h !! a = Some (OMetric m)) items ms ->
  NoDup items ->
  deepcopy x h =
    (Ok (length h),
     h ++ OList (seq (length h + 1) (length items)) :: map OMetric ms).
Proof.
  intros Hx Hitems Hnodup.
  unfold deepcopy, recursion_limit. unfold mbind at 1. unfold St_bind at 1.
  change 1000%nat with (S (S 998)).
  rewrite (deepcopy_memo_list (S 998) h x items [] Hx eq_refl).
  unfold mbind at 1. unfold St_bind at 1.
  destruct (deepcopy_items_loop 998 h items ms [] [] [(x, length h)] Hitems Hnodup)
    as [memo' Hrun].
  - intros a Ha. cbn [list_find].
    destruct (decide ((x, length h).1 = a)) as [Heq | _]; [| reflexivity].
    cbn in Heq. subst a. exfalso.
    apply list_elem_of_lookup in Ha as [i Hi].
    destruct (Forall2_lookup_l _ _ _ _ _ Hitems Hi) as (m & _ & Hm). congruence.
  - reflexivity.
  - cbn [map app length] in Hrun. rewrite Nat.add_0_r in Hrun.
    rewrite Hrun. reflexivity.
Qed.
End HeapFacts.

(** ** The metric lists of the cross-validation runner *)

Section CvMetricsFacts.
Context {num : Type} `{Arith num}.

Lemma cv_metrics_run (h : heap num) :
  cv_metrics h =
    (Ok ((length h + 2)%nat, (length h + 8)%nat,
         <["test" := (length h + 8)%nat]>
           (<["val" := (length h + 2)%nat]> (<["train" := (length h + 9)%nat]> ∅))),
     h ++ cv_objects (length h)).
Proof.
  unfold cv_metrics, new_list, new_Metric.
  cbn [for_fold]. unfold mbind, St_bind, mret, St_ret. cbn [alloc app].
  rewrite <- !app_assoc. cbn [app]. rewrite !length_app. cbn [length].
  rewrite (deepcopy_metric_list _ _ [length h; length h + 1]%nat
             [{| name := "loss"; m_direction := minimize; save_model := true;
                 average_meter := ∅ |};
              {| name := "uar"; m_direction := maximize; save_model := false;
                 average_meter := ∅ |}]).
  - rewrite length_app. cbn [length map app seq].
    rewrite <- app_assoc. cbn [app]. unfold cv_objects, fresh_Metric.
    replace (length h + 9 + 1)%nat with (length h + 10)%nat by lia.
    replace (S (length h + 10)) with (length h + 11)%nat by lia.
    reflexivity.
  - now rewrite lookup_app_plus.
  - repeat constructor; [now rewrite lookup_app_length | now rewrite lookup_app_plus].
  - repeat constructor; rewrite ?list_elem_of_In; cbn; lia.
Qed.

(** Writing to an address a phase does not reach leaves what the phase
    sees as it was. *)
Lemma metrics_of_frame (h : heap num) (q a : loc) (o : obj num) :
  a ∉ reach h q ->
  list_items (<[a := o]> h) q = list_items h q /\
  metrics_of (<[a := o]> h) q = metrics_of h q.
Proof.
  intros Hnot. unfold reach in Hnot.
  apply not_elem_of_cons in Hnot as [Hq Hitems].
  assert (list_items (<[a := o]> h) q = list_items h q) as Hsame.
  { unfold list_items. now rewrite list_lookup_insert_ne. }
  split; [exact Hsame |].
  unfold metrics_of. rewrite Hsame.
  apply map_ext_in. intros b Hb.
  apply list_lookup_insert_ne. intros ->.
  apply Hitems. now apply list_elem_of_In.
Qed.

Lemma cv_objects_items (h : heap num) :
  let n := length h in
  list_items (h ++ cv_objects n) (n + 2) = [n; n + 1]%nat /\
  list_items (h ++ cv_objects n) (n + 8) = [n + 3; n + 4; n + 5; n + 6; n + 7]%nat /\
  list_items (h ++ cv_objects n) (n + 9) = [n + 10; n + 11]%nat.
Proof.
  intros n. subst n. unfold list_items. rewrite !lookup_app_plus. repeat split.
Qed.

(** C5 (as amended). In the cross-validation runner the ['train'] list is
    a deep copy of the two-metric template, the ['val'] entry is the
    template list itself (no copy is made of it), and ['test'] is a list
    of its own; the lists and metric objects of the three phases are
    pairwise distinct, so writing to the list or to a metric of one phase
    leaves the lists and the metrics of the other two unchanged. *)
Theorem cv_metrics_phases_not_aliased (h : heap num) :
  exists (template test train : loc) (metrics : gmap string loc) (h' : heap num),
    cv_metrics h = (Ok (template, test, metrics), h') /\
    metrics !! "train" = Some train /\
    metrics !! "val" = Some template /\
    metrics !! "test" = Some test /\
    deep_copy_of h' train template /\
    (forall p q : loc,
       p ∈ [train; template; test] -> q ∈ [train; template; test] -> p <> q ->
       forall a : loc, a ∈ reach h' p ->
         (a ∉ reach h' q) /\
         (forall o : obj num,
            list_items (<[a := o]> h') q = list_items h' q /\
            metrics_of (<[a := o]> h') q = metrics_of h' q)).
Proof.
  set (n := length h).
  destruct (cv_objects_items h) as (Hval & Htest & Htrain). fold n in Hval, Htest, Htrain.
  exists (n + 2)%nat, (n + 8)%nat, (n + 9)%nat. eexists _, _.
  split; [apply cv_metrics_run |]. fold n.
  split; [| split; [| split; [| split]]].
  - rewrite (lookup_insert_ne _ "test" "train") by done.
    rewrite (lookup_insert_ne _ "val" "train") by done.
    apply lookup_insert_eq.
  - rewrite (lookup_insert_ne _ "test" "val") by done. apply lookup_insert_eq.
  - apply lookup_insert_eq.
  - unfold deep_copy_of. rewrite Hval, Htrain.
    split; [lia |]. split.
    + intros a Ha Ha'. apply list_elem_of_In in Ha, Ha'. cbn in Ha, Ha'.
      clearbody n. clear - Ha Ha'. lia.
    + unfold metrics_of. rewrite Hval, Htrain. cbn [map]. subst n.
      rewrite !lookup_app_plus, lookup_app_length. reflexivity.
  - assert (forall p q : loc,
              p ∈ [(n + 9)%nat; (n + 2)%nat; (n + 8)%nat] ->
              q ∈ [(n + 9)%nat; (n + 2)%nat; (n + 8)%nat] -> p <> q ->
              forall a : loc,
                a ∈ reach (h ++ cv_objects n) p -> a ∉ reach (h ++ cv_objects n) q)
      as Hdisjoint.
    { intros p q Hp Hq Hpq a Ha Ha'.
      apply list_elem_of_In in Hp, Hq. cbn in Hp, Hq.
      unfold reach in Ha, Ha'.
      destruct Hp as [<- | [<- | [<- | []]]]; destruct Hq as [<- | [<- | [<- | []]]];
        try congruence;
        rewrite ?Hval, ?Htest, ?Htrain in Ha; rewrite ?Hval, ?Htest, ?Htrain in Ha';
        apply list_elem_of_In in Ha, Ha'; cbn in Ha, Ha'; clearbody n; clear - Ha Ha'; lia. }
    intros p q Hp Hq Hpq a Ha.
    pose proof (Hdisjoint p q Hp Hq Hpq a Ha) as Hnot.
    split; [exact Hnot |].
    intros o. apply metrics_of_frame, Hnot.
Qed.
End CvMetricsFacts.

(** C5, the claim as worded: the ['val'] entry is not a deep copy of the
    template, it is the template. On the empty store the template is the
    list at address 2, ['val'] names that same address, and a write to the
    template's second metric (the object at address 1) is seen through
    ['val']. *)
Lemma cv_metrics_val_is_the_template :
  exists (metrics : gmap string loc) (h : heap Q),
    cv_metrics [] = (Ok (2%nat, 8%nat, metrics), h) /\
    metrics !! "val" = Some 2%nat /\
    ~ deep_copy_of h 2%nat 2%nat /\
    (forall o : obj Q,
       h !! 1%nat <> Some o ->
       metrics_of (<[1%nat := o]> h) 2%nat <> metrics_of h 2%nat).
Proof.
  eexists _, _. split; [reflexivity |]. split; [reflexivity |]. split.
  - intros [Hne _]. congruence.
  - intros o Ho Heq. cbn in Ho, Heq. congruence.
Qed.

(** ** The grid loop *)

Section GridFacts.
Context {num : Type} `{Arith num}.
Variable train_manager :
  gmap string value -> gmap string loc -> heap num ->
  result (gmap string (list num) * gmap string (list num)).
Variable base_model_manager :
  gmap string value -> loc -> heap num -> result (list (Metric num)).
Variable json_dumps : gmap string value -> string.
Variable py_str : value -> string.
Variable metrics2df_cv : gmap string (list num) -> list (list cell).
Variable metrics2df : list (Metric num) -> list (list cell).
Variable output_dir : string.

Local Abbreviation grid_cell' := (grid_cell train_manager base_model_manager json_dumps py_str
                                        metrics2df_cv metrics2df output_dir).
Local Abbreviation grid' := (grid train_manager base_model_manager json_dumps py_str
                              metrics2df_cv metrics2df output_dir).
Local Abbreviation cv_experiment' := (cv_experiment train_manager json_dumps py_str
                                                metrics2df_cv output_dir).
Local Abbreviation no_append := (AttributeError "'dict' object has no attribute 'append'").

(** A cell of the single-split family: the seed loop stops in its first
    round, at the lookup of [append] on the dict, before the runner is
    called; only [lr] and [seed] were written. *)
Lemma grid_cell_hss (lr : float) (w : world num) :
  train_conf w !! "data_source" = Some (VStr "HSS") ->
  grid_cell' lr w =
    (Raise no_append,
     {| w_disk := w_disk w; w_heap := w_heap w;
        train_conf := <["seed" := VInt 0]> (<["lr" := VFloat lr]> (train_conf w));
        results := results w; val_results := val_results w; stdout := stdout w |}).
Proof.
  intros Hsource.
  unfold grid_cell.
  unfold mbind at 1. unfold St_bind at 1. unfold conf_set at 1. unfold modify at 1.
  unfold mbind at 1. unfold St_bind at 1. unfold conf_get at 1. cbn [train_conf].
  unfold py_getitem. rewrite lookup_insert_ne by done. rewrite Hsource.
  cbn [is_str String.eqb Ascii.eqb Bool.eqb].
  reflexivity.
Qed.

(** The whole loop on the single-split family: it stops in the first cell
    (['vgg16'], [0.0001]), in the first round of the seed loop. *)
Lemma grid_hss_run (w : world num) :
  train_conf w !! "data_source" = Some (VStr "HSS") ->
  grid' w =
    (Raise no_append,
     {| w_disk := w_disk w; w_heap := w_heap w;
        train_conf := <["seed" := VInt 0]>
                        (<["lr" := VFloat 0.0001]>
                           (<["model_type" := VStr "vgg16"]> (train_conf w)));
        results := empty_lists; val_results := [];
        stdout := stdout w ++ [PStr "vgg16"] |}).
Proof.
  intros Hsource.
  unfold grid, models, learning_rates.
  unfold mbind at 1. unfold St_bind at 1. unfold set_results at 1. unfold modify at 1.
  unfold mbind at 1. unfold St_bind at 1. unfold set_val_results at 1. unfold modify at 1.
  unfold mbind at 1. unfold St_bind at 1.
  unfold for_each at 1. cbn [for_fold].
  unfold mbind at 1. unfold St_bind at 1.
  unfold mbind at 1. unfold St_bind at 1. unfold conf_set at 1. unfold modify at 1.
  unfold mbind at 1. unfold St_bind at 1. unfold print at 1. unfold modify at 1.
  unfold for_each at 1. cbn [for_fold].
  unfold mbind at 1. unfold St_bind at 1.
  rewrite grid_cell_hss.
  - reflexivity.
  - cbn [train_conf]. rewrite lookup_insert_ne by done. exact Hsource.
Qed.

(** C8. With data source ['HSS'] the grid loop raises [AttributeError] at
    the first seed of the first cell, whatever the collaborators would
    do: the runner was not called (nothing was written to disk and no
    object was made), no cell completed, and every result sequence is
    still empty. *)
Theorem grid_hss_raises_attribute_error (w : world num) :
  train_conf w !! "data_source" = Some (VStr "HSS") ->
  exists w' : world num,
    grid' w = (Raise (AttributeError "'dict' object has no attribute 'append'"), w') /\
    train_conf w' !! "model_type" = Some (VStr "vgg16") /\
    train_conf w' !! "lr" = Some (VFloat 0.0001) /\
    train_conf w' !! "seed" = Some (VInt 0) /\
    w_disk w' = w_disk w /\
    w_heap w' = w_heap w /\
    val_results w' = [] /\
    (forall metric_name, metric_name ∈ test_metric_names ->
       results w' !! metric_name = Some []).
Proof.
  intros Hsource. eexists. split; [apply grid_hss_run, Hsource |].
  cbn [train_conf w_disk w_heap val_results results].
  split; [| split; [| split]].
  - rewrite lookup_insert_ne by done. rewrite lookup_insert_ne by done.
    apply lookup_insert_eq.
  - rewrite lookup_insert_ne by done. apply lookup_insert_eq.
  - apply lookup_insert_eq.
  - repeat split.
    intros metric_name Hname. apply list_elem_of_In in Hname. cbn in Hname.
    destruct Hname as [<- | [<- | [<- | [<- | []]]]]; reflexivity.
Qed.

(** C1, where the code departs from it. With data source ['HSS'] the run
    of the grid loop ends by the exception, and the sequences collected
    have length 0, not 10: the one for the validation score and the one
    of each tracked test metric. *)
Theorem grid_hss_collects_nothing (w : world num) :
  train_conf w !! "data_source" = Some (VStr "HSS") ->
  let run := grid' w in
  (exists e, run.1 = Raise e) /\
  length (val_results run.2) = 0%nat /\
  Forall (fun metric_name => length <$> results run.2 !! metric_name = Some 0%nat)
         test_metric_names /\
  (length models * length learning_rates)%nat = 10%nat.
Proof.
  intros Hsource run. subst run. rewrite (grid_hss_run w Hsource).
  cbn [fst snd val_results results].
  split; [eexists; reflexivity |]. split; [reflexivity |]. split.
  - repeat constructor.
  - reflexivity.
Qed.

(** What the cross-validation runner leaves behind and returns, when the
    training manager answers. *)
Lemma cv_experiment_run (w : world num) (task_type log_id : value)
    (val_cv_metrics test_cv_metrics : gmap string (list num)) (uar : list num) :
  train_conf w !! "task_type" = Some task_type ->
  train_conf w !! "log_id" = Some log_id ->
  let conf :=
    <["prev_classes" := VInts [0; 1]]>
      (<["class_names" := VInts (if is_str task_type "regress" then [0] else [0; 1])]>
         (train_conf w)) in
  let n := length (w_heap w) in
  let metrics : gmap string loc :=
    <["test" := (n + 8)%nat]> (<["val" := (n + 2)%nat]> (<["train" := (n + 9)%nat]> ∅)) in
  train_manager conf metrics (w_heap w ++ cv_objects n) = Ok (val_cv_metrics, test_cv_metrics) ->
  val_cv_metrics !! "uar" = Some uar ->
  cv_experiment' w =
    (Ok (np_mean uar, test_cv_metrics),
     {| w_disk :=
          (w_disk w
           ++ [(output_dir +:+ "/params/" +:+ py_str log_id +:+ ".txt",
                FText (String newline "Parameters:" +:+ String newline (json_dumps conf)))])
           ++ [(output_dir +:+ "/metrics/" +:+ py_str log_id +:+ "_test.csv",
                FCsv (metrics2df_cv test_cv_metrics))];
        w_heap := w_heap w ++ cv_objects n;
        train_conf := conf;
        results := results w; val_results := val_results w; stdout := stdout w |}).
Proof.
  intros Htask Hlog conf n metrics Hmanager Huar.
  unfold cv_experiment.
  unfold mbind at 1. unfold St_bind at 1. unfold conf_get at 1.
  unfold py_getitem at 1. rewrite Htask.
  unfold mbind at 1. unfold St_bind at 1. unfold conf_set at 1. unfold modify at 1.
  unfold mbind at 1. unfold St_bind at 1. unfold conf_set at 1. unfold modify at 1.
  cbn [train_conf w_disk w_heap results val_results stdout]. fold conf.
  unfold mbind at 1. unfold St_bind at 1. unfold on_heap at 1.
  cbn [train_conf w_disk w_heap results val_results stdout].
  rewrite cv_metrics_run. fold n. fold metrics.
  unfold mbind at 1. unfold St_bind at 1. unfold gets at 1.
  unfold mbind at 1. unfold St_bind at 1. unfold gets at 1.
  cbn [train_conf w_disk w_heap results val_results stdout snd].
  unfold mbind at 1. unfold St_bind at 1. unfold lift at 1. rewrite Hmanager.
  unfold persist.
  assert (conf !! "log_id" = Some log_id) as Hlog'.
  { subst conf. rewrite !lookup_insert_ne by done. exact Hlog. }
  unfold mbind, St_bind, conf_get, gets, on_disk, write_file, modify, lift, mret, St_ret.
  cbn [train_conf w_disk w_heap results val_results stdout].
  unfold py_getitem. rewrite Hlog', Huar. reflexivity.
Qed.

Lemma test_metric_names_cases (P : string -> Prop) :
  P "uar" -> P "recall_1" -> P "specificity" -> P "f1" ->
  forall metric_name, metric_name ∈ test_metric_names -> P metric_name.
Proof.
  intros Huar Hrecall Hspec Hf1 metric_name Hname.
  apply list_elem_of_In in Hname. cbn in Hname.
  destruct Hname as [<- | [<- | [<- | [<- | []]]]]; assumption.
Qed.

(** Lines 262-263: the mean of each tracked column of the test metrics
    goes into the list [uar_res] holds for that name. *)
Lemma cell_means_loop (test_metrics : gmap string (list num))
    (column : string -> list num) (w : world num) :
  (forall metric_name, metric_name ∈ test_metric_names ->
     test_metrics !! metric_name = Some (column metric_name)) ->
  for_fold test_metric_names
    (fun uar_res metric_name =>
       subscript_append uar_res metric_name
         (column ← lift (py_getitem test_metrics metric_name);
          mret (np_mean column)))
    (PyDict empty_lists) w
  = (Ok (PyDict (foldl (fun d metric_name => <[metric_name := [np_mean (column metric_name)]]> d)
                       empty_lists test_metric_names)), w).
Proof.
  intros Hcolumns.
  unfold test_metric_names in *. cbn [for_fold foldl].
  unfold subscript_append, subscript, py_getitem, empty_lists, test_metric_names.
  cbn [foldl].
  unfold mbind, St_bind, lift, mret, St_ret.
  rewrite !Hcolumns by (rewrite list_elem_of_In; cbn; tauto).
  repeat first [ rewrite lookup_insert_eq | rewrite lookup_insert_ne by done ].
  reflexivity.
Qed.

(** Lines 268-269: the mean of each list of [uar_res] is appended to the
    result sequence of its name. *)
Lemma append_results_loop (cell_values collected : string -> list num) (w : world num) :
  (forall metric_name, metric_name ∈ test_metric_names ->
     results w !! metric_name = Some (collected metric_name)) ->
  for_each test_metric_names
    (fun metric_name =>
       w ← get_state;
       collected ← lift (py_getitem (results w) metric_name);
       column ← lift (subscript
                        (PyDict (foldl (fun d metric_name =>
                                          <[metric_name := cell_values metric_name]> d)
                                       empty_lists test_metric_names))
                        metric_name);
       set_results (<[metric_name := collected ++ [np_mean column]]> (results w))) w
  = (Ok tt,
     {| w_disk := w_disk w; w_heap := w_heap w; train_conf := train_conf w;
        results := foldl (fun r metric_name =>
                            <[metric_name := collected metric_name
                                             ++ [np_mean (cell_values metric_name)]]> r)
                         (results w) test_metric_names;
        val_results := val_results w; stdout := stdout w |}).
Proof.
  intros Hcollected.
  pose proof (Hcollected "uar" ltac:(rewrite list_elem_of_In; cbn; tauto)) as Huar.
  pose proof (Hcollected "recall_1" ltac:(rewrite list_elem_of_In; cbn; tauto)) as Hrecall.
  pose proof (Hcollected "specificity" ltac:(rewrite list_elem_of_In; cbn; tauto)) as Hspec.
  pose proof (Hcollected "f1" ltac:(rewrite list_elem_of_In; cbn; tauto)) as Hf1.
  unfold for_each, test_metric_names. cbn [for_fold foldl].
  unfold subscript, py_getitem, empty_lists, test_metric_names. cbn [foldl].
  unfold mbind, St_bind, lift, get_state, set_results, modify, mret, St_ret.
  cbn [results w_disk w_heap train_conf val_results stdout].
  rewrite Huar. cbv beta iota.
  repeat first [ rewrite lookup_insert_eq | rewrite lookup_insert_ne by done ].
  cbn [results]. rewrite lookup_insert_ne by done. rewrite Hrecall. cbv beta iota.
  repeat first [ rewrite lookup_insert_eq | rewrite lookup_insert_ne by done ].
  cbn [results]. rewrite !lookup_insert_ne by done. rewrite Hspec. cbv beta iota.
  repeat first [ rewrite lookup_insert_eq | rewrite lookup_insert_ne by done ].
  cbn [results]. rewrite !lookup_insert_ne by done. rewrite Hf1. cbv beta iota.
  repeat first [ rewrite lookup_insert_eq | rewrite lookup_insert_ne by done ].
  reflexivity.
Qed.

(** A cell of the cross-validation family, when the training manager
    answers with the tracked columns: what the cell leaves behind. *)
Lemma grid_cell_cinc (lr : float) (w : world num) (task_type log_id : value)
    (val_cv_metrics test_cv_metrics : gmap string (list num)) (uar : list num)
    (column collected : string -> list num) :
  train_conf w !! "data_source" = Some (VStr "CinC") ->
  train_conf w !! "task_type" = Some task_type ->
  train_conf w !! "log_id" = Some log_id ->
  let conf :=
    <["prev_classes" := VInts [0; 1]]>
      (<["class_names" := VInts (if is_str task_type "regress" then [0] else [0; 1])]>
         (<["lr" := VFloat lr]> (train_conf w))) in
  let n := length (w_heap w) in
  let metrics : gmap string loc :=
    <["test" := (n + 8)%nat]> (<["val" := (n + 2)%nat]> (<["train" := (n + 9)%nat]> ∅)) in
  train_manager conf metrics (w_heap w ++ cv_objects n) = Ok (val_cv_metrics, test_cv_metrics) ->
  val_cv_metrics !! "uar" = Some uar ->
  (forall metric_name, metric_name ∈ test_metric_names ->
     test_cv_metrics !! metric_name = Some (column metric_name)) ->
  (forall metric_name, metric_name ∈ test_metric_names ->
     results w !! metric_name = Some (collected metric_name)) ->
  grid_cell' lr w =
    (Ok tt,
     {| w_disk :=
          (w_disk w
           ++ [(output_dir +:+ "/params/" +:+ py_str log_id +:+ ".txt",
                FText (String newline "Parameters:" +:+ String newline (json_dumps conf)))])
           ++ [(output_dir +:+ "/metrics/" +:+ py_str log_id +:+ "_test.csv",
                FCsv (metrics2df_cv test_cv_metrics))];
        w_heap := w_heap w ++ cv_objects n;
        train_conf := conf;
        results := foldl (fun r metric_name =>
                            <[metric_name := collected metric_name
                                             ++ [np_mean [np_mean (column metric_name)]]]> r)
                         (results w) test_metric_names;
        val_results := val_results w ++ [np_mean [np_mean uar]];
        stdout := stdout w |}).
Proof.
  intros Hsource Htask Hlog conf n metrics Hmanager Huar Hcolumns Hcollected.
  unfold grid_cell.
  unfold mbind at 1. unfold St_bind at 1. unfold conf_set at 1. unfold modify at 1.
  unfold mbind at 1. unfold St_bind at 1. unfold conf_get at 1. cbn [train_conf].
  unfold py_getitem at 1. rewrite lookup_insert_ne by done. rewrite Hsource.
  cbn [is_str String.eqb Ascii.eqb Bool.eqb].
  unfold mbind at 1. unfold St_bind at 1.
  unfold mbind at 1. unfold St_bind at 1. unfold conf_get at 1. cbn [train_conf].
  unfold py_getitem at 1. rewrite lookup_insert_ne by done. rewrite Hsource.
  cbn [is_str String.eqb Ascii.eqb Bool.eqb].
  unfold mbind at 1. unfold St_bind at 1.
  rewrite (cv_experiment_run _ task_type log_id val_cv_metrics test_cv_metrics uar).
  2: { cbn [train_conf]. rewrite lookup_insert_ne by done. exact Htask. }
  2: { cbn [train_conf]. rewrite lookup_insert_ne by done. exact Hlog. }
  2: { exact Hmanager. }
  2: { exact Huar. }
  cbn [train_conf w_disk w_heap results val_results stdout]. fold conf n.
  unfold mbind at 1. unfold St_bind at 1.
  rewrite (cell_means_loop test_cv_metrics column _ Hcolumns).
  unfold mret at 1. unfold St_ret at 1.
  unfold mbind at 1. unfold St_bind at 1. unfold get_state at 1.
  unfold mbind at 1. unfold St_bind at 1. unfold set_val_results at 1. unfold modify at 1.
  cbn [train_conf w_disk w_heap results val_results stdout app].
  rewrite (append_results_loop (fun metric_name => [np_mean (column metric_name)]) collected).
  - reflexivity.
  - exact Hcollected.
Qed.

(** After the appends of a cell each tracked name holds its own new
    sequence. *)
Lemma appended_results_lookup (f : string -> list num) (r : gmap string (list num)) :
  forall metric_name, metric_name ∈ test_metric_names ->
    foldl (fun r metric_name => <[metric_name := f metric_name]> r) r test_metric_names
      !! metric_name = Some (f metric_name).
Proof.
  apply test_metric_names_cases; unfold test_metric_names; cbn [foldl];
    repeat first [ apply lookup_insert_eq | rewrite lookup_insert_ne by done ].
Qed.
End GridFacts.

Lemma grid_hss_raises_attribute_error_witness :
  let w : world Q := stub_world "HSS" in
  exists w' : world Q,
    grid (stub_train_manager ∅ ∅) no_model_manager (fun _ => "{}") stub_py_str
         (fun _ => []) (fun _ => []) "output" w
      = (Raise (AttributeError "'dict' object has no attribute 'append'"), w') /\
    train_conf w' !! "model_type" = Some (VStr "vgg16") /\
    train_conf w' !! "lr" = Some (VFloat 0.0001) /\
    train_conf w' !! "seed" = Some (VInt 0) /\
    w_disk w' = w_disk w /\
    w_heap w' = w_heap w /\
    val_results w' = [] /\
    (forall metric_name, metric_name ∈ test_metric_names ->
       results w' !! metric_name = Some []).
Proof.
  apply (grid_hss_raises_attribute_error (stub_train_manager ∅ ∅) no_model_manager
           (fun _ => "{}") stub_py_str (fun _ => []) (fun _ => []) "output"
           (stub_world "HSS")).
  reflexivity.
Defined.

Lemma grid_hss_collects_nothing_witness :
  let run :=
    grid (stub_train_manager ∅ ∅) (no_model_manager (num := Q)) (fun _ => "{}") stub_py_str
         (fun _ => []) (fun _ => []) "output" (stub_world "HSS") in
  (exists e, run.1 = Raise e) /\
  length (val_results run.2) = 0%nat /\
  Forall (fun metric_name => length <$> results run.2 !! metric_name = Some 0%nat)
         test_metric_names /\
  (length models * length learning_rates)%nat = 10%nat.
Proof.
  apply (grid_hss_collects_nothing (stub_train_manager ∅ ∅) no_model_manager
           (fun _ => "{}") stub_py_str (fun _ => []) (fun _ => []) "output"
           (stub_world "HSS")).
  reflexivity.
Defined.

(** On the cross-validation family the loop completes and collects ten
    values for the validation score and for each tracked metric, the two
    learning rates of the first model first. *)
Example grid_cinc_model_major_order :
  let order : list Q := [0; 1; 10; 11; 20; 21; 30; 31; 40; 41]%Q in
  let run :=
    grid echo_train_manager no_model_manager (fun _ => "{}") stub_py_str
         (fun _ => []) (fun _ => []) "output" (stub_world "CinC") in
  run.1 = Ok tt /\
  map Qred (val_results run.2) = order /\
  Forall (fun metric_name => map Qred <$> results run.2 !! metric_name = Some order)
         test_metric_names.
Proof. vm_compute. repeat constructor. Qed.

(** ** The grid loop on the cross-validation family *)

Section CincGridFacts.
Context {num : Type} `{Arith num}.
Variable train_manager :
  gmap string value -> gmap string loc -> heap num ->
  result (gmap string (list num) * gmap string (list num)).
Variable base_model_manager :
  gmap string value -> loc -> heap num -> result (list (Metric num)).
Variable json_dumps : gmap string value -> string.
Variable py_str : value -> string.
Variable metrics2df_cv : gmap string (list num) -> list (list cell).
Variable metrics2df : list (Metric num) -> list (list cell).
Variable output_dir : string.
(** The training manager answers every call, with a validation [uar]
    column and a test column for each tracked name. *)
Hypothesis answers :
  forall conf metrics h,
  exists val_cv_metrics test_cv_metrics uar (column : string -> list num),
    train_manager conf metrics h = Ok (val_cv_metrics, test_cv_metrics) /\
    val_cv_metrics !! "uar" = Some uar /\
    (forall metric_name, metric_name ∈ test_metric_names ->
       test_cv_metrics !! metric_name = Some (column metric_name)).

Local Abbreviation grid_cell' := (grid_cell train_manager base_model_manager json_dumps py_str
                                            metrics2df_cv metrics2df output_dir).
Local Abbreviation grid' := (grid train_manager base_model_manager json_dumps py_str
                                  metrics2df_cv metrics2df output_dir).

(** What every cell keeps: the configuration entries the loop reads, and
    [k] values collected in each sequence. *)
Let collected_so_far (k : nat) (w : world num) : Prop :=
  train_conf w !! "data_source" = Some (VStr "CinC") /\
  is_Some (train_conf w !! "task_type") /\
  is_Some (train_conf w !! "log_id") /\
  length (val_results w) = k /\
  (forall metric_name, metric_name ∈ test_metric_names ->
     exists l, results w !! metric_name = Some l /\ length l = k).

Lemma grid_cell_cinc_collects_one (lr : float) (k : nat) (w : world num) :
  collected_so_far k w ->
  exists w', grid_cell' lr w = (Ok tt, w') /\ collected_so_far (S k) w'.
Proof.
  intros (Hsource & [task_type Htask] & [log_id Hlog] & Hval & Hresults).
  set (collected := fun metric_name => default [] (results w !! metric_name)).
  assert (forall metric_name, metric_name ∈ test_metric_names ->
            results w !! metric_name = Some (collected metric_name)) as Hcollected.
  { intros metric_name Hname. destruct (Hresults metric_name Hname) as (l & Hl & _).
    unfold collected. now rewrite Hl. }
  edestruct answers as (val_cv_metrics & test_cv_metrics & uar & column
                        & Hmanager & Huar & Hcolumns).
  eexists. split.
  - apply (grid_cell_cinc _ _ _ _ _ _ _ lr w task_type log_id
             val_cv_metrics test_cv_metrics uar column collected);
      [exact Hsource | exact Htask | exact Hlog | exact Hmanager | exact Huar
      | exact Hcolumns | exact Hcollected].
  - unfold collected_so_far. cbn [train_conf val_results results].
    rewrite !lookup_insert_ne by done.
    split; [exact Hsource |]. split; [eauto |]. split; [eauto |].
    split; [rewrite length_app; cbn; lia |].
    intros metric_name Hname.
    rewrite (appended_results_lookup
               (fun metric_name => collected metric_name ++ [np_mean [np_mean (column metric_name)]])
               _ metric_name Hname).
    eexists. split; [reflexivity |].
    destruct (Hresults metric_name Hname) as (l & Hl & Hlen).
    unfold collected. rewrite Hl, length_app. cbn. lia.
Qed.

(** The body of the model loop: two cells. *)
Lemma grid_model_cinc_collects_two (model : string) (k : nat) (w : world num) :
  collected_so_far k w ->
  exists w',
    (conf_set "model_type" (VStr model);; print (PStr model);;
     for_each learning_rates grid_cell') w = (Ok tt, w') /\
    collected_so_far (S (S k)) w'.
Proof.
  intros Hw.
  set (w0 := {| w_disk := w_disk w; w_heap := w_heap w;
                train_conf := <["model_type" := VStr model]> (train_conf w);
                results := results w; val_results := val_results w;
                stdout := stdout w ++ [PStr model] |}).
  assert (collected_so_far k w0) as Hw0.
  { destruct Hw as (Hsource & Htask & Hlog & Hrest).
    unfold collected_so_far, w0. cbn [train_conf val_results results].
    rewrite !lookup_insert_ne by done. auto. }
  destruct (grid_cell_cinc_collects_one 0.0001 k w0 Hw0) as (w1 & Hrun1 & Hw1).
  destruct (grid_cell_cinc_collects_one 0.00001 (S k) w1 Hw1) as (w2 & Hrun2 & Hw2).
  exists w2. split; [| exact Hw2].
  unfold mbind at 1. unfold St_bind at 1. unfold conf_set at 1. unfold modify at 1.
  unfold mbind at 1. unfold St_bind at 1. unfold print at 1. unfold modify at 1.
  cbn [train_conf w_disk w_heap results val_results stdout]. fold w0.
  unfold for_each, learning_rates. cbn [for_fold].
  unfold mbind at 1. unfold St_bind at 1. rewrite Hrun1.
  unfold mbind at 1. unfold St_bind at 1. rewrite Hrun2.
  reflexivity.
Qed.

Lemma grid_models_cinc (ms : list string) (k : nat) (w : world num) :
  collected_so_far k w ->
  exists w',
    for_each ms (fun model =>
      conf_set "model_type" (VStr model);; print (PStr model);;
      for_each learning_rates grid_cell') w = (Ok tt, w') /\
    collected_so_far (2 * length ms + k) w'.
Proof.
  revert k w. induction ms as [| model ms IH]; intros k w Hw.
  - exists w. split; [reflexivity | exact Hw].
  - destruct (grid_model_cinc_collects_two model k w Hw) as (w1 & Hrun1 & Hw1).
    destruct (IH (S (S k)) w1 Hw1) as (w2 & Hrun2 & Hw2).
    exists w2. split.
    + unfold for_each in *. cbn [for_fold].
      unfold mbind at 1. unfold St_bind at 1. rewrite Hrun1. exact Hrun2.
    + replace (2 * length (model :: ms) + k)%nat with (2 * length ms + S (S k))%nat
        by (cbn [length]; lia).
      exact Hw2.
Qed.

(** With data source ['CinC'] and a training manager that answers, the
    grid loop completes, and the validation sequence and the sequence of
    every tracked test metric end with [|models| * |learning_rates| = 10]
    values. *)
Lemma grid_cinc_collects_ten (w : world num) :
  train_conf w !! "data_source" = Some (VStr "CinC") ->
  is_Some (train_conf w !! "task_type") ->
  is_Some (train_conf w !! "log_id") ->
  exists w',
    grid' w = (Ok tt, w') /\
    length (val_results w') = 10%nat /\
    (forall metric_name, metric_name ∈ test_metric_names ->
       exists l, results w' !! metric_name = Some l /\ length l = 10%nat).
Proof.
  intros Hsource Htask Hlog.
  set (w0 := {| w_disk := w_disk w; w_heap := w_heap w; train_conf := train_conf w;
                results := empty_lists; val_results := []; stdout := stdout w |}).
  assert (collected_so_far 0 w0) as Hw0.
  { unfold collected_so_far, w0. cbn [train_conf val_results results].
    repeat split; try assumption.
    apply test_metric_names_cases; eexists; split; reflexivity. }
  destruct (grid_models_cinc models 0 w0 Hw0) as (w1 & Hrun & Hw1).
  destruct Hw1 as (_ & _ & [log_id Hlog1] & Hval & Hresults).
  eexists. split; [| split].
  - unfold grid.
    unfold mbind at 1. unfold St_bind at 1. unfold set_results at 1. unfold modify at 1.
    unfold mbind at 1. unfold St_bind at 1. unfold set_val_results at 1. unfold modify at 1.
    cbn [train_conf w_disk w_heap results val_results stdout]. fold w0.
    unfold mbind at 1. unfold St_bind at 1. rewrite Hrun.
    unfold mbind, St_bind, conf_get, py_getitem, get_state, print, modify.
    rewrite Hlog1. reflexivity.
  - exact Hval.
  - exact Hresults.
Qed.
End CincGridFacts.

(** ** Means *)

Lemma fold_left_Qplus (xs : list Q) (x : Q) :
  (fold_left Qplus xs x == x + fold_right Qplus 0 xs)%Q.
Proof.
  revert x. induction xs as [| a xs IH]; intros x; cbn.
  - ring.
  - rewrite IH. ring.
Qed.

(** Over the rationals [np_mean] is the arithmetic mean. *)
Lemma np_mean_arithmetic_mean (xs : list Q) : (np_mean xs == arithmetic_mean xs)%Q.
Proof.
  unfold np_mean, arithmetic_mean, len. cbn [a_div a_of_nat Q_arith].
  destruct xs as [| x rest]; [reflexivity |].
  cbn [np_sum a_add Q_arith fold_right]. now rewrite fold_left_Qplus.
Qed.

(** The mean of a single value is the value. *)
Lemma np_mean_singleton (x : Q) : (np_mean [x] == x)%Q.
Proof.
  unfold np_mean, np_sum. cbn [length fold_left a_div a_of_nat Q_arith].
  change (inject_Z (Z.of_nat 1)) with 1%Q. field.
Qed.

Example arithmetic_mean_08_09 : (arithmetic_mean [8 # 10; 9 # 10] == 85 # 100)%Q.
Proof. reflexivity. Qed.

(** In binary64 the same two values give the double next above 0.85. *)
Example np_mean_08_09_binary64 :
  np_mean [0.8%float; 0.9%float] = 0x1.b333333333334p-1%float /\
  0.85%float = 0x1.b333333333333p-1%float /\
  PrimFloat.ltb 0.85%float (np_mean [0.8%float; 0.9%float]) = true.
Proof. repeat split. Qed.

(** ** Aggregation in the cross-validation cell *)

Section CvMeanFacts.
Variable train_manager :
  gmap string value -> gmap string loc -> heap Q ->
  result (gmap string (list Q) * gmap string (list Q)).
Variable base_model_manager :
  gmap string value -> loc -> heap Q -> result (list (Metric Q)).
Variable json_dumps : gmap string value -> string.
Variable py_str : value -> string.
Variable metrics2df_cv : gmap string (list Q) -> list (list cell).
Variable metrics2df : list (Metric Q) -> list (list cell).
Variable output_dir : string.

Local Abbreviation grid_cell' := (grid_cell train_manager base_model_manager json_dumps py_str
                                            metrics2df_cv metrics2df output_dir).
Local Abbreviation cv_experiment' := (cv_experiment train_manager json_dumps py_str
                                                    metrics2df_cv output_dir).

(** C4 (as amended), in exact arithmetic. When the training manager
    answers a cell of the cross-validation family with per-fold metrics
    (at least one fold), the runner returns the arithmetic mean of the
    per-fold validation scores together with the test metrics as they
    came, and the cell appends to the validation sequence that mean, and
    to the sequence of each tracked test metric the arithmetic mean of its
    per-fold values. *)
Theorem cv_cell_aggregates_by_mean (lr : float) (w : world Q) (task_type log_id : value)
    (val_cv_metrics test_cv_metrics : gmap string (list Q)) (uar : list Q)
    (column collected : string -> list Q) :
  train_conf w !! "data_source" = Some (VStr "CinC") ->
  train_conf w !! "task_type" = Some task_type ->
  train_conf w !! "log_id" = Some log_id ->
  let conf :=
    <["prev_classes" := VInts [0; 1]]>
      (<["class_names" := VInts (if is_str task_type "regress" then [0] else [0; 1])]>
         (<["lr" := VFloat lr]> (train_conf w))) in
  let n := length (w_heap w) in
  let metrics : gmap string loc :=
    <["test" := (n + 8)%nat]> (<["val" := (n + 2)%nat]> (<["train" := (n + 9)%nat]> ∅)) in
  train_manager conf metrics (w_heap w ++ cv_objects n) = Ok (val_cv_metrics, test_cv_metrics) ->
  val_cv_metrics !! "uar" = Some uar ->
  uar <> [] ->
  (forall metric_name, metric_name ∈ test_metric_names ->
     test_cv_metrics !! metric_name = Some (column metric_name) /\ column metric_name <> []) ->
  (forall metric_name, metric_name ∈ test_metric_names ->
     results w !! metric_name = Some (collected metric_name)) ->
  exists (val_result : Q) (w1 w' : world Q),
    cv_experiment' (conf_set "lr" (VFloat lr) w).2 = (Ok (val_result, test_cv_metrics), w1) /\
    (val_result == arithmetic_mean uar)%Q /\
    grid_cell' lr w = (Ok tt, w') /\
    (exists v : Q, val_results w' = val_results w ++ [v] /\ (v == arithmetic_mean uar)%Q) /\
    (forall metric_name, metric_name ∈ test_metric_names ->
       exists x : Q,
         results w' !! metric_name = Some (collected metric_name ++ [x]) /\
         (x == arithmetic_mean (column metric_name))%Q).
Proof.
  intros Hsource Htask Hlog conf n metrics Hmanager Huar _ Hcolumns Hcollected.
  assert (forall metric_name, metric_name ∈ test_metric_names ->
            test_cv_metrics !! metric_name = Some (column metric_name)) as Hcolumns'
    by (intros metric_name Hname; apply Hcolumns, Hname).
  exists (np_mean uar). eexists _, _.
  split; [| split; [| split; [| split]]].
  - apply (cv_experiment_run _ _ _ _ _ _ task_type log_id val_cv_metrics test_cv_metrics uar).
    + cbn. rewrite lookup_insert_ne by done. exact Htask.
    + cbn. rewrite lookup_insert_ne by done. exact Hlog.
    + exact Hmanager.
    + exact Huar.
  - apply np_mean_arithmetic_mean.
  - apply (grid_cell_cinc _ _ _ _ _ _ _ lr w task_type log_id
             val_cv_metrics test_cv_metrics uar column collected); assumption.
  - cbn [val_results]. eexists. split; [reflexivity |].
    rewrite np_mean_singleton. apply np_mean_arithmetic_mean.
  - intros metric_name Hname. cbn [results].
    rewrite (appended_results_lookup
               (fun metric_name => collected metric_name ++ [np_mean [np_mean (column metric_name)]])
               _ metric_name Hname).
    eexists. split; [reflexivity |].
    rewrite np_mean_singleton. apply np_mean_arithmetic_mean.
Qed.
End CvMeanFacts.

(** The per-fold columns of the end-to-end scenario, in exact arithmetic:
    [uar] is 0.8 and 0.9 over two folds. *)
Lemma cv_cell_aggregates_by_mean_witness :
  let column := fun metric_name : string =>
    if String.eqb metric_name "uar" then [8 # 10; 9 # 10] else [1 # 1; 1 # 1] in
  let test_cv_metrics : gmap string (list Q) :=
    <["uar" := [8 # 10; 9 # 10]]>
      (<["recall_1" := [1 # 1; 1 # 1]]> (<["specificity" := [1 # 1; 1 # 1]]> (<["f1" := [1 # 1; 1 # 1]]> ∅))) in
  let val_cv_metrics : gmap string (list Q) := <["uar" := [5 # 10; 7 # 10]]> ∅ in
  let w : world Q := stub_world "CinC" in
  exists (val_result : Q) (w1 w' : world Q),
    cv_experiment (stub_train_manager val_cv_metrics test_cv_metrics)
        (fun _ => "{}") stub_py_str (fun _ => []) "output"
        (conf_set "lr" (VFloat 0.0001) w).2
      = (Ok (val_result, test_cv_metrics), w1) /\
    (val_result == arithmetic_mean [5 # 10; 7 # 10])%Q /\
    grid_cell (stub_train_manager val_cv_metrics test_cv_metrics) no_model_manager
        (fun _ => "{}") stub_py_str (fun _ => []) (fun _ => []) "output" 0.0001 w
      = (Ok tt, w') /\
    (exists v : Q,
       val_results w' = val_results w ++ [v] /\ (v == arithmetic_mean [5 # 10; 7 # 10])%Q) /\
    (forall metric_name, metric_name ∈ test_metric_names ->
       exists x : Q,
         results w' !! metric_name = Some ([] ++ [x]) /\
         (x == arithmetic_mean (column metric_name))%Q).
Proof.
  intros column test_cv_metrics val_cv_metrics w.
  apply (cv_cell_aggregates_by_mean
           (stub_train_manager val_cv_metrics test_cv_metrics) no_model_manager
           (fun _ => "{}") stub_py_str (fun _ => []) (fun _ => []) "output"
           0.0001 w (VStr "classify") (VStr "run")
           val_cv_metrics test_cv_metrics [5 # 10; 7 # 10] column (fun _ => [])).
  - reflexivity.
  - reflexivity.
  - reflexivity.
  - reflexivity.
  - reflexivity.
  - discriminate.
  - apply test_metric_names_cases; (split; [reflexivity | discriminate]).
  - apply test_metric_names_cases; reflexivity.
Defined.

(** C4, the claim as worded: in the arithmetic the program computes with
    the scenario does not yield 0.85. With per-fold test [uar] of 0.8 and
    0.9 the cell appends [0x1.b333333333334p-1], printed
    0.8500000000000001, which the comparison [==] tells from 0.85. *)
Lemma cv_cell_uar_is_not_085 :
  let test_cv_metrics : gmap string (list float) :=
    <["uar" := [0.8%float; 0.9%float]]>
      (<["recall_1" := [1%float; 1%float]]>
         (<["specificity" := [1%float; 1%float]]> (<["f1" := [1%float; 1%float]]> ∅))) in
  let val_cv_metrics : gmap string (list float) := <["uar" := [0.5%float; 0.7%float]]> ∅ in
  let run :=
    grid_cell (stub_train_manager val_cv_metrics test_cv_metrics) no_model_manager
      (fun _ => "{}") stub_py_str (fun _ => []) (fun _ => []) "output"
      0.0001 (stub_world "CinC") in
  run.1 = Ok tt /\
  results run.2 !! "uar" = Some [0x1.b333333333334p-1%float] /\
  PrimFloat.eqb 0x1.b333333333334p-1%float 0.85%float = false /\
  results run.2 !! "uar" <> Some [0.85%float].
Proof.
  cbv zeta.
  assert (results
            (grid_cell
               (stub_train_manager (<["uar" := [0.5%float; 0.7%float]]> ∅)
                  (<["uar" := [0.8%float; 0.9%float]]>
                     (<["recall_1" := [1%float; 1%float]]>
                        (<["specificity" := [1%float; 1%float]]>
                           (<["f1" := [1%float; 1%float]]> ∅)))))
               no_model_manager (fun _ => "{}") stub_py_str (fun _ => []) (fun _ => [])
               "output" 0.0001 (stub_world "CinC")).2 !! "uar"
          = Some [0x1.b333333333334p-1%float]) as Huar by (vm_compute; reflexivity).
  split; [vm_compute; reflexivity |]. split; [exact Huar |]. split; [reflexivity |].
  rewrite Huar. discriminate.
Qed.

(** * Further properties *)

(** ** Audio loader: failures and the silent file *)

Section AudioLoaderMore.
Context {sample : Type} (zero : sample).
Variable load : string -> Z -> result (list sample).

(** X1. The loader fails in two ways only: on a row with no field, with
    [IndexError], and when the decoder fails, with the decoder's
    exception. Once a waveform is decoded nothing can raise, whatever the
    sample rate and duration, negative ones included: the pad width of
    line 48 is never negative. *)
Theorem load_func_fails_only_on_decode (sr one_audio_sec : Z) (path : list string)
    (e : exn) :
  load_func zero load sr one_audio_sec path = Raise e <->
  (path = [] /\ e = IndexError) \/
  (exists p, path !! 0%nat = Some p /\ load p sr = Raise e).
Proof.
  unfold load_func, py_index.
  destruct path as [| p rest]; cbn [lookup list_lookup mbind result_bind].
  - split.
    + intros [= <-]. left. split; reflexivity.
    + intros [[_ ->] | (p & Hp & _)]; [reflexivity | discriminate].
  - destruct (load p sr) as [wave | e'] eqn:Hload; cbn [mbind result_bind].
    + split; [| intros [[Hnil _] | (p' & [= <-] & Hbad)]; congruence].
      intros Hraise. exfalso. revert Hraise.
      destruct (Z.gtb_spec (len wave) (sr * one_audio_sec)) as [Hgt | Hle];
        [discriminate |].
      destruct (Z.ltb_spec (len wave) (sr * one_audio_sec)) as [Hlt | Hge];
        [| discriminate].
      destruct (n_pad_bounds (sr * one_audio_sec - len wave)) as (Hn & _); [lia |].
      unfold np_pad.
      destruct (Z.ltb_spec ((sr * one_audio_sec - len wave) / 2 + 1) 0) as [Hneg | _];
        [lia | discriminate].
    + split.
      * intros [= <-]. right. exists p. split; [reflexivity | exact Hload].
      * intros [[Hnil _] | (p' & [= <-] & Hbad)]; congruence.
Qed.

(** X2. A file that decodes to no sample at all is not refused: for a
    positive target length the loader returns a row of that many zeros. *)
Theorem load_func_empty_waveform (sr one_audio_sec : Z) (path : list string) (p : string) :
  path !! 0%nat = Some p ->
  load p sr = Ok [] ->
  0 < sr * one_audio_sec ->
  load_func zero load sr one_audio_sec path
    = Ok [replicate (Z.to_nat (sr * one_audio_sec)) zero].
Proof.
  intros Hpath Hload Hpos.
  rewrite (load_func_short _ _ _ _ _ p []) by (try assumption; cbn; lia).
  change (len (@nil sample)) with 0. rewrite Z.sub_0_r.
  destruct (n_pad_bounds (sr * one_audio_sec)) as (Hn & Hover & _); [lia |].
  unfold np_pad.
  destruct (Z.ltb_spec (sr * one_audio_sec / 2 + 1) 0) as [Hneg | _]; [lia |].
  cbn [mbind result_bind app]. rewrite slice_to_take by lia.
  rewrite <- replicate_add, take_replicate.
  do 3 f_equal. lia.
Qed.
End AudioLoaderMore.

Lemma load_func_empty_waveform_witness :
  load_func 0 (fun _ _ => Ok []) 2 3 ["silent.wav"] = Ok [replicate (Z.to_nat (2 * 3)) 0].
Proof.
  apply (load_func_empty_waveform 0 (fun _ _ => Ok []) 2 3 ["silent.wav"] "silent.wav");
    [reflexivity | reflexivity | lia].
Defined.

(** ** Header labels ([create_cinc_manifest], line 111) *)

Lemma rev_app_append (a b c : string) :
  String.rev_app a b +:+ c = String.rev_app a (b +:+ c).
Proof. revert b. induction a as [| x a IH]; intros b; cbn; [reflexivity | apply IH]. Qed.

Lemma str_contains_cons (sep : string) (c : ascii) (s : string) :
  str_contains sep (String c s) = false ->
  String.prefix sep (String c s) = false /\ str_contains sep s = false.
Proof. cbn [str_contains]. intros Hno. now apply orb_false_iff in Hno. Qed.

(** A text without the separator is one piece. *)
Lemma str_split_aux_no_sep (sep s cur : string) :
  str_contains sep s = false ->
  str_split_aux sep s 0 cur = [String.rev cur +:+ s].
Proof.
  revert cur. induction s as [| c s IH]; intros cur Hno.
  - cbn. unfold String.rev. rewrite rev_app_append. reflexivity.
  - destruct (str_contains_cons _ _ _ Hno) as [Hprefix Hrest].
    cbn [str_split_aux]. rewrite Hprefix, (IH _ Hrest).
    unfold String.rev. cbn [String.rev_app]. now rewrite !rev_app_append.
Qed.

(** ['# '] at the head of a text: a ['#'], then a space. *)
Lemma prefix_marker (c : ascii) (s : string) :
  String.prefix "# " (String c s) = true ->
  exists rest, c = "#"%char /\ s = String " " rest.
Proof.
  cbn [String.prefix].
  destruct (ascii_dec "#" c) as [<- | _]; [| discriminate].
  destruct s as [| b rest]; cbn [String.prefix]; [discriminate |].
  destruct (ascii_dec " " b) as [<- | _]; [| discriminate].
  intros _. eauto.
Qed.

(** The last piece of a text is what follows its last marker. While a
    marker is being passed over ([skip] is 1) the text stands at the
    marker's space. *)
Lemma str_split_aux_last (before tail : string) :
  str_contains "# " tail = false ->
  forall (skip : nat) (cur : string),
    skip = 0%nat \/ (skip = 1%nat /\ exists rest, before +:+ "# " +:+ tail = String " " rest) ->
    last (str_split_aux "# " (before +:+ "# " +:+ tail) skip cur) = Some tail.
Proof.
  intros Htail. induction before as [| c before IH]; intros skip cur Hskip.
  - destruct Hskip as [-> | (_ & rest & Hrest)]; [| cbn in Hrest; discriminate Hrest].
    change ("" +:+ "# " +:+ tail) with (String "#" (String " " tail)).
    assert (String.prefix "# " (String "#" (String " " tail)) = true) as Hprefix
      by (cbn [String.prefix];
          destruct (ascii_dec "#" "#") as [_ | Hne]; [| congruence];
          destruct (ascii_dec " " " ") as [_ | Hne]; [| congruence];
          destruct tail; reflexivity).
    cbn [str_split_aux]. rewrite Hprefix. cbn [String.length Nat.sub str_split_aux].
    rewrite (str_split_aux_no_sep "# " tail "" Htail). reflexivity.
  - change (String c before +:+ "# " +:+ tail)
      with (String c (before +:+ "# " +:+ tail)) in *.
    cbn [str_split_aux].
    destruct Hskip as [-> | (-> & rest & Hrest)].
    + destruct (String.prefix "# " (String c (before +:+ "# " +:+ tail))) eqn:Hprefix.
      * apply prefix_marker in Hprefix as (rest & _ & Hrest).
        rewrite last_cons. cbn [String.length Nat.sub].
        rewrite IH; [reflexivity |]. right. eauto.
      * apply IH. now left.
    + apply IH. now left.
Qed.

(** X3. The label read from a header is what follows the last ['# '] of
    its text, with the line ends removed, and whatever stands before that
    marker is ignored. *)
Theorem header_label_after_last_marker (before tail : string) :
  str_contains "# " tail = false ->
  header_label (before +:+ "# " +:+ tail) = Ok (str_remove newline tail).
Proof.
  intros Htail. unfold header_label, py_last, str_split.
  rewrite (str_split_aux_last before tail Htail 0 ""); [reflexivity | now left].
Qed.

Lemma header_label_after_last_marker_witness :
  header_label ("a0001 1 2000 20000" +:+ String newline "# comment"
                +:+ "# " +:+ ("Abnormal" +:+ String newline ""))
    = Ok (str_remove newline ("Abnormal" +:+ String newline "")).
Proof.
  apply (header_label_after_last_marker
           ("a0001 1 2000 20000" +:+ String newline "# comment")
           ("Abnormal" +:+ String newline "")).
  reflexivity.
Defined.

(** X4. A header with no ['# '] marker is not refused: its whole text,
    line ends removed, becomes the label. *)
Theorem header_label_without_marker (text : string) :
  str_contains "# " text = false ->
  header_label text = Ok (str_remove newline text).
Proof.
  intros Hno. unfold header_label, py_last, str_split.
  now rewrite (str_split_aux_no_sep "# " text "" Hno).
Qed.

Lemma header_label_without_marker_witness :
  header_label ("a0001 1 2000" +:+ String newline "Normal")
    = Ok (str_remove newline ("a0001 1 2000" +:+ String newline "Normal")).
Proof.
  apply (header_label_without_marker ("a0001 1 2000" +:+ String newline "Normal")).
  reflexivity.
Defined.

(** X5. Read and mapped: a header whose text ends with the marker and
    one of the two words of the vocabulary, followed by a line end, gives
    a manifest label the label mapper accepts. *)
Theorem header_label_feeds_label_mapper (before file : string) :
  (label ← header_label (before +:+ "# " +:+ ("Normal" +:+ String newline ""));
   cinc_label_func [file; label]) = Ok 0 /\
  (label ← header_label (before +:+ "# " +:+ ("Abnormal" +:+ String newline ""));
   cinc_label_func [file; label]) = Ok 1.
Proof.
  unfold header_label, py_last, str_split.
  rewrite (str_split_aux_last before ("Normal" +:+ String newline "") eq_refl 0 "")
    by now left.
  rewrite (str_split_aux_last before ("Abnormal" +:+ String newline "") eq_refl 0 "")
    by now left.
  split; reflexivity.
Qed.

(** ** Manifest builder, family A: listing order, pairing, partial builds *)

Lemma str_le_po : PartialOrder str_le.
Proof. exact String.le_po. Qed.

Lemma str_le_total : Total str_le.
Proof. exact String.le_total. Qed.

(** Two listings of one directory give one sorted list. *)
Lemma hss_phase_files_Permutation (data_dir : string) (wav_dir wav_dir' : list string)
    (phase : string) :
  wav_dir ≡ₚ wav_dir' ->
  hss_phase_files data_dir wav_dir phase = hss_phase_files data_dir wav_dir' phase.
Proof.
  intros Hperm. unfold hss_phase_files, sort_strings.
  pose proof str_le_po as Hpo. pose proof str_le_total as Htotal.
  apply (Sorted_unique str_le).
  - apply (Sorted_merge_sort str_le).
  - apply (Sorted_merge_sort str_le).
  - rewrite !merge_sort_Permutation.
    apply Permutation_map. now apply filter_Permutation.
Qed.

(** X6. The manifests do not depend on the order in which the directory
    lists the wav files: each phase list is sorted before it is used. *)
Theorem create_hss_manifest_listing_order (data_dir : string)
    (wav_dir wav_dir' : list string) (labels_train_dev labels_test : list (list string))
    (d : disk) :
  wav_dir ≡ₚ wav_dir' ->
  create_hss_manifest data_dir wav_dir labels_train_dev labels_test d
    = create_hss_manifest data_dir wav_dir' labels_train_dev labels_test d.
Proof.
  intros Hperm. unfold create_hss_manifest. cbn [foldl].
  now rewrite !(hss_phase_files_Permutation data_dir wav_dir wav_dir' _ Hperm).
Qed.

Lemma create_hss_manifest_listing_order_witness :
  create_hss_manifest "/input" ["b_train.wav"; "a_train.wav"; "a_devel.wav"; "a_test.wav"]
      [["file_name"; "label"]; ["a"; "0"]; ["b"; "1"]; ["c"; "2"]] [["a"; "1"]] []
    = create_hss_manifest "/input" ["a_test.wav"; "a_train.wav"; "b_train.wav"; "a_devel.wav"]
        [["file_name"; "label"]; ["a"; "0"]; ["b"; "1"]; ["c"; "2"]] [["a"; "1"]] [].
Proof.
  apply (create_hss_manifest_listing_order "/input"
           ["b_train.wav"; "a_train.wav"; "a_devel.wav"; "a_test.wav"]
           ["a_test.wav"; "a_train.wav"; "b_train.wav"; "a_devel.wav"]).
  apply (bool_decide_unpack _). vm_compute. reflexivity.
Defined.

(** X7. A phase list is sorted, and holds the full path of exactly the
    entries whose name contains the phase word: the phase is looked for
    anywhere in the name, so a name with two phase words is listed for
    both phases and a name with none is listed for no phase. *)
Theorem hss_phase_files_by_substring (data_dir : string) (wav_dir : list string)
    (phase p : string) :
  Sorted str_le (hss_phase_files data_dir wav_dir phase) /\
  (p ∈ hss_phase_files data_dir wav_dir phase <->
   exists name, name ∈ wav_dir /\ str_contains phase name = true /\
                p = data_dir +:+ "/wav/" +:+ name).
Proof.
  pose proof str_le_total as Htotal.
  unfold hss_phase_files, sort_strings. split.
  - apply (Sorted_merge_sort str_le).
  - rewrite merge_sort_Permutation.
    change (map ?f ?l) with (f <$> l). rewrite list_elem_of_fmap.
    split.
    + intros (name & -> & Hname). apply list_elem_of_filter in Hname as [Hphase Hname].
      exists name. split; [exact Hname |]. split; [| reflexivity].
      now apply Is_true_true.
    + intros (name & Hname & Hphase & ->). exists name. split; [reflexivity |].
      apply list_elem_of_filter. split; [| exact Hname]. now apply Is_true_true.
Qed.

(** Assigning a list of the frame's length to a column the frame has. *)
Lemma df_setitem_replace (df : DataFrame) (key : col) (j : nat) (values : list string) :
  length values = length (df_rows df) ->
  col_index key (df_columns df) = Some j ->
  df_setitem df key values =
    Ok {| df_columns := df_columns df;
          df_rows := zip_with (fun row v => <[j := Some v]> row) (df_rows df) values |}.
Proof.
  intros Hlen Hcol. unfold df_setitem.
  assert (ensure_valid_index df values = df) as ->.
  { unfold ensure_valid_index. destruct (df_rows df) as [| row rows]; [| reflexivity].
    destruct values; [reflexivity | discriminate]. }
  destruct (decide _) as [_ | Hne]; [| contradiction].
  now rewrite Hcol.
Qed.

Lemma zip_with_label_rows (files : list string) (table : list (string * string)) :
  zip_with (fun (row : list cell) v => <[0%nat := Some v]> row)
           (map (map Some) (map (fun r => [r.1; r.2]) table)) files
  = zip_with (fun p (r : string * string) => [Some p; Some r.2]) files table.
Proof.
  revert files. induction table as [| r table IH]; intros [| p files]; cbn;
    try reflexivity.
  now rewrite IH.
Qed.

Section HssManifestRuns.
Variables (data_dir : string) (wav_dir : list string).
Variables (label_column : string) (table test_table : list (string * string)).

Local Abbreviation files := (hss_phase_files data_dir wav_dir).
Local Abbreviation train_path := (data_dir +:+ "/train_manifest.csv").
Local Abbreviation val_path := (data_dir +:+ "/val_manifest.csv").
Local Abbreviation test_path := (data_dir +:+ "/test_manifest.csv").
(** A label file of two fields a line, and a manifest row. *)
Local Abbreviation lines_of := (map (fun r : string * string => [r.1; r.2])).
Local Abbreviation labelled := (fun p (r : string * string) => [Some p; Some r.2]).
Local Abbreviation train_dev_lines := (["file_name"; label_column] :: lines_of table).

(** The train phase, when the label table is long enough. *)
Lemma hss_train_phase :
  (length (files "train") <= length table)%nat ->
  df_setitem (iloc_to (len (files "train"))
                {| df_columns := map CName ["file_name"; label_column];
                   df_rows := map (map Some) (lines_of table) |})
             (CName "file_name") (files "train")
  = Ok {| df_columns := map CName ["file_name"; label_column];
          df_rows := zip_with labelled (files "train") table |}.
Proof.
  intros Hlen.
  rewrite (df_setitem_replace _ _ 0).
  - f_equal. f_equal. rewrite iloc_to_rows. cbn [df_rows].
    rewrite <- zip_with_label_rows. apply zip_with_take_l.
  - rewrite iloc_to_rows. cbn [df_rows]. rewrite length_take, !length_map. lia.
  - cbn. now rewrite decide_True.
Qed.



(** X9. A partial build: when the label table is long enough for the
    train files but the rows left for devel are not as many as the devel
    files, the build fails with [AssertionError] after
    [train_manifest.csv] was written, and that file stays. *)
Theorem create_hss_manifest_devel_mismatch_keeps_train (d : disk) :
  (length (files "train") <= length table)%nat ->
  (length table - length (files "train"))%nat <> length (files "devel") ->
  test_table <> [] ->
  create_hss_manifest data_dir wav_dir train_dev_lines (lines_of test_table) d
  = (Raise AssertionError,
     d ++ [(train_path, FCsv (zip_with labelled (files "train") table))]).
Proof.
  intros Hlen Hdevel Hsome. rewrite create_hss_manifest_eval.
  assert (exists test, read_csv_no_header (lines_of test_table) = Ok test) as [test Hread].
  { destruct test_table; [congruence | eexists; reflexivity]. }
  unfold mbind, St_bind, lift. cbn [read_csv]. rewrite Hread.
  rewrite hss_train_phase by lia.
  unfold to_csv, write_file, modify. cbn [df_rows].
  destruct (decide _) as [Heq | _]; [| reflexivity].
  exfalso. apply Hdevel. unfold df_len in Heq. rewrite iloc_from_rows in Heq.
  unfold len in Heq. cbn [df_rows] in Heq. rewrite length_drop, !length_map in Heq. lia.
Qed.
End HssManifestRuns.


Lemma create_hss_manifest_devel_mismatch_keeps_train_witness :
  create_hss_manifest "/input" ["a_train.wav"; "a_devel.wav"; "b_devel.wav"; "a_test.wav"]
      (["file_name"; "label"]
         :: map (fun r : string * string => [r.1; r.2]) [("x.wav", "0"); ("y.wav", "1")])
      (map (fun r : string * string => [r.1; r.2]) [("t.wav", "1")]) []
  = (Raise AssertionError,
     [] ++ [("/input" +:+ "/train_manifest.csv",
             FCsv (zip_with (fun p (r : string * string) => [Some p; Some r.2])
                     (hss_phase_files "/input"
                        ["a_train.wav"; "a_devel.wav"; "b_devel.wav"; "a_test.wav"] "train")
                     [("x.wav", "0"); ("y.wav", "1")]))]).
Proof.
  apply (create_hss_manifest_devel_mismatch_keeps_train "/input"
           ["a_train.wav"; "a_devel.wav"; "b_devel.wav"; "a_test.wav"] "label"
           [("x.wav", "0"); ("y.wav", "1")] [("t.wav", "1")] []);
    [vm_compute; lia | vm_compute; lia | discriminate].
Defined.

(** X10. An empty label file stops the build before anything is written:
    both files are read ahead of the first manifest, so an empty test
    label file withholds the train and val manifests too. *)
Theorem create_hss_manifest_empty_label_file (data_dir : string) (wav_dir : list string)
    (labels_train_dev labels_test : list (list string)) (d : disk) :
  labels_train_dev = [] \/ labels_test = [] ->
  create_hss_manifest data_dir wav_dir labels_train_dev labels_test d
    = (Raise EmptyDataError, d).
Proof.
  intros Hempty. rewrite create_hss_manifest_eval. unfold mbind, St_bind, lift.
  destruct labels_train_dev as [| header rows]; [reflexivity |].
  destruct Hempty as [Hnil | ->]; [discriminate | reflexivity].
Qed.

Lemma create_hss_manifest_empty_label_file_witness :
  create_hss_manifest "/input" ["a_train.wav"; "a_test.wav"]
      [["file_name"; "label"]; ["a_train.wav"; "0"]] [] []
    = (Raise EmptyDataError, []).
Proof.
  apply (create_hss_manifest_empty_label_file "/input" ["a_train.wav"; "a_test.wav"]
           [["file_name"; "label"]; ["a_train.wav"; "0"]] [] []).
  right. reflexivity.
Defined.



(** ** Manifest builder, family B: empty input, all or nothing, listing order *)

(** X12. With no [training-] folder under [cinc] the build succeeds and
    writes a manifest with no row; no header is opened. *)
Theorem create_cinc_manifest_no_training_folder (data_dir : Path)
    (cinc_dir : list (string * list string)) (read_text : Path -> result string)
    (d : disk) :
  Forall (fun entry => str_startswith "training-" entry.1 = false) cinc_dir ->
  create_cinc_manifest data_dir cinc_dir read_text d
    = (Ok tt, d ++ [(path_str (data_dir ++ ["cinc_manifest.csv"]), FCsv [])]).
Proof.
  intros Hnone.
  assert (cinc_training_folders data_dir cinc_dir = []) as Hfolders.
  { unfold cinc_training_folders.
    replace (filter (fun entry => Is_true (str_startswith "training-" entry.1)) cinc_dir)
      with (@nil (string * list string)); [reflexivity |].
    symmetry. induction Hnone as [| entry rest Hentry _ IH]; [reflexivity |].
    rewrite filter_cons_False; [exact IH |].
    rewrite Hentry. exact id. }
  unfold create_cinc_manifest, cinc_head_paths, cinc_wav_paths. rewrite Hfolders.
  reflexivity.
Qed.

Lemma create_cinc_manifest_no_training_folder_witness :
  create_cinc_manifest ["input"] [("validation", ["a0001.hea"; "a0001.wav"])]
      (fun _ => Raise (CollaboratorError "not opened")) []
    = (Ok tt, [] ++ [(path_str (["input"] ++ ["cinc_manifest.csv"]), FCsv [])]).
Proof.
  apply (create_cinc_manifest_no_training_folder ["input"]
           [("validation", ["a0001.hea"; "a0001.wav"])]
           (fun _ => Raise (CollaboratorError "not opened")) []).
  repeat constructor.
Defined.

(** The loop of lines 108-111 reads and never writes, and adds a label
    for every pair when it ends. *)
Lemma cinc_pairs_loop_reads_only (read_text : Path -> result string)
    (pairs : list (Path * Path)) (labels : list string) (d : disk) :
  exists r,
    for_fold pairs
      (fun labels (pair : Path * Path) =>
         let '(head, wav) := pair in
         if decide (stem head = stem wav) then
           text ← lift (read_text head);
           label ← lift (header_label text);
           mret (labels ++ [label])
         else raise AssertionError)
      labels d = (r, d) /\
    (forall labels', r = Ok labels' ->
       length labels' = (length labels + length pairs)%nat).
Proof.
  revert labels. induction pairs as [| [head wav] pairs IH]; intros labels.
  - eexists. split; [reflexivity |]. intros labels' [= <-]. cbn. lia.
  - cbn [for_fold]. unfold mbind at 1. unfold St_bind at 1.
    destruct (decide (stem head = stem wav)) as [_ | _];
      [| eexists; split; [reflexivity | discriminate]].
    unfold mbind at 1. unfold St_bind at 1. unfold lift at 1.
    destruct (read_text head) as [text | e];
      [| eexists; split; [reflexivity | discriminate]].
    unfold mbind at 1. unfold St_bind at 1. unfold lift at 1.
    destruct (header_label text) as [label | e];
      [| eexists; split; [reflexivity | discriminate]].
    unfold mret at 1. unfold St_ret at 1.
    destruct (IH (labels ++ [label])) as (r & Hrun & Hcount).
    exists r. split; [exact Hrun |].
    intros labels' Hr. rewrite (Hcount labels' Hr), length_app. cbn. lia.
Qed.

(** X13. All or nothing: whatever the folders hold and whatever reading
    a header gives, the build either fails with the disk as it was, or
    succeeds having written the one manifest, with a row for every
    waveform file. No partial manifest is left behind. *)
Theorem create_cinc_manifest_all_or_nothing (data_dir : Path)
    (cinc_dir : list (string * list string)) (read_text : Path -> result string)
    (d : disk) :
  (exists e, create_cinc_manifest data_dir cinc_dir read_text d = (Raise e, d)) \/
  (exists rows,
     create_cinc_manifest data_dir cinc_dir read_text d
       = (Ok tt, d ++ [(path_str (data_dir ++ ["cinc_manifest.csv"]), FCsv rows)]) /\
     length rows = length (cinc_wav_paths data_dir cinc_dir)).
Proof.
  unfold create_cinc_manifest.
  destruct (cinc_pairs_loop_reads_only read_text
              (zip (cinc_head_paths data_dir cinc_dir) (cinc_wav_paths data_dir cinc_dir))
              [] d) as ([labels | e] & Hloop & Hcount).
  - right. unfold mbind at 1. unfold St_bind at 1. rewrite Hloop.
    eexists. split; [reflexivity |].
    cbn [df_rows df_of_two_lists_T]. rewrite !length_map, length_seq.
    apply Nat.max_l.
    rewrite (Hcount labels eq_refl), length_zip_with. cbn. lia.
  - left. exists e. unfold mbind at 1. unfold St_bind at 1. now rewrite Hloop.
Qed.

(** The order of paths is a total order. *)
Lemma String_compare_refl (s : string) : String.compare s s = Eq.
Proof.
  pose proof (String.compare_antisym s s) as Hanti.
  destruct (String.compare s s); cbn in Hanti; congruence.
Qed.

Lemma String_compare_Lt_trans (x y z : string) :
  String.compare x y = Lt -> String.compare y z = Lt -> String.compare x z = Lt.
Proof.
  intros Hxy Hyz.
  assert (str_le x z) as Hxz.
  { pose proof str_le_po as Hpo. transitivity y; unfold str_le, String.leb.
    - now rewrite Hxy.
    - now rewrite Hyz. }
  unfold str_le, String.leb in Hxz.
  destruct (String.compare x z) eqn:Hcmp; [| reflexivity | contradiction].
  apply String.compare_eq_iff in Hcmp. subst z.
  rewrite String.compare_antisym, Hxy in Hyz. discriminate.
Qed.

Lemma parts_leb_trans (a b c : Path) :
  parts_leb a b = true -> parts_leb b c = true -> parts_leb a c = true.
Proof.
  revert b c. induction a as [| x a IH]; intros [| y b] [| z c]; cbn; try congruence.
  destruct (String.compare x y) eqn:Hxy, (String.compare y z) eqn:Hyz; try discriminate.
  - apply String.compare_eq_iff in Hxy, Hyz. subst. rewrite String_compare_refl. apply IH.
  - apply String.compare_eq_iff in Hxy. subst. now rewrite Hyz.
  - apply String.compare_eq_iff in Hyz. subst. now rewrite Hxy.
  - now rewrite (String_compare_Lt_trans x y z).
Qed.

Lemma parts_leb_antisym (a b : Path) :
  parts_leb a b = true -> parts_leb b a = true -> a = b.
Proof.
  revert b. induction a as [| x a IH]; intros [| y b]; cbn; try congruence.
  rewrite (String.compare_antisym y x).
  destruct (String.compare x y) eqn:Hxy; cbn; try congruence.
  apply String.compare_eq_iff in Hxy. subst. intros Hab Hba. f_equal. now apply IH.
Qed.

Lemma parts_leb_total (a b : Path) : parts_leb a b = true \/ parts_leb b a = true.
Proof.
  revert b. induction a as [| x a IH]; intros [| y b]; cbn; auto.
  rewrite (String.compare_antisym y x).
  destruct (String.compare x y); cbn; auto.
Qed.

Lemma path_le_trans : Transitive path_le.
Proof.
  intros a b c Hab%Is_true_true Hbc%Is_true_true.
  apply Is_true_true. now apply (parts_leb_trans a b c).
Qed.

Lemma path_le_antisym : AntiSymm (=) path_le.
Proof. intros a b Hab%Is_true_true Hba%Is_true_true. now apply parts_leb_antisym. Qed.

Lemma path_le_total : Total path_le.
Proof.
  intros a b. unfold path_le.
  destruct (parts_leb_total a b) as [-> | ->]; [left | right]; exact I.
Qed.

(** The files found do not depend, up to their order, on the order of
    the folders or of the entries of a folder. *)
Lemma cinc_paths_app (folders : list (Path * list string)) (ext : string)
    (acc : list Path) :
  foldl (fun paths (folder : Path * list string) =>
           paths ++ map (fun name => folder.1 ++ [name])
                        (filter (fun name => Is_true (str_endswith ext name)) folder.2))
        acc folders
  = acc ++ cinc_paths folders ext.
Proof.
  unfold cinc_paths. revert acc.
  induction folders as [| folder folders IH]; intros acc; cbn [foldl].
  - now rewrite app_nil_r.
  - rewrite IH, (IH ([] ++ _)). now rewrite app_assoc.
Qed.

Lemma cinc_paths_cons (folder : Path * list string) (folders : list (Path * list string))
    (ext : string) :
  cinc_paths (folder :: folders) ext
  = map (fun name => folder.1 ++ [name])
        (filter (fun name => Is_true (str_endswith ext name)) folder.2)
    ++ cinc_paths folders ext.
Proof. unfold cinc_paths at 1. cbn [foldl]. now rewrite cinc_paths_app. Qed.

Lemma cinc_paths_Permutation (folders folders' : list (Path * list string)) (ext : string) :
  folders ≡ₚ folders' -> cinc_paths folders ext ≡ₚ cinc_paths folders' ext.
Proof.
  induction 1 as [| folder l l' _ IH | f g l | l l' l'' _ IH _ IH'].
  - reflexivity.
  - rewrite !cinc_paths_cons. now rewrite IH.
  - rewrite !cinc_paths_cons, !app_assoc.
    apply Permutation_app_tail, Permutation_app_comm.
  - now rewrite IH.
Qed.

Lemma cinc_paths_entries (data_dir : Path) (mid cinc_dir' : list (string * list string))
    (ext : string) :
  Forall2 (fun e e' : string * list string => e.1 = e'.1 /\ e.2 ≡ₚ e'.2) mid cinc_dir' ->
  cinc_paths (cinc_training_folders data_dir mid) ext
  ≡ₚ cinc_paths (cinc_training_folders data_dir cinc_dir') ext.
Proof.
  unfold cinc_training_folders.
  induction 1 as [| [name entries] [name' entries'] l l' [Hname Hentries] _ IH];
    [reflexivity |].
  cbn in Hname, Hentries. subst name'.
  destruct (decide (Is_true (str_startswith "training-" name))) as [Hyes | Hno].
  - rewrite !filter_cons_True by exact Hyes. cbn [map]. rewrite !cinc_paths_cons.
    cbn [fst snd]. apply Permutation_app; [| exact IH].
    apply Permutation_map. now apply filter_Permutation.
  - rewrite !filter_cons_False by exact Hno. exact IH.
Qed.

Lemma sort_paths_Permutation (l l' : list Path) :
  l ≡ₚ l' -> sort_paths l = sort_paths l'.
Proof.
  intros Hperm. unfold sort_paths.
  pose proof path_le_trans as Htrans. pose proof path_le_antisym as Hanti.
  pose proof path_le_total as Htotal.
  apply (Sorted_unique path_le).
  - apply (Sorted_merge_sort path_le).
  - apply (Sorted_merge_sort path_le).
  - now rewrite !merge_sort_Permutation.
Qed.

(** X14. The manifest does not depend on the order in which [cinc]
    lists its folders, nor on the order in which a folder lists its
    files: the header and waveform lists are sorted as whole paths
    before they are paired. *)
Theorem create_cinc_manifest_listing_order (data_dir : Path)
    (cinc_dir mid cinc_dir' : list (string * list string))
    (read_text : Path -> result string) (d : disk) :
  cinc_dir ≡ₚ mid ->
  Forall2 (fun e e' : string * list string => e.1 = e'.1 /\ e.2 ≡ₚ e'.2) mid cinc_dir' ->
  create_cinc_manifest data_dir cinc_dir read_text d
    = create_cinc_manifest data_dir cinc_dir' read_text d.
Proof.
  intros Hfolders Hentries.
  assert (forall ext,
            sort_paths (cinc_paths (cinc_training_folders data_dir cinc_dir) ext)
            = sort_paths (cinc_paths (cinc_training_folders data_dir cinc_dir') ext))
    as Hsame.
  { intros ext. apply sort_paths_Permutation.
    rewrite <- (cinc_paths_entries data_dir mid cinc_dir' ext Hentries).
    apply cinc_paths_Permutation. unfold cinc_training_folders.
    apply Permutation_map. now apply filter_Permutation. }
  unfold create_cinc_manifest, cinc_head_paths, cinc_wav_paths.
  now rewrite !Hsame.
Qed.

Lemma create_cinc_manifest_listing_order_witness :
  create_cinc_manifest ["input"]
      [("training-b", ["b0001.wav"; "b0001.hea"]); ("training-a", ["a0001.hea"; "a0001.wav"])]
      (fun _ => Ok "# Normal") []
    = create_cinc_manifest ["input"]
        [("training-a", ["a0001.wav"; "a0001.hea"]); ("training-b", ["b0001.hea"; "b0001.wav"])]
        (fun _ => Ok "# Normal") [].
Proof.
  apply (create_cinc_manifest_listing_order ["input"]
           [("training-b", ["b0001.wav"; "b0001.hea"]);
            ("training-a", ["a0001.hea"; "a0001.wav"])]
           [("training-a", ["a0001.hea"; "a0001.wav"]);
            ("training-b", ["b0001.wav"; "b0001.hea"])]
           [("training-a", ["a0001.wav"; "a0001.hea"]);
            ("training-b", ["b0001.hea"; "b0001.wav"])]).
  - apply perm_swap.
  - repeat constructor; apply perm_swap.
Defined.

(** ** The two runners: what they return, and what a failure leaves *)

Section RunnerFacts.
Context {num : Type} `{Arith num}.
Variable train_manager :
  gmap string value -> gmap string loc -> heap num ->
  result (gmap string (list num) * gmap string (list num)).
Variable base_model_manager :
  gmap string value -> loc -> heap num -> result (list (Metric num)).
Variable json_dumps : gmap string value -> string.
Variable py_str : value -> string.
Variable metrics2df_cv : gmap string (list num) -> list (list cell).
Variable metrics2df : list (Metric num) -> list (list cell).
Variable output_dir : string.

Local Abbreviation hss_experiment' := (hss_experiment base_model_manager json_dumps py_str
                                                      metrics2df output_dir).
Local Abbreviation cv_experiment' := (cv_experiment train_manager json_dumps py_str
                                                    metrics2df_cv output_dir).
Local Abbreviation persist' := (persist json_dumps py_str output_dir).
Local Abbreviation params_file log_id conf :=
  (output_dir +:+ "/params/" +:+ py_str log_id +:+ ".txt",
   FText (String newline "Parameters:" +:+ String newline (json_dumps conf))).
Local Abbreviation metrics_file log_id rows :=
  (output_dir +:+ "/metrics/" +:+ py_str log_id +:+ "_test.csv", FCsv rows).


(** The metric list of the single-split runner (lines 136-139). *)
Lemma hss_metrics_run (h : heap num) :
  new_list [new_Metric "loss" minimize true; new_Metric "uar" maximize false] h =
    (Ok (length h + 2)%nat,
     h ++ [fresh_Metric "loss" minimize true; fresh_Metric "uar" maximize false;
           OList [length h; S (length h)]]).
Proof.
  unfold new_list, new_Metric. cbn [for_fold].
  unfold mbind, St_bind, mret, St_ret, alloc. cbn [app].
  rewrite <- !app_assoc. cbn [app]. rewrite !length_app. cbn [length].
  unfold fresh_Metric. rewrite !Nat.add_1_r. reflexivity.
Qed.

(** The state the single-split runner hands to the model manager. *)
Local Abbreviation hss_conf w task_type :=
  (<["prev_classes" := VInts [0; 1]]>
     (<["class_names" := VInts (if is_str task_type "regress" then [0] else [0; 1; 2])]>
        (train_conf w))).
Local Abbreviation hss_heap w :=
  (w_heap w ++ [fresh_Metric "loss" minimize true; fresh_Metric "uar" maximize false;
                OList [length (w_heap w); S (length (w_heap w))]]).
Local Abbreviation hss_world w task_type :=
  {| w_disk := w_disk w; w_heap := hss_heap w; train_conf := hss_conf w task_type;
     results := results w; val_results := val_results w; stdout := stdout w |}.

(** The runner up to the call of the model manager: the configuration
    entries it reads are there and the dataloader type is one of the
    two. *)
Lemma hss_experiment_until_manager (w : world num) (task_type kind : value) :
  train_conf w !! "task_type" = Some task_type ->
  is_Some (train_conf w !! "train_path") ->
  is_Some (train_conf w !! "val_path") ->
  is_Some (train_conf w !! "test_path") ->
  train_conf w !! "dataloader_type" = Some kind ->
  existsb (is_str kind) DATALOADERS = true ->
  hss_experiment' w =
    (metrics ← lift (base_model_manager (hss_conf w task_type)
                       (length (w_heap w) + 2)%nat (hss_heap w));
     uar ← lift (py_index (filter (fun m => name m = "uar") metrics) 0);
     persist' (metrics2df metrics);;
     lift (py_getitem (average_meter uar) "test")) (hss_world w task_type).
Proof.
  intros Htask [train_path Htrain] [val_path Hval] [test_path Htest] Hkind Hknown.
  unfold hss_experiment.
  unfold mbind at 1. unfold St_bind at 1. unfold conf_get at 1.
  unfold py_getitem at 1. rewrite Htask.
  unfold mbind at 1. unfold St_bind at 1. unfold conf_set at 1. unfold modify at 1.
  unfold mbind at 1. unfold St_bind at 1. unfold conf_set at 1. unfold modify at 1.
  cbn [train_conf w_disk w_heap results val_results stdout].
  unfold mbind at 1. unfold St_bind at 1.
  assert (for_each ["train"; "val"; "test"]
            (fun phase =>
               _ ← conf_get (phase +:+ "_path");
               kind ← conf_get "dataloader_type";
               if existsb (is_str kind) DATALOADERS then mret tt
               else raise (KeyError (py_str kind)))
            {| w_disk := w_disk w; w_heap := w_heap w; train_conf := hss_conf w task_type;
               results := results w; val_results := val_results w; stdout := stdout w |}
          = (Ok tt,
             {| w_disk := w_disk w; w_heap := w_heap w; train_conf := hss_conf w task_type;
                results := results w; val_results := val_results w; stdout := stdout w |}))
    as ->.
  { assert (forall phase path,
              train_conf w !! (phase +:+ "_path") = Some path ->
              phase +:+ "_path" <> "prev_classes" ->
              phase +:+ "_path" <> "class_names" ->
              (_ ← conf_get (phase +:+ "_path");
               kind ← conf_get "dataloader_type";
               if existsb (is_str kind) DATALOADERS then mret tt
               else raise (KeyError (py_str kind)))
                {| w_disk := w_disk w; w_heap := w_heap w;
                   train_conf := hss_conf w task_type;
                   results := results w; val_results := val_results w;
                   stdout := stdout w |}
              = (Ok tt,
                 {| w_disk := w_disk w; w_heap := w_heap w;
                    train_conf := hss_conf w task_type;
                    results := results w; val_results := val_results w;
                    stdout := stdout w |})) as Hphase.
    { intros phase path Hpath Hne Hne'.
      unfold mbind, St_bind, conf_get, py_getitem, mret, St_ret. cbn [train_conf].
      rewrite (lookup_insert_ne _ "prev_classes" (phase +:+ "_path")) by congruence.
      rewrite (lookup_insert_ne _ "class_names" (phase +:+ "_path")) by congruence.
      rewrite Hpath.
      rewrite (lookup_insert_ne _ "prev_classes" "dataloader_type") by done.
      rewrite (lookup_insert_ne _ "class_names" "dataloader_type") by done.
      rewrite Hkind, Hknown. reflexivity. }
    unfold for_each. cbn [for_fold].
    unfold mbind at 1. unfold St_bind at 1. rewrite (Hphase "train" train_path) by done.
    unfold mbind at 1. unfold St_bind at 1. rewrite (Hphase "val" val_path) by done.
    unfold mbind at 1. unfold St_bind at 1. rewrite (Hphase "test" test_path) by done.
    reflexivity. }
  unfold mbind at 1. unfold St_bind at 1. unfold on_heap at 1.
  cbn [train_conf w_disk w_heap results val_results stdout].
  rewrite hss_metrics_run.
  unfold mbind at 1. unfold St_bind at 1. unfold gets at 1.
  unfold mbind at 1. unfold St_bind at 1. unfold gets at 1.
  cbn [train_conf w_disk w_heap results val_results stdout].
  reflexivity.
Qed.


(** X16. When the model manager fails, or answers with no metric named
    ['uar'], the single-split runner raises (the manager's exception, or
    [IndexError]) and nothing is persisted: the training is lost. *)
Theorem hss_experiment_failure_persists_nothing (w : world num) (task_type kind : value) :
  train_conf w !! "task_type" = Some task_type ->
  is_Some (train_conf w !! "train_path") ->
  is_Some (train_conf w !! "val_path") ->
  is_Some (train_conf w !! "test_path") ->
  train_conf w !! "dataloader_type" = Some kind ->
  existsb (is_str kind) DATALOADERS = true ->
  match base_model_manager (hss_conf w task_type) (length (w_heap w) + 2)%nat (hss_heap w) with
  | Raise e => hss_experiment' w = (Raise e, hss_world w task_type)
  | Ok metrics =>
      Forall (fun m => name m <> "uar") metrics ->
      hss_experiment' w = (Raise IndexError, hss_world w task_type)
  end.
Proof.
  intros Htask Htrain Hval Htest Hkind Hknown.
  rewrite (hss_experiment_until_manager w task_type kind) by assumption.
  unfold mbind at 1. unfold St_bind at 1. unfold lift at 1.
  destruct (base_model_manager _ _ _) as [metrics | e]; [| reflexivity].
  intros Hnone.
  unfold mbind at 1. unfold St_bind at 1. unfold lift at 1.
  replace (filter (fun m => name m = "uar") metrics) with (@nil (Metric num));
    [reflexivity |].
  symmetry. induction Hnone as [| m metrics Hm _ IH]; [reflexivity |].
  now rewrite filter_cons_False.
Qed.

(** The state the cross-validation runner hands to the training manager. *)
Local Abbreviation cv_conf w task_type :=
  (<["prev_classes" := VInts [0; 1]]>
     (<["class_names" := VInts (if is_str task_type "regress" then [0] else [0; 1])]>
        (train_conf w))).
Local Abbreviation cv_phases w :=
  (<["test" := (length (w_heap w) + 8)%nat]>
     (<["val" := (length (w_heap w) + 2)%nat]>
        (<["train" := (length (w_heap w) + 9)%nat]> (∅ : gmap string loc)))).
Local Abbreviation cv_world w task_type :=
  {| w_disk := w_disk w; w_heap := w_heap w ++ cv_objects (length (w_heap w));
     train_conf := cv_conf w task_type;
     results := results w; val_results := val_results w; stdout := stdout w |}.

Lemma cv_experiment_until_manager (w : world num) (task_type : value) :
  train_conf w !! "task_type" = Some task_type ->
  cv_experiment' w =
    (r ← lift (train_manager (cv_conf w task_type) (cv_phases w)
                 (w_heap w ++ cv_objects (length (w_heap w))));
     let '(val_cv_metrics, test_cv_metrics) := r in
     persist' (metrics2df_cv test_cv_metrics);;
     uar ← lift (py_getitem val_cv_metrics "uar");
     mret (np_mean uar, test_cv_metrics)) (cv_world w task_type).
Proof.
  intros Htask. unfold cv_experiment.
  unfold mbind at 1. unfold St_bind at 1. unfold conf_get at 1.
  unfold py_getitem at 1. rewrite Htask.
  unfold mbind at 1. unfold St_bind at 1. unfold conf_set at 1. unfold modify at 1.
  unfold mbind at 1. unfold St_bind at 1. unfold conf_set at 1. unfold modify at 1.
  cbn [train_conf w_disk w_heap results val_results stdout].
  unfold mbind at 1. unfold St_bind at 1. unfold on_heap at 1.
  cbn [train_conf w_disk w_heap results val_results stdout].
  rewrite cv_metrics_run.
  unfold mbind at 1. unfold St_bind at 1. unfold gets at 1.
  unfold mbind at 1. unfold St_bind at 1. unfold gets at 1.
  cbn [train_conf w_disk w_heap results val_results stdout snd].
  reflexivity.
Qed.


(** X18. When the training manager fails, the cross-validation runner
    passes its exception on with nothing written to disk; the caller's
    configuration keeps the [class_names] and [prev_classes] written
    before the call, and the twelve metric objects stay in the store. *)
Theorem cv_experiment_manager_failure (w : world num) (task_type : value) (e : exn) :
  train_conf w !! "task_type" = Some task_type ->
  train_manager (cv_conf w task_type) (cv_phases w)
                (w_heap w ++ cv_objects (length (w_heap w)))
    = Raise e ->
  exists w',
    cv_experiment' w = (Raise e, w') /\
    w_disk w' = w_disk w /\
    length (w_heap w') = (length (w_heap w) + 12)%nat /\
    train_conf w' !! "class_names"
      = Some (VInts (if is_str task_type "regress" then [0] else [0; 1])) /\
    train_conf w' !! "prev_classes" = Some (VInts [0; 1]).
Proof.
  intros Htask Hmanager.
  rewrite (cv_experiment_until_manager w task_type Htask).
  unfold mbind at 1. unfold St_bind at 1. unfold lift at 1. rewrite Hmanager.
  eexists. split; [reflexivity |].
  cbn [w_disk w_heap train_conf].
  split; [reflexivity |]. split; [rewrite length_app; reflexivity |].
  split; [| apply lookup_insert_eq].
  rewrite lookup_insert_ne by done. apply lookup_insert_eq.
Qed.
End RunnerFacts.


Lemma hss_experiment_failure_persists_nothing_witness :
  let run :=
    hss_experiment (num := Q) (fun _ _ _ => Ok []) (fun _ => "{}") stub_py_str (fun _ => [])
                   "output" (script_world "HSS") in
  run.1 = Raise IndexError /\ w_disk run.2 = [].
Proof.
  intros run. subst run.
  pose proof (hss_experiment_failure_persists_nothing (num := Q) (fun _ _ _ => Ok [])
                (fun _ => "{}") stub_py_str (fun _ => []) "output" (script_world "HSS")
                (VStr "classify") (VStr "normal") eq_refl
                (ex_intro _ _ eq_refl) (ex_intro _ _ eq_refl) (ex_intro _ _ eq_refl)
                eq_refl eq_refl) as Hrun.
  cbv beta iota in Hrun. rewrite (Hrun (List.Forall_nil _)). split; reflexivity.
Defined.


Lemma cv_experiment_manager_failure_witness :
  exists w' : world Q,
    cv_experiment (fun _ _ _ => Raise (CollaboratorError "out of memory")) (fun _ => "{}")
                  stub_py_str (fun _ => []) "output" (stub_world "CinC")
      = (Raise (CollaboratorError "out of memory"), w') /\
    w_disk w' = w_disk (stub_world (num := Q) "CinC") /\
    length (w_heap w') = (length (w_heap (stub_world (num := Q) "CinC")) + 12)%nat /\
    train_conf w' !! "class_names"
      = Some (VInts (if is_str (VStr "classify") "regress" then [0] else [0; 1])) /\
    train_conf w' !! "prev_classes" = Some (VInts [0; 1]).
Proof.
  apply (cv_experiment_manager_failure (num := Q)
           (fun _ _ _ => Raise (CollaboratorError "out of memory")) (fun _ => "{}")
           stub_py_str (fun _ => []) "output" (stub_world "CinC") (VStr "classify")
           (CollaboratorError "out of memory")); reflexivity.
Defined.

(** ** Effects of the runners and of the grid loop *)

Section Keeps.
Context {S : Type} (R : relation S) `{!PreOrder R}.

Lemma keeps_ret {A} (a : A) : keeps R (mret a : St S A).
Proof. intros s. reflexivity. Qed.

Lemma keeps_raise {A} (e : exn) : keeps R (raise e : St S A).
Proof. intros s. reflexivity. Qed.

Lemma keeps_lift {A} (r : result A) : keeps R (lift r : St S A).
Proof. intros s. reflexivity. Qed.

Lemma keeps_gets {A} (f : S -> A) : keeps R (gets f).
Proof. intros s. reflexivity. Qed.

Lemma keeps_get_state : keeps R (get_state : St S S).
Proof. intros s. reflexivity. Qed.

Lemma keeps_bind {A B} (m : St S A) (f : A -> St S B) :
  keeps R m -> (forall a, keeps R (f a)) -> keeps R (m ≫= f).
Proof.
  intros Hm Hf s. unfold mbind, St_bind. specialize (Hm s).
  destruct (m s) as [[a | e] s1]; cbn [snd] in *; [| exact Hm].
  transitivity s1; [exact Hm | apply Hf].
Qed.

Lemma keeps_for_fold {A B} (xs : list A) (body : B -> A -> St S B) (acc : B) :
  (forall acc x, keeps R (body acc x)) -> keeps R (for_fold xs body acc).
Proof.
  intros Hbody. revert acc. induction xs as [| x xs IH]; intros acc; cbn [for_fold].
  - apply keeps_ret.
  - apply keeps_bind; [apply Hbody | intros acc'; apply IH].
Qed.

Lemma keeps_for_each {A} (xs : list A) (body : A -> St S unit) :
  (forall x, keeps R (body x)) -> keeps R (for_each xs body).
Proof. intros Hbody. apply keeps_for_fold. intros _ x. apply Hbody. Qed.

Lemma keeps_if {A} (b : bool) (c c' : St S A) :
  keeps R c -> keeps R c' -> keeps R (if b then c else c').
Proof. now destruct b. Qed.
End Keeps.

Lemma quiet_PreOrder {num} (allowed : string * file -> Prop) :
  PreOrder (quiet (num := num) allowed).
Proof.
  split.
  - intros w. split; [reflexivity |]. exists []. now rewrite app_nil_r.
  - intros w1 w2 w3 [Hout (new & Hdisk & Hnew)] [Hout' (new' & Hdisk' & Hnew')].
    split; [congruence |]. exists (new ++ new').
    split; [rewrite Hdisk', Hdisk; now rewrite app_assoc | now apply Forall_app].
Qed.

Section QuietRuns.
Context {num : Type} `{Arith num}.
Variable train_manager :
  gmap string value -> gmap string loc -> heap num ->
  result (gmap string (list num) * gmap string (list num)).
Variable base_model_manager :
  gmap string value -> loc -> heap num -> result (list (Metric num)).
Variable json_dumps : gmap string value -> string.
Variable py_str : value -> string.
Variable metrics2df_cv : gmap string (list num) -> list (list cell).
Variable metrics2df : list (Metric num) -> list (list cell).
Variable output_dir : string.
Variable allowed : string * file -> Prop.

Local Abbreviation keeps_quiet := (keeps (quiet (num := num) allowed)).

(** A step that leaves the disk and the output as they are. *)
Lemma quiet_same (w w' : world num) :
  stdout w' = stdout w -> w_disk w' = w_disk w -> quiet allowed w w'.
Proof.
  intros Hout Hdisk. split; [exact Hout |]. exists [].
  rewrite app_nil_r. split; [exact Hdisk | constructor].
Qed.

Lemma keeps_conf_get (k : string) : keeps_quiet (conf_get k).
Proof. intros w. now apply quiet_same. Qed.

Lemma keeps_conf_set (k : string) (v : value) : keeps_quiet (conf_set k v).
Proof. intros w. now apply quiet_same. Qed.

Lemma keeps_set_results (r : gmap string (list num)) : keeps_quiet (set_results r).
Proof. intros w. now apply quiet_same. Qed.

Lemma keeps_set_val_results (v : list num) : keeps_quiet (set_val_results v).
Proof. intros w. now apply quiet_same. Qed.

Lemma keeps_on_heap {A} (c : St (heap num) A) : keeps_quiet (on_heap c).
Proof.
  intros w. unfold on_heap. destruct (c (w_heap w)) as [r h]. now apply quiet_same.
Qed.

Lemma keeps_write_file (path : string) (f : file) :
  allowed (path, f) -> keeps_quiet (on_disk (write_file path f)).
Proof.
  intros Hallowed w. split; [reflexivity |]. exists [(path, f)].
  split; [reflexivity | now constructor].
Qed.
End QuietRuns.

(** The steps of a proof that a run is quiet. *)
Ltac keeps_step :=
  lazymatch goal with
  | |- keeps _ (mret _) => apply (@keeps_ret _ _ (quiet_PreOrder _))
  | |- keeps _ (raise _) => apply (@keeps_raise _ _ (quiet_PreOrder _))
  | |- keeps _ (lift _) => apply (@keeps_lift _ _ (quiet_PreOrder _))
  | |- keeps _ (gets _) => apply (@keeps_gets _ _ (quiet_PreOrder _))
  | |- keeps _ get_state => apply (@keeps_get_state _ _ (quiet_PreOrder _))
  | |- keeps _ (conf_get _) => apply keeps_conf_get
  | |- keeps _ (conf_set _ _) => apply keeps_conf_set
  | |- keeps _ (set_results _) => apply keeps_set_results
  | |- keeps _ (set_val_results _) => apply keeps_set_val_results
  | |- keeps _ (on_heap _) => apply keeps_on_heap
  | |- keeps _ (mbind _ _) => apply (@keeps_bind _ _ (quiet_PreOrder _)); [| intros ?]
  | |- keeps _ (for_fold _ _ _) => apply (@keeps_for_fold _ _ (quiet_PreOrder _)); intros ? ?
  | |- keeps _ (for_each _ _) => apply (@keeps_for_each _ _ (quiet_PreOrder _)); intros ?
  | |- keeps _ (match ?x with _ => _ end) => destruct x
  end.

Section RunnerEffects.
Context {num : Type} `{Arith num}.
Variable train_manager :
  gmap string value -> gmap string loc -> heap num ->
  result (gmap string (list num) * gmap string (list num)).
Variable base_model_manager :
  gmap string value -> loc -> heap num -> result (list (Metric num)).
Variable json_dumps : gmap string value -> string.
Variable py_str : value -> string.
Variable metrics2df_cv : gmap string (list num) -> list (list cell).
Variable metrics2df : list (Metric num) -> list (list cell).
Variable output_dir : string.

Local Abbreviation runner_quiet :=
  (keeps (quiet (num := num) (runner_file output_dir py_str))).

Lemma keeps_persist (rows : list (list cell)) :
  runner_quiet (persist json_dumps py_str output_dir rows).
Proof.
  unfold persist.
  keeps_step; [keeps_step | rename a into log_id].
  keeps_step; [keeps_step | rename a into conf].
  keeps_step; [apply keeps_write_file; exists log_id; now left |].
  keeps_step; [keeps_step | rename a0 into log_id'].
  apply keeps_write_file. exists log_id'. now right.
Qed.

Lemma keeps_hss_experiment :
  runner_quiet (hss_experiment base_model_manager json_dumps py_str metrics2df output_dir).
Proof.
  unfold hss_experiment.
  repeat lazymatch goal with
         | |- keeps _ (persist _ _ _ _) => apply keeps_persist
         | _ => keeps_step
         end.
Qed.

Lemma keeps_cv_experiment :
  runner_quiet (cv_experiment train_manager json_dumps py_str metrics2df_cv output_dir).
Proof.
  unfold cv_experiment.
  repeat lazymatch goal with
         | |- keeps _ (persist _ _ _ _) => apply keeps_persist
         | _ => keeps_step
         end.
Qed.

Lemma keeps_grid_cell (lr : float) :
  runner_quiet (grid_cell train_manager base_model_manager json_dumps py_str
                          metrics2df_cv metrics2df output_dir lr).
Proof.
  unfold grid_cell, subscript_append.
  repeat lazymatch goal with
         | |- keeps _ (hss_experiment _ _ _ _ _) => apply keeps_hss_experiment
         | |- keeps _ (cv_experiment _ _ _ _ _) => apply keeps_cv_experiment
         | _ => keeps_step
         end.
Qed.
End RunnerEffects.



Section GridEffects.
Context {num : Type} `{Arith num}.
Variable train_manager :
  gmap string value -> gmap string loc -> heap num ->
  result (gmap string (list num) * gmap string (list num)).
Variable base_model_manager :
  gmap string value -> loc -> heap num -> result (list (Metric num)).
Variable json_dumps : gmap string value -> string.
Variable py_str : value -> string.
Variable metrics2df_cv : gmap string (list num) -> list (list cell).
Variable metrics2df : list (Metric num) -> list (list cell).
Variable output_dir : string.

Local Abbreviation grid_cell' := (grid_cell train_manager base_model_manager json_dumps py_str
                                            metrics2df_cv metrics2df output_dir).
Local Abbreviation grid' := (grid train_manager base_model_manager json_dumps py_str
                                  metrics2df_cv metrics2df output_dir).
Local Abbreviation runner_files := (runner_file output_dir py_str).
(** The body of the model loop, lines 246-269. *)
Local Abbreviation model_body :=
  (fun model : string =>
     conf_set (num := num) "model_type" (VStr model);;
     print (PStr model);;
     for_each learning_rates grid_cell').





(** A model's round prints the model's name and nothing else, whether it
    completes or not. *)
Lemma model_body_stdout (model : string) (w : world num) :
  stdout (model_body model w).2 = stdout w ++ [PStr model].
Proof.
  unfold mbind at 1. unfold St_bind at 1. unfold conf_set at 1. unfold modify at 1.
  unfold mbind at 1. unfold St_bind at 1. unfold print at 1. unfold modify at 1.
  cbn [stdout w_disk w_heap train_conf results val_results].
  match goal with
  | |- stdout (for_each _ _ ?w1).2 = _ =>
      destruct (@keeps_for_each _ _ (quiet_PreOrder runner_files) _ learning_rates
                  grid_cell' (keeps_grid_cell _ _ _ _ _ _ _) w1) as [Hout _]
  end.
  exact Hout.
Qed.

Lemma models_loop_stdout (ms : list string) (w w' : world num) (r : result unit) :
  for_each ms model_body w = (r, w') ->
  match r with
  | Ok _ => stdout w' = stdout w ++ map PStr ms
  | Raise _ =>
      exists k, (1 <= k <= length ms)%nat /\
                stdout w' = stdout w ++ map PStr (take k ms)
  end.
Proof.
  revert w. induction ms as [| model ms IH]; intros w Hrun.
  - cbn in Hrun. injection Hrun as <- <-. cbn. now rewrite app_nil_r.
  - unfold for_each at 1 in Hrun. cbn [for_fold] in Hrun.
    unfold mbind at 1 in Hrun. unfold St_bind at 1 in Hrun.
    pose proof (model_body_stdout model w) as Hmodel. cbv beta in Hmodel.
    match type of Hrun with
    | (let (_, _) := ?c in _) = _ => destruct c as [[[] | e] w1]
    end; cbn [snd] in Hmodel.
    + apply IH in Hrun. destruct r as [[] | e].
      * rewrite Hrun, Hmodel, <- app_assoc. reflexivity.
      * destruct Hrun as (k & Hk & Hout). exists (S k). split; [cbn [length]; lia |].
        rewrite Hout, Hmodel, <- app_assoc. reflexivity.
    + injection Hrun as <- <-. exists 1%nat. split; [cbn [length]; lia |].
      cbn [take map]. rewrite take_0. exact Hmodel.
Qed.

(** X20. The results are printed only by a grid loop that runs to its
    end: a completed loop has printed the five model names, then
    [val_results], then [results]; a loop ended by an exception, from
    whichever cell and after however many completed cells, has printed
    model names only, so all that was collected is lost. *)
Theorem grid_prints_results_only_at_end (w : world num) :
  match (grid' w).1 with
  | Ok _ =>
      stdout (grid' w).2
      = stdout w ++ map PStr models
          ++ [PList (val_results (grid' w).2); PDict (results (grid' w).2)]
  | Raise _ =>
      exists k, (1 <= k <= 5)%nat /\
                stdout (grid' w).2 = stdout w ++ map PStr (take k models)
  end.
Proof.
  destruct (grid' w) as [r w'] eqn:Hgrid. cbn [fst snd].
  unfold grid in Hgrid.
  unfold mbind at 1 in Hgrid. unfold St_bind at 1 in Hgrid.
  unfold set_results at 1 in Hgrid. unfold modify at 1 in Hgrid.
  unfold mbind at 1 in Hgrid. unfold St_bind at 1 in Hgrid.
  unfold set_val_results at 1 in Hgrid. unfold modify at 1 in Hgrid.
  unfold mbind at 1 in Hgrid. unfold St_bind at 1 in Hgrid.
  match type of Hgrid with
  | context [for_each models _ ?w0] =>
      destruct (for_each models model_body w0) as [r1 w1] eqn:Hrun;
      apply models_loop_stdout in Hrun; cbn [stdout] in Hrun
  end.
  destruct r1 as [[] | e].
  - unfold mbind, St_bind, conf_get, get_state, print, modify in Hgrid.
    destruct (py_getitem (train_conf w1) "log_id") as [log_id | e];
      cbn in Hgrid; injection Hgrid as <- <-.
    + cbn [stdout val_results results]. rewrite Hrun, <- !app_assoc. reflexivity.
    + exists 5%nat. split; [lia | exact Hrun].
  - injection Hgrid as <- <-. exact Hrun.
Qed.
End GridEffects.

(** ** The grid loop on the cross-validation family: its files and objects *)


Section CincGridFiles.
Context {num : Type} `{Arith num}.
Variable train_manager :
  gmap string value -> gmap string loc -> heap num ->
  result (gmap string (list num) * gmap string (list num)).
Variable base_model_manager :
  gmap string value -> loc -> heap num -> result (list (Metric num)).
Variable json_dumps : gmap string value -> string.
Variable py_str : value -> string.
Variable metrics2df_cv : gmap string (list num) -> list (list cell).
Variable metrics2df : list (Metric num) -> list (list cell).
Variable output_dir : string.
(** The training manager answers every call, with a validation [uar]
    column and a test column for each tracked name. *)
Hypothesis answers :
  forall conf metrics h,
  exists val_cv_metrics test_cv_metrics uar (column : string -> list num),
    train_manager conf metrics h = Ok (val_cv_metrics, test_cv_metrics) /\
    val_cv_metrics !! "uar" = Some uar /\
    (forall metric_name, metric_name ∈ test_metric_names ->
       test_cv_metrics !! metric_name = Some (column metric_name)).
Variable log_id : value.

Local Abbreviation grid_cell' := (grid_cell train_manager base_model_manager json_dumps py_str
                                            metrics2df_cv metrics2df output_dir).
Local Abbreviation grid' := (grid train_manager base_model_manager json_dumps py_str
                                  metrics2df_cv metrics2df output_dir).
Local Abbreviation cell_paths :=
  [output_dir +:+ "/params/" +:+ py_str log_id +:+ ".txt";
   output_dir +:+ "/metrics/" +:+ py_str log_id +:+ "_test.csv"].





End CincGridFiles.


(** ** The script as a whole *)

Section MainFacts.
Context {num : Type} `{Arith num}.
Variable train_manager :
  gmap string value -> gmap string loc -> heap num ->
  result (gmap string (list num) * gmap string (list num)).
Variable base_model_manager :
  gmap string value -> loc -> heap num -> result (list (Metric num)).
Variable json_dumps : gmap string value -> string.
Variable py_str : value -> string.
Variable metrics2df_cv : gmap string (list num) -> list (list cell).
Variable metrics2df : list (Metric num) -> list (list cell).
Variable output_dir : string.
Variable gradcam_main : gmap string value -> result unit.
Variable input_dir : Path.
Variable wav_dir : list string.
Variables labels_train_dev labels_test : list (list string).
Variable cinc_dir : list (string * list string).
Variable read_text : Path -> result string.

Local Abbreviation main' :=
  (main train_manager base_model_manager json_dumps py_str metrics2df_cv metrics2df
        output_dir gradcam_main input_dir wav_dir labels_train_dev labels_test cinc_dir
        read_text).
Local Abbreviation grid' := (grid train_manager base_model_manager json_dumps py_str
                                  metrics2df_cv metrics2df output_dir).
Local Abbreviation build_hss :=
  (create_hss_manifest (path_str input_dir) wav_dir labels_train_dev labels_test).
Local Abbreviation build_cinc := (create_cinc_manifest input_dir cinc_dir read_text).

(** The assertion on the paths reads the configuration and changes
    nothing. *)
Lemma assert_paths_state (w : world num) : (assert_paths w).2 = w.
Proof.
  unfold assert_paths, mbind, St_bind, conf_get, mret, St_ret, raise.
  destruct (py_getitem (train_conf w) "train_path") as [train_path | e]; [| reflexivity].
  destruct (not_empty_str train_path); [reflexivity |].
  destruct (py_getitem (train_conf w) "val_path") as [val_path | e]; [| reflexivity].
  destruct (not_empty_str val_path); reflexivity.
Qed.

(** The script after the assertion on the paths, with [gradcam] off and
    the data source ['HSS']: the manifests, then the grid loop. *)
Lemma main_hss_run (w : world num) (gradcam : value) :
  assert_paths w = (Ok tt, w) ->
  train_conf w !! "gradcam" = Some gradcam ->
  truthy gradcam = false ->
  train_conf w !! "data_source" = Some (VStr "HSS") ->
  main' w =
    (on_disk build_hss;; grid';; mret ran_to_end) w.
Proof.
  intros Hpaths Hgradcam Hoff Hsource. unfold main.
  unfold mbind at 1. unfold St_bind at 1. rewrite Hpaths.
  unfold mbind at 1. unfold St_bind at 1. unfold conf_get at 1.
  unfold py_getitem at 1. rewrite Hgradcam, Hoff.
  unfold create_manifest.
  unfold mbind at 1. unfold St_bind at 1.
  unfold mbind at 1. unfold St_bind at 1. unfold conf_get at 1.
  unfold py_getitem at 1. rewrite Hsource.
  cbn [is_str String.eqb Ascii.eqb Bool.eqb].
  reflexivity.
Qed.

(** X22. With the data source ['HSS'] (the default of [--data-source])
    and [gradcam] off, the script never runs to its end, whatever the
    files and the collaborators: it ends by an exception. When the
    paths are given and the manifests can be built, the three manifests
    are written first and the exception is the [AttributeError] of the
    grid loop, raised before any training. *)
Theorem main_hss_never_completes (w : world num) (gradcam : value) :
  train_conf w !! "data_source" = Some (VStr "HSS") ->
  train_conf w !! "gradcam" = Some gradcam ->
  truthy gradcam = false ->
  (exists e, (main' w).1 = Raise e) /\
  (forall d' : disk,
     assert_paths w = (Ok tt, w) ->
     build_hss (w_disk w) = (Ok tt, d') ->
     (main' w).1 = Raise (AttributeError "'dict' object has no attribute 'append'") /\
     w_disk (main' w).2 = d' /\
     w_heap (main' w).2 = w_heap w).
Proof.
  intros Hsource Hgradcam Hoff.
  assert (forall d' : disk,
            assert_paths w = (Ok tt, w) ->
            build_hss (w_disk w) = (Ok tt, d') ->
            main' w =
              (Raise (AttributeError "'dict' object has no attribute 'append'"),
               {| w_disk := d'; w_heap := w_heap w;
                  train_conf := <["seed" := VInt 0]>
                                  (<["lr" := VFloat 0.0001]>
                                     (<["model_type" := VStr "vgg16"]> (train_conf w)));
                  results := empty_lists; val_results := [];
                  stdout := stdout w ++ [PStr "vgg16"] |})) as Hbuilt.
  { intros d' Hpaths Hbuild.
    rewrite (main_hss_run w gradcam Hpaths Hgradcam Hoff Hsource).
    unfold mbind at 1. unfold St_bind at 1. unfold on_disk at 1. rewrite Hbuild.
    unfold mbind at 1. unfold St_bind at 1.
    rewrite grid_hss_run by exact Hsource. reflexivity. }
  split.
  - pose proof (assert_paths_state w) as Hstate.
    destruct (assert_paths w) as [[[] | e] w1] eqn:Hpaths; cbn [snd] in Hstate; subst w1.
    + destruct (build_hss (w_disk w)) as [[[] | e] d'] eqn:Hbuild.
      * rewrite (Hbuilt d' eq_refl eq_refl). eauto.
      * rewrite (main_hss_run w gradcam Hpaths Hgradcam Hoff Hsource).
        unfold mbind at 1. unfold St_bind at 1. unfold on_disk at 1. rewrite Hbuild.
        eauto.
    + unfold main. unfold mbind at 1. unfold St_bind at 1. rewrite Hpaths. eauto.
  - intros d' Hpaths Hbuild. rewrite (Hbuilt d' Hpaths Hbuild). repeat split.
Qed.
(** X23. A run with [gradcam] on: unless the data source is ['CinC'] it
    fails at once with [AssertionError], the state untouched (so
    [--gradcam] alone, with the default data source, cannot work); on
    ['CinC'], once the visualisation has run, the script leaves through
    [exit()]: no manifest is built, no grid cell is run, nothing is
    printed, and only [class_names] was written into the
    configuration. *)
Theorem main_gradcam_asserts_or_exits (w : world num) (gradcam data_source : value) :
  assert_paths w = (Ok tt, w) ->
  train_conf w !! "gradcam" = Some gradcam ->
  truthy gradcam = true ->
  train_conf w !! "data_source" = Some data_source ->
  (is_str data_source "CinC" = false -> main' w = (Raise AssertionError, w)) /\
  (is_str data_source "CinC" = true ->
   is_Some (train_conf w !! "manifest_path") ->
   gradcam_main (<["class_names" := VInts [0; 1]]> (train_conf w)) = Ok tt ->
   main' w =
     (Ok called_exit,
      {| w_disk := w_disk w; w_heap := w_heap w;
         train_conf := <["class_names" := VInts [0; 1]]> (train_conf w);
         results := results w; val_results := val_results w; stdout := stdout w |})).
Proof.
  intros Hpaths Hgradcam Hon Hsource.
  assert (main' w =
            gradcam_branch gradcam_main w) as ->.
  { unfold main. unfold mbind at 1. unfold St_bind at 1. rewrite Hpaths.
    unfold mbind at 1. unfold St_bind at 1. unfold conf_get at 1.
    unfold py_getitem at 1. rewrite Hgradcam, Hon. reflexivity. }
  unfold gradcam_branch.
  split.
  - intros Hother.
    unfold mbind at 1. unfold St_bind at 1. unfold conf_get at 1.
    unfold py_getitem at 1. rewrite Hsource. cbv beta iota.
    rewrite Hother. reflexivity.
  - intros Hcinc [manifest_path Hmanifest] Hrun.
    unfold mbind at 1. unfold St_bind at 1. unfold conf_get at 1.
    unfold py_getitem at 1. rewrite Hsource. cbv beta iota.
    rewrite Hcinc.
    unfold mbind, St_bind, mret, St_ret, conf_set, modify, conf_get, gets, lift.
    cbn [train_conf]. unfold py_getitem.
    rewrite lookup_insert_ne by done. rewrite Hmanifest, Hrun. reflexivity.
Qed.

(** A failed build of the family B manifest leaves the disk as it was. *)
Lemma create_cinc_manifest_failure_disk (d d' : disk) (e : exn) :
  build_cinc d = (Raise e, d') -> d' = d.
Proof.
  unfold create_cinc_manifest.
  destruct (cinc_pairs_loop_reads_only read_text
              (zip (cinc_head_paths input_dir cinc_dir) (cinc_wav_paths input_dir cinc_dir))
              [] d) as ([labels | e'] & Hloop & _).
  - unfold mbind at 1. unfold St_bind at 1. rewrite Hloop. discriminate.
  - unfold mbind at 1. unfold St_bind at 1. rewrite Hloop. now intros [= _ <-].
Qed.

(** X24. On data source ['CinC'] a manifest build that fails (a header
    and a waveform whose names differ, a header that cannot be read)
    ends the script with that exception before any training: the
    training manager is not called and the state, the disk included,
    is as it was. *)
Theorem main_cinc_manifest_failure_stops (w : world num) (gradcam : value) (e : exn)
    (d' : disk) :
  assert_paths w = (Ok tt, w) ->
  train_conf w !! "gradcam" = Some gradcam ->
  truthy gradcam = false ->
  train_conf w !! "data_source" = Some (VStr "CinC") ->
  build_cinc (w_disk w) = (Raise e, d') ->
  main' w = (Raise e, w).
Proof.
  intros Hpaths Hgradcam Hoff Hsource Hbuild.
  pose proof (create_cinc_manifest_failure_disk _ _ _ Hbuild) as ->.
  unfold main.
  unfold mbind at 1. unfold St_bind at 1. rewrite Hpaths.
  unfold mbind at 1. unfold St_bind at 1. unfold conf_get at 1.
  unfold py_getitem at 1. rewrite Hgradcam, Hoff.
  unfold create_manifest.
  unfold mbind at 1. unfold St_bind at 1.
  unfold mbind at 1. unfold St_bind at 1. unfold conf_get at 1.
  unfold py_getitem at 1. rewrite Hsource.
  cbn [is_str String.eqb Ascii.eqb Bool.eqb].
  unfold mbind at 1. unfold St_bind at 1. unfold conf_get at 1.
  unfold py_getitem at 1. rewrite Hsource.
  cbn [is_str String.eqb Ascii.eqb Bool.eqb].
  unfold on_disk. rewrite Hbuild. destruct w; reflexivity.
Qed.
End MainFacts.

Lemma main_hss_never_completes_witness :
  let run :=
    main (stub_train_manager ∅ ∅) (no_model_manager (num := Q)) (fun _ => "{}") stub_py_str
         (fun _ => []) (fun _ => []) "output" (fun _ => Ok tt)
         ["input"] ["a_train.wav"; "a_devel.wav"; "a_test.wav"]
         [["file_name"; "label"]; ["x.wav"; "0"]; ["y.wav"; "1"]] [["t.wav"; "1"]]
         [] (fun _ => Ok "# Normal") (script_world "HSS") in
  run.1 = Raise (AttributeError "'dict' object has no attribute 'append'") /\
  written (w_disk run.2)
    = ["/input/train_manifest.csv"; "/input/val_manifest.csv"; "/input/test_manifest.csv"].
Proof.
  intros run. subst run.
  destruct (main_hss_never_completes
              (stub_train_manager ∅ ∅) (no_model_manager (num := Q)) (fun _ => "{}")
              stub_py_str (fun _ => []) (fun _ => []) "output" (fun _ => Ok tt)
              ["input"] ["a_train.wav"; "a_devel.wav"; "a_test.wav"]
              [["file_name"; "label"]; ["x.wav"; "0"]; ["y.wav"; "1"]] [["t.wav"; "1"]]
              [] (fun _ => Ok "# Normal") (script_world "HSS") (VBool false)
              eq_refl eq_refl eq_refl) as [_ Hbuilt].
  destruct (Hbuilt _ eq_refl eq_refl) as (Hraise & Hdisk & _).
  rewrite Hraise, Hdisk. split; reflexivity.
Defined.

Lemma main_gradcam_asserts_or_exits_witness :
  let w : world Q :=
    (conf_set "manifest_path" (VStr "input/cinc_manifest.csv")
       (conf_set "gradcam" (VBool true) (script_world "CinC")).2).2 in
  let run :=
    main (stub_train_manager ∅ ∅) no_model_manager (fun _ => "{}") stub_py_str
         (fun _ => []) (fun _ => []) "output" (fun _ => Ok tt)
         ["input"] [] [] [] [] (fun _ => Ok "# Normal") w in
  run.1 = Ok called_exit /\ w_disk run.2 = [] /\ stdout run.2 = [].
Proof.
  intros w run. subst run.
  destruct (main_gradcam_asserts_or_exits
              (stub_train_manager ∅ ∅) no_model_manager (fun _ => "{}") stub_py_str
              (fun _ => []) (fun _ => []) "output" (fun _ => Ok tt)
              ["input"] [] [] [] [] (fun _ => Ok "# Normal") w (VBool true) (VStr "CinC")
              eq_refl eq_refl eq_refl eq_refl) as [_ Hexit].
  rewrite (Hexit eq_refl (ex_intro _ _ eq_refl) eq_refl). repeat split.
Defined.

Lemma main_cinc_manifest_failure_stops_witness :
  main (stub_train_manager ∅ ∅) (no_model_manager (num := Q)) (fun _ => "{}") stub_py_str
       (fun _ => []) (fun _ => []) "output" (fun _ => Ok tt)
       ["input"] [] [] [] [("training-a", ["a0001.hea"; "a0002.wav"])]
       (fun _ => Ok "# Normal") (script_world "CinC")
  = (Raise AssertionError, script_world "CinC").
Proof.
  apply (main_cinc_manifest_failure_stops
           (stub_train_manager ∅ ∅) (no_model_manager (num := Q)) (fun _ => "{}") stub_py_str
           (fun _ => []) (fun _ => []) "output" (fun _ => Ok tt)
           ["input"] [] [] [] [("training-a", ["a0001.hea"; "a0002.wav"])]
           (fun _ => Ok "# Normal") (script_world "CinC") (VBool false) AssertionError []);
    reflexivity.
Defined.

(** ** [deepcopy] of a metric list *)

Section DeepcopyFacts.
Context {num : Type} `{Arith num}.

Lemma lookup_copies (h : heap num) (o : obj num) (l : list (obj num)) :
  map (fun a => (h ++ o :: l) !! a) (seq (length h + 1) (length l)) = map Some l.
Proof.
  revert h o. induction l as [| o' l IH]; intros h o; [reflexivity |].
  cbn [length seq map]. f_equal.
  - rewrite lookup_app_plus. reflexivity.
  - specialize (IH (h ++ [o]) o'). rewrite <- app_assoc in IH. cbn [app] in IH.
    rewrite length_app in IH. cbn [length] in IH.
    replace (S (length h + 1)) with (length h + 1 + 1)%nat by lia. exact IH.
Qed.

Lemma old_metrics_kept (h later : heap num) (items : list loc)
    (ms : list (Metric num)) :
  Forall2 (fun a m => h !! a = Some (OMetric m)) items ms ->
  map (fun a => (h ++ later) !! a) items = map Some (map OMetric ms).
Proof.
  induction 1 as [| a m items ms Ha _ IH]; [reflexivity |].
  cbn [map]. f_equal; [now apply lookup_app_l_Some | exact IH].
Qed.

(** X25. [deepcopy] of a list of distinct [Metric] objects, as line 189
    calls it, succeeds, leaves every object of the store as it was, and
    returns a new list (at an address not in use before) none of whose
    items is an item of the original and whose items hold, position by
    position, the same metrics. *)
Theorem deepcopy_metric_list_fresh (h : heap num) (x : loc) (items : list loc)
    (ms : list (Metric num)) :
  h !! x = Some (OList items) ->
  Forall2 (fun a m => h !! a = Some (OMetric m)) items ms ->
  NoDup items ->
  exists (y : loc) (h' : heap num),
    deepcopy x h = (Ok y, h') /\
    (forall a o, h !! a = Some o -> h' !! a = Some o) /\
    h !! y = None /\
    deep_copy_of h' y x.
Proof.
  intros Hx Hitems Hnodup.
  exists (length h), (h ++ OList (seq (length h + 1) (length items)) :: map OMetric ms).
  pose proof (lookup_lt_Some _ _ _ Hx) as Hlt.
  assert (length ms = length items) as Hlen by (symmetry; eapply Forall2_length, Hitems).
  assert (forall a, a ∈ items -> (a < length h)%nat) as Hold.
  { intros a Ha. apply list_elem_of_lookup in Ha as [i Hi].
    destruct (Forall2_lookup_l _ _ _ _ _ Hitems Hi) as (m & _ & Hm).
    eapply lookup_lt_Some, Hm. }
  split; [apply deepcopy_metric_list; assumption |].
  split; [intros a o Ha; now apply lookup_app_l_Some |].
  split; [apply lookup_ge_None_2; lia |].
  unfold deep_copy_of, metrics_of, list_items.
  rewrite lookup_app_length. cbn [lookup list_lookup].
  rewrite (lookup_app_l_Some _ _ _ _ Hx).
  split; [lia |]. split.
  - intros a Ha Ha'. apply elem_of_seq in Ha. apply Hold in Ha'. lia.
  - rewrite <- Hlen, <- (length_map OMetric ms), lookup_copies.
    symmetry. apply old_metrics_kept, Hitems.
Qed.
End DeepcopyFacts.

Lemma deepcopy_metric_list_fresh_witness :
  let h : heap Q :=
    [fresh_Metric "loss" minimize true; fresh_Metric "uar" maximize false;
     OList [0%nat; 1%nat]] in
  exists (y : loc) (h' : heap Q),
    deepcopy 2%nat h = (Ok y, h') /\
    (forall a o, h !! a = Some o -> h' !! a = Some o) /\
    h !! y = None /\
    deep_copy_of h' y 2%nat.
Proof.
  intros h.
  apply (deepcopy_metric_list_fresh h 2%nat [0%nat; 1%nat]
           [{| name := "loss"; m_direction := minimize; save_model := true;
               average_meter := ∅ |};
            {| name := "uar"; m_direction := maximize; save_model := false;
               average_meter := ∅ |}]).
  - reflexivity.
  - repeat constructor.
  - repeat constructor; rewrite ?list_elem_of_In; cbn; lia.
Defined.
